(** * Azure IoT device simulator: telemetry generation, device simulation
      and metrics aggregation

    A shallow embedding of

    - [src/monitoring/metrics_collector.py]      (module [Metrics]),
    - [src/azure_integration/message_generator.py] (module [Generator]),
    - [src/azure_integration/device_client.py]     (modules [Device] and
      [Manager]),
    - [src/azure_integration/simulation_engine.py] (modules [Simulation]
      and [Engine]),
    - [src/core/events.py]                         (module [Events]),

    with the properties of the specification stated and proved over it,
    and further properties of the code after them.

    Python integers are [Z]; Python floats are IEEE binary64 numbers, taken
    from the kernel's primitive floats ([PrimFloat]) so that arithmetic
    rounds as it does in CPython; a [dict] is a [gmap]; mutation of [self]
    is explicit state passing. *)

From Stdlib Require Import ZArith Floats Ascii String.
From stdpp Require Import gmap strings list pretty.

Set Warnings "-inexact-float".
Set Default Proof Using "Type".

(** ** Python values *)

Module Py.

(** *** binary64 conversions *)

Definition prec : Z := 53.
Definition emax : Z := 1024.

Definition sf_of_int (z : Z) : spec_float :=
  match z with
  | Z0 => S754_zero false
  | Zpos p => S754_finite false p 0
  | Zneg p => S754_finite true p 0
  end.

(** [float(z)]: the nearest double, ties to even; [OverflowError]
    ([None]) when the integer is too large. *)
Definition float_of_int (z : Z) : option float :=
  let f := SF2Prim (binary_normalize prec emax z 0 false) in
  if PrimFloat.is_infinity f then None else Some f.

(** [n / d] on two integers ([d] positive): true division, correctly
    rounded. *)
Definition float_of_ratio (n d : Z) : float :=
  SF2Prim (SFdiv prec emax (sf_of_int n) (sf_of_int d)).

(** [int(f)]: truncation towards zero; [ValueError] / [OverflowError]
    ([None]) on nan and the infinities. *)
Definition int_of_float (f : float) : option Z :=
  match Prim2SF f with
  | S754_zero _ => Some 0%Z
  | S754_finite s m e =>
      let a := match e with
               | Zneg k => Z.shiftr (Zpos m) (Zpos k)
               | _ => Z.shiftl (Zpos m) e
               end in
      Some (if s then Z.opp a else a)
  | _ => None
  end.

Definition div_half_even (n d : Z) : Z :=
  let q := (n `div` d)%Z in
  let r := (n `mod` d)%Z in
  match (2 * r ?= d)%Z with
  | Lt => q
  | Gt => (q + 1)%Z
  | Eq => if Z.even q then q else (q + 1)%Z
  end.

(** [round(f, 2)] on a float: the exact value is rounded half-even to two
    decimals and the decimal is read back as the nearest double; nan and
    the infinities are returned as they are. *)
Definition round2 (f : float) : float :=
  match Prim2SF f with
  | S754_finite s m e =>
      let n := match e with
               | Zneg k => div_half_even (Zpos m * 100) (Z.shiftl 1 (Zpos k))
               | _ => (Z.shiftl (Zpos m) e * 100)%Z
               end in
      match n with
      | Z0 => SF2Prim (S754_zero s)
      | _ => SF2Prim (SFdiv prec emax
                        (sf_of_int (if s then Z.opp n else n))
                        (sf_of_int 100))
      end
  | _ => f
  end.

(** A float is falsy exactly when it compares equal to zero. *)
Definition float_truthy (f : float) : bool := negb (PrimFloat.eqb f 0).

(** *** dynamically typed values *)

(** The values the modelled code stores in [Any]-typed fields and puts
    into messages.  [PLoc] is the two-entry dict of [_generate_location]. *)
Inductive pyval : Type :=
| PNone
| PBool (b : bool)
| PInt (z : Z)
| PFloat (f : float)
| PStr (s : string)
| PLoc (latitude longitude : float).

Definition truthy (v : pyval) : bool :=
  match v with
  | PNone => false
  | PBool b => b
  | PInt z => negb (z =? 0)%Z
  | PFloat f => float_truthy f
  | PStr s => negb (String.eqb s "")
  | PLoc _ _ => true
  end.

(** [a or b] *)
Definition por (a b : pyval) : pyval := if truthy a then a else b.

(** Outcome of an operation that can raise. *)
Inductive result (A : Type) : Type :=
| Ok (a : A)
| Raise.
Global Arguments Ok {A} a.
Global Arguments Raise {A}.

Definition of_option {A} (o : option A) : result A :=
  match o with Some a => Ok a | None => Raise end.

(** *** builtins on (ASCII) strings *)

Definition is_space (a : ascii) : bool :=
  let n := Ascii.N_of_ascii a in
  bool_decide (n = 32 ∨ 9 ≤ n ≤ 13)%N.

Definition digit_of (a : ascii) : option Z :=
  let n := Z.of_N (Ascii.N_of_ascii a) in
  if decide (48 ≤ n ≤ 57)%Z then Some (n - 48)%Z else None.

(** Decimal digits with single underscores between them, as [int()] reads
    them. *)
Fixpoint int_digits (acc : Z) (after_digit : bool) (l : list ascii)
  : option Z :=
  match l with
  | [] => if after_digit then Some acc else None
  | a :: l' =>
      match digit_of a with
      | Some d => int_digits (acc * 10 + d) true l'
      | None =>
          if Ascii.eqb a "_" && after_digit then int_digits acc false l'
          else None
      end
  end.

Fixpoint lstrip (l : list ascii) : list ascii :=
  match l with
  | a :: l' => if is_space a then lstrip l' else l
  | [] => []
  end.

Definition strip (l : list ascii) : list ascii :=
  reverse (lstrip (reverse (lstrip l))).

(** [int(s)] on a string: surrounding white space, an optional sign, then
    the digits. *)
Definition int_of_str (s : string) : option Z :=
  match strip (list_ascii_of_string s) with
  | "-"%char :: l => Z.opp <$> int_digits 0 false l
  | "+"%char :: l => int_digits 0 false l
  | l => int_digits 0 false l
  end.

Definition lower_ascii (a : ascii) : ascii :=
  let n := Ascii.N_of_ascii a in
  if decide (65 ≤ n ≤ 90)%N then Ascii.ascii_of_N (n + 32) else a.

(** [s.lower()] *)
Definition lower (s : string) : string :=
  string_of_list_ascii (lower_ascii <$> list_ascii_of_string s).

(** [int(v)] *)
Definition py_int (v : pyval) : result pyval :=
  match v with
  | PInt z => Ok (PInt z)
  | PBool b => Ok (PInt (if b then 1 else 0))
  | PFloat f => of_option (PInt <$> int_of_float f)
  | PStr s => of_option (PInt <$> int_of_str s)
  | PNone | PLoc _ _ => Raise
  end.

(** [round(v, 2)]: an int is returned as it is, a float is rounded. *)
Definition py_round2 (v : pyval) : result pyval :=
  match v with
  | PInt z => Ok (PInt z)
  | PBool b => Ok (PInt (if b then 1 else 0))
  | PFloat f => Ok (PFloat (round2 f))
  | PNone | PStr _ | PLoc _ _ => Raise
  end.

(** [str(v)], given the text [repr] prints for a float. *)
Definition py_str (float_repr : float → string) (v : pyval) : string :=
  match v with
  | PNone => "None"
  | PBool b => if b then "True" else "False"
  | PInt z => pretty z
  | PFloat f => float_repr f
  | PStr s => s
  | PLoc la lo =>
      "{'latitude': " +:+ float_repr la +:+ ", 'longitude': "
        +:+ float_repr lo +:+ "}"
  end.

(** [a == b] on two numbers: an int and a float are compared exactly. *)
Definition num_eqb (a b : pyval) : bool :=
  match a, b with
  | PInt x, PInt y => (x =? y)%Z
  | PFloat x, PFloat y => PrimFloat.eqb x y
  | PInt x, PFloat y | PFloat y, PInt x =>
      match float_of_int x with
      | Some fx =>
          PrimFloat.eqb fx y
          && match int_of_float y with Some iy => (iy =? x)%Z | None => false end
      | None => false
      end
  | _, _ => false
  end.

End Py.
Export Py.

(** ** The metrics collector ([monitoring/metrics_collector.py]) *)

Module Metrics.

(** A naive [datetime], as microseconds on its time line, and the text
    [isoformat()] prints for it, kept as the instant it denotes. *)
Definition datetime : Type := Z.
Inductive isotext : Type := isoformat (d : datetime).

Definition timedelta_minutes (m : Z) : Z := (m * 60000000)%Z.
Definition timedelta_hours (h : Z) : Z := (h * 3600000000)%Z.

Record DeviceMetrics : Type := mkDeviceMetrics {
  message_count : Z;
  error_count : Z;
  last_message_time : option datetime;
  connection_status : string;
  simulation_status : string
}.

Record SystemMetrics : Type := mkSystemMetrics {
  total_messages : Z;
  total_errors : Z;
  messages_per_second : float;
  active_devices : Z;
  connected_devices : Z
}.

(** The payload of a [METRICS_UPDATED] event. *)
Record MetricsEvent : Type := mkMetricsEvent {
  ev_device_id : string;
  ev_metric_type : string;
  ev_timestamp : datetime
}.

Record MetricsCollector : Type := mkMetricsCollector {
  device_metrics : gmap string DeviceMetrics;
  system_metrics : SystemMetrics;
  history_size : nat;
  message_history : list (datetime * Z);
  error_history : list (datetime * Z);
  start_time : datetime;
  _last_update : float;
  (** what [emit_event] handed to the event bus, oldest first *)
  emitted : list MetricsEvent
}.

(** The [defaultdict] factory of [__init__]. *)
Definition default_device_metrics : DeviceMetrics :=
  {| message_count := 0;
     error_count := 0;
     last_message_time := None;
     connection_status := "disconnected";
     simulation_status := "stopped" |}.

Definition zero_system_metrics : SystemMetrics :=
  {| total_messages := 0;
     total_errors := 0;
     messages_per_second := 0;
     active_devices := 0;
     connected_devices := 0 |}.

(** [__init__], reading [datetime.now()] and [time.time()]. *)
Definition init (now : datetime) (time : float) : MetricsCollector :=
  {| device_metrics := ∅;
     system_metrics := zero_system_metrics;
     history_size := 24 * 60;
     message_history := [];
     error_history := [];
     start_time := now;
     _last_update := time;
     emitted := [] |}.

(** [d[k]] on the [defaultdict]: a missing key is inserted with the
    default entry before it is returned. *)
Definition getitem (dm : gmap string DeviceMetrics) (k : string)
  : DeviceMetrics * gmap string DeviceMetrics :=
  match dm !! k with
  | Some m => (m, dm)
  | None => (default_device_metrics, <[k := default_device_metrics]> dm)
  end.

(** [d[k][field] = ...]: the entry fetched by [getitem] is updated in
    place. *)
Definition setitem (dm : gmap string DeviceMetrics) (k : string)
    (f : DeviceMetrics → DeviceMetrics) : gmap string DeviceMetrics :=
  let '(m, dm') := getitem dm k in <[k := f m]> dm'.

(** [deque(maxlen=n).append(x)]: a full deque drops its leftmost item. *)
Definition deque_append {A} (maxlen : nat) (d : list A) (x : A) : list A :=
  if decide (length d < maxlen) then d ++ [x] else drop 1 (d ++ [x]).

Definition set_device_metrics (c : MetricsCollector) dm : MetricsCollector :=
  mkMetricsCollector dm (system_metrics c) (history_size c)
    (message_history c) (error_history c) (start_time c) (_last_update c)
    (emitted c).

Definition emit_event (c : MetricsCollector) (e : MetricsEvent)
  : MetricsCollector :=
  mkMetricsCollector (device_metrics c) (system_metrics c) (history_size c)
    (message_history c) (error_history c) (start_time c) (_last_update c)
    (emitted c ++ [e]).

(** The clock readings of one [record_message_sent] call, in the order the
    call takes them. *)
Record SentClock : Type := mkSentClock {
  now_last_message : datetime;   (* line 41 *)
  now_current : datetime;        (* line 46 *)
  time_rates : float;            (* line 103, time.time() *)
  now_rates : datetime           (* line 108 *)
}.

Definition sum_counts (l : list Z) : Z := foldr Z.add 0%Z l.

(** [_update_rates].  The history holds at most [history_size] counts of
    1, so the sum converts to a float exactly. *)
Definition _update_rates (c : MetricsCollector) (current_time : float)
    (now : datetime) : MetricsCollector :=
  let time_diff := PrimFloat.sub current_time (_last_update c) in
  if PrimFloat.leb 1 time_diff then
    let one_minute_ago := (now - timedelta_minutes 1)%Z in
    let recent_messages :=
      (λ tc, snd tc) <$>
      filter (λ tc, (one_minute_ago ≤ fst tc)%Z) (message_history c) in
    let sm := system_metrics c in
    let rate :=
      PrimFloat.div
        (SF2Prim (binary_normalize prec emax (sum_counts recent_messages) 0 false))
        60 in
    mkMetricsCollector (device_metrics c)
      (mkSystemMetrics (total_messages sm) (total_errors sm) rate
         (active_devices sm) (connected_devices sm))
      (history_size c) (message_history c) (error_history c)
      (start_time c) current_time (emitted c)
  else c.

Definition record_message_sent (c : MetricsCollector) (device_id : string)
    (message_data : gmap string pyval) (clk : SentClock) : MetricsCollector :=
  let dm1 := setitem (device_metrics c) device_id
    (λ m, mkDeviceMetrics (message_count m + 1) (error_count m)
            (last_message_time m) (connection_status m) (simulation_status m)) in
  let dm2 := setitem dm1 device_id
    (λ m, mkDeviceMetrics (message_count m) (error_count m)
            (Some (now_last_message clk)) (connection_status m)
            (simulation_status m)) in
  let sm := system_metrics c in
  let sm' := mkSystemMetrics (total_messages sm + 1) (total_errors sm)
               (messages_per_second sm) (active_devices sm)
               (connected_devices sm) in
  let current_time := now_current clk in
  let c1 := mkMetricsCollector dm2 sm' (history_size c)
              (deque_append (history_size c) (message_history c)
                 (current_time, 1%Z))
              (error_history c) (start_time c) (_last_update c) (emitted c) in
  let c2 := _update_rates c1 (time_rates clk) (now_rates clk) in
  emit_event c2 (mkMetricsEvent device_id "message_sent" current_time).

Definition record_message_error (c : MetricsCollector) (device_id : string)
    (error_data : gmap string pyval) (now : datetime) : MetricsCollector :=
  let dm1 := setitem (device_metrics c) device_id
    (λ m, mkDeviceMetrics (message_count m) (error_count m + 1)
            (last_message_time m) (connection_status m) (simulation_status m)) in
  let sm := system_metrics c in
  let sm' := mkSystemMetrics (total_messages sm) (total_errors sm + 1)
               (messages_per_second sm) (active_devices sm)
               (connected_devices sm) in
  let current_time := now in
  let c1 := mkMetricsCollector dm1 sm' (history_size c)
              (message_history c)
              (deque_append (history_size c) (error_history c)
                 (current_time, 1%Z))
              (start_time c) (_last_update c) (emitted c) in
  emit_event c1 (mkMetricsEvent device_id "message_error" current_time).

(** [status_data.get(key, False)] *)
Definition status_get (status_data : gmap string pyval) (key : string) : pyval :=
  default (PBool false) (status_data !! key).

Definition update_device_status (c : MetricsCollector) (device_id : string)
    (status_data : gmap string pyval) : MetricsCollector :=
  let '(metrics, dm) := getitem (device_metrics c) device_id in
  let old_connected := bool_decide (connection_status metrics = "connected") in
  let old_simulating := bool_decide (simulation_status metrics = "running") in
  let metrics' :=
    mkDeviceMetrics (message_count metrics) (error_count metrics)
      (last_message_time metrics)
      (if truthy (status_get status_data "connected")
       then "connected" else "disconnected")
      (if truthy (status_get status_data "simulating")
       then "running" else "stopped") in
  let new_connected := bool_decide (connection_status metrics' = "connected") in
  let new_simulating := bool_decide (simulation_status metrics' = "running") in
  let sm := system_metrics c in
  let connected' :=
    if negb (eqb new_connected old_connected) then
      if new_connected then (connected_devices sm + 1)%Z
      else (connected_devices sm - 1)%Z
    else connected_devices sm in
  let active' :=
    if negb (eqb new_simulating old_simulating) then
      if new_simulating then (active_devices sm + 1)%Z
      else (active_devices sm - 1)%Z
    else active_devices sm in
  mkMetricsCollector (<[device_id := metrics']> dm)
    (mkSystemMetrics (total_messages sm) (total_errors sm)
       (messages_per_second sm) active' connected')
    (history_size c) (message_history c) (error_history c)
    (start_time c) (_last_update c) (emitted c).

(** [get_device_metrics]: the copy it returns, and the collector after the
    [defaultdict] lookup. *)
Definition get_device_metrics (c : MetricsCollector) (device_id : string)
  : DeviceMetrics * MetricsCollector :=
  let '(m, dm) := getitem (device_metrics c) device_id in
  (m, set_device_metrics c dm).

Record SystemReport : Type := mkSystemReport {
  rep_total_messages : Z;
  rep_total_errors : Z;
  rep_messages_per_second : float;
  rep_active_devices : Z;
  rep_connected_devices : Z;
  uptime_seconds : float;
  total_devices : nat
}.

Definition get_system_metrics (c : MetricsCollector) (now : datetime)
  : SystemReport :=
  let uptime := (now - start_time c)%Z in
  let sm := system_metrics c in
  {| rep_total_messages := total_messages sm;
     rep_total_errors := total_errors sm;
     rep_messages_per_second := messages_per_second sm;
     rep_active_devices := active_devices sm;
     rep_connected_devices := connected_devices sm;
     uptime_seconds := float_of_ratio uptime 1000000;
     total_devices := size (device_metrics c) |}.

Record HistoricalData : Type := mkHistoricalData {
  messages : list (isotext * Z);
  errors : list (isotext * Z)
}.

Definition get_historical_data (c : MetricsCollector) (hours : Z)
    (now : datetime) : HistoricalData :=
  let cutoff_time := (now - timedelta_hours hours)%Z in
  let pick (h : list (datetime * Z)) :=
    (λ tc, (isoformat (fst tc), snd tc)) <$>
    filter (λ tc, (cutoff_time ≤ fst tc)%Z) h in
  {| messages := pick (message_history c);
     errors := pick (error_history c) |}.

Record Export : Type := mkExport {
  exp_system_metrics : SystemReport;
  exp_device_metrics : gmap string DeviceMetrics;
  exp_historical_data : HistoricalData;
  export_timestamp : isotext
}.

Record ExportClock : Type := mkExportClock {
  now_uptime : datetime;
  now_cutoff : datetime;
  now_export : datetime
}.

Definition export_metrics (c : MetricsCollector) (clk : ExportClock) : Export :=
  {| exp_system_metrics := get_system_metrics c (now_uptime clk);
     exp_device_metrics := device_metrics c;
     exp_historical_data := get_historical_data c 24 (now_cutoff clk);
     export_timestamp := isoformat (now_export clk) |}.

Definition reset_metrics (c : MetricsCollector) (now : datetime)
  : MetricsCollector :=
  mkMetricsCollector ∅ zero_system_metrics (history_size c) [] []
    now (_last_update c) (emitted c).

(** *** Sequences of calls *)

Inductive call : Type :=
| RecordMessageSent (device_id : string) (data : gmap string pyval)
    (clk : SentClock)
| RecordMessageError (device_id : string) (data : gmap string pyval)
    (now : datetime)
| UpdateDeviceStatus (device_id : string) (status_data : gmap string pyval)
| GetDeviceMetrics (device_id : string)
| ResetMetrics (now : datetime).

Definition step (c : MetricsCollector) (k : call) : MetricsCollector :=
  match k with
  | RecordMessageSent i d clk => record_message_sent c i d clk
  | RecordMessageError i d now => record_message_error c i d now
  | UpdateDeviceStatus i sd => update_device_status c i sd
  | GetDeviceMetrics i => snd (get_device_metrics c i)
  | ResetMetrics now => reset_metrics c now
  end.

Definition run (c : MetricsCollector) (ks : list call) : MetricsCollector :=
  foldl step c ks.

Definition is_sent (k : call) : bool :=
  match k with RecordMessageSent _ _ _ => true | _ => false end.
Definition is_error (k : call) : bool :=
  match k with RecordMessageError _ _ _ => true | _ => false end.

(** The number of entries whose status field reads as given. *)
Definition count_status (field : DeviceMetrics → string) (v : string)
    (dm : gmap string DeviceMetrics) : Z :=
  Z.of_nat (size (filter (λ kv, field (snd kv) = v) dm)).
Definition count_connected (dm : gmap string DeviceMetrics) : Z :=
  count_status connection_status "connected" dm.
Definition count_running (dm : gmap string DeviceMetrics) : Z :=
  count_status simulation_status "running" dm.

Definition is_reset (k : call) : bool :=
  match k with ResetMetrics _ => true | _ => false end.

(** The entries a sequence of calls appends to a history that is never
    full: a reset empties it. *)
Definition appended_messages (ks : list call) : list (datetime * Z) :=
  foldl (λ acc k,
           match k with
           | RecordMessageSent _ _ clk => acc ++ [(now_current clk, 1%Z)]
           | ResetMetrics _ => []
           | _ => acc
           end) [] ks.

Definition appended_errors (ks : list call) : list (datetime * Z) :=
  foldl (λ acc k,
           match k with
           | RecordMessageError _ _ now => acc ++ [(now, 1%Z)]
           | ResetMetrics _ => []
           | _ => acc
           end) [] ks.

(** The last [n] items of a list, in their order. *)
Definition last_n {A} (n : nat) (l : list A) : list A :=
  drop (length l - n) l.

Definition counters_agree (c : MetricsCollector) : Prop :=
  connected_devices (system_metrics c) = count_connected (device_metrics c)
  ∧ active_devices (system_metrics c) = count_running (device_metrics c).

(** *** Views of a collector *)

(** The sum of a counter over the per-device map. *)
Definition sum_devices (f : DeviceMetrics → Z)
    (dm : gmap string DeviceMetrics) : Z :=
  map_fold (λ _ m acc, (f m + acc)%Z) 0%Z dm.

Definition totals_agree (c : MetricsCollector) : Prop :=
  total_messages (system_metrics c)
  = sum_devices message_count (device_metrics c)
  ∧ total_errors (system_metrics c)
    = sum_devices error_count (device_metrics c).

(** What every entry of the per-device map looks like. *)
Definition well_formed_entry (m : DeviceMetrics) : Prop :=
  (connection_status m = "connected" ∨ connection_status m = "disconnected")
  ∧ (simulation_status m = "running" ∨ simulation_status m = "stopped")
  ∧ (0 ≤ message_count m)%Z
  ∧ (0 ≤ error_count m)%Z
  ∧ (last_message_time m = None ↔ message_count m = 0%Z).

(** The [METRICS_UPDATED] events a sequence of calls hands to the bus. *)
Definition emitted_by (ks : list call) : list MetricsEvent :=
  omap (λ k,
          match k with
          | RecordMessageSent i _ clk =>
              Some (mkMetricsEvent i "message_sent" (now_current clk))
          | RecordMessageError i _ now =>
              Some (mkMetricsEvent i "message_error" now)
          | _ => None
          end) ks.

End Metrics.


(** ** Message templates ([azure_integration/message_generator.py]) *)

Module Generator.

Inductive DataPattern : Type :=
| CONSTANT
| RANDOM
| SINE_WAVE
| LINEAR
| GAUSSIAN.

Global Instance DataPattern_eq_dec : EqDecision DataPattern.
Proof. solve_decision. Defined.

(** [FieldConfig], with the field types of the dataclass declaration. *)
Record FieldConfig : Type := mkFieldConfig {
  name : string;
  data_type : string;
  pattern : DataPattern;
  min_value : option float;
  max_value : option float;
  constant_value : pyval;
  step_size : float;
  amplitude : float;
  frequency : float;
  mean : float;
  std_dev : float
}.

(** The constructor call [FieldConfig(name, data_type, pattern)] with the
    defaults of the declaration. *)
Definition field_config (n dt : string) (p : DataPattern) : FieldConfig :=
  mkFieldConfig n dt p None None PNone 0.1 1 1 0 1.

(** What a [Faker] instance answers on its [k]-th use. *)
Record Faker : Type := mkFaker {
  fk_name : nat → string;
  fk_address : nat → string;
  fk_word : nat → string;
  fk_latitude : nat → float;
  fk_longitude : nat → float
}.

(** The environment of the generator: the answers of the clock, of the
    random module and of the C library, the [k]-th answer being the one the
    [k]-th call receives. *)
Record World : Type := mkWorld {
  utcnow_iso : nat → string;     (* datetime.now(timezone.utc).isoformat() *)
  uuid4 : nat → string;          (* str(uuid.uuid4()) *)
  random_unit : nat → float;     (* random.random() *)
  random_normal : nat → float;   (* the standard normal deviate of gauss *)
  random_below : nat → nat;      (* the bits behind choice and randint *)
  libm_sin : float → float;      (* sin on a finite argument *)
  float_repr : float → string    (* repr(float) *)
}.

Record MessageTemplate : Type := mkMessageTemplate {
  template_name : string;
  description : string;
  fields : list FieldConfig;
  _step_counter : Z;
  _faker : option Faker
}.

(** [MessageTemplate(name, description)]; [faker] is [Some] when the faker
    package could be imported. *)
Definition new_template (faker : option Faker) (n d : string) : MessageTemplate :=
  mkMessageTemplate n d [] 0 faker.

Definition add_field (t : MessageTemplate) (f : FieldConfig) : MessageTemplate :=
  mkMessageTemplate (template_name t) (description t) (fields t ++ [f])
    (_step_counter t) (_faker t).

Definition set_step_counter (t : MessageTemplate) (c : Z) : MessageTemplate :=
  mkMessageTemplate (template_name t) (description t) (fields t) c (_faker t).

(** [f or d] for a float default, and [o or d] on an optional float, used
    where the result only enters float arithmetic (an int default is
    promoted there). *)
Definition for_ (f d : float) : float := if float_truthy f then f else d.
Definition oor (o : option float) (d : float) : float :=
  match o with Some f => for_ f d | None => d end.

(** [field.min_value or 0] as a value. *)
Definition min_or_zero (f : FieldConfig) : pyval :=
  match min_value f with
  | Some m => if float_truthy m then PFloat m else PInt 0
  | None => PInt 0
  end.

(** [random.uniform(a, b)] *)
Definition uniform (w : World) (k : nat) (a b : float) : float :=
  PrimFloat.add a (PrimFloat.mul (PrimFloat.sub b a) (random_unit w k)).

(** [random.gauss(mu, sigma)] *)
Definition gauss (w : World) (k : nat) (mu sigma : float) : float :=
  PrimFloat.add mu (PrimFloat.mul (random_normal w k) sigma).

(** [random.choice(l)] *)
Definition choice {A} (w : World) (k : nat) (d : A) (l : list A) : A :=
  nth (random_below w k mod length l) l d.

(** [math.sin]: [ValueError] on an infinite argument. *)
Definition math_sin (w : World) (x : float) : result float :=
  if PrimFloat.is_infinity x then Raise else Ok (libm_sin w x).

Definition math_pi : float := 3.141592653589793.

(** [max(a, b)] and [min(a, b)] on two floats: the first argument stays
    unless the second compares strictly beyond it. *)
Definition py_max (a b : float) : float := if PrimFloat.ltb a b then b else a.
Definition py_min (a b : float) : float := if PrimFloat.ltb b a then b else a.

(** The state the methods of a template thread: the template itself and
    the number of answers taken from the world so far. *)
Definition GenState : Type := MessageTemplate * nat.

Definition _generate_location (w : World) (st : GenState) : pyval * GenState :=
  let '(t, k) := st in
  match _faker t with
  | Some fk => (PLoc (fk_latitude fk k) (fk_longitude fk (S k)), (t, S (S k)))
  | None =>
      (PLoc (uniform w k (-90) 90) (uniform w (S k) (-180) 180), (t, S (S k)))
  end.

Definition _generate_string_value (w : World) (field : FieldConfig)
    (st : GenState) : pyval * GenState :=
  let '(t, k) := st in
  match pattern field with
  | CONSTANT =>
      (PStr (py_str (float_repr w) (por (constant_value field) (PStr ""))), st)
  | RANDOM =>
      match _faker t with
      | Some fk =>
          let n := lower (name field) in
          if bool_decide (n ∈ ["name"; "device_name"]) then
            (PStr (fk_name fk k), (t, S k))
          else if bool_decide (n ∈ ["location"; "address"]) then
            (PStr (fk_address fk k), (t, S k))
          else if bool_decide (n ∈ ["status"; "state"]) then
            (PStr (choice w k "" ["active"; "inactive"; "warning"; "error"]),
             (t, S k))
          else (PStr (fk_word fk k), (t, S k))
      | None =>
          (PStr ("value_" +:+ pretty (1 + Z.of_nat (random_below w k mod 1000))%Z),
           (t, S k))
      end
  | _ => (PStr (name field +:+ "_" +:+ pretty (_step_counter t)), st)
  end.

(** The value of the linear ramp at step [c]:
    [start_value + (step * self._step_counter)]. *)
Definition linear_value (field : FieldConfig) (c : Z) : result float :=
  match float_of_int c with
  | Some fc =>
      Ok (PrimFloat.add (oor (min_value field) 0)
            (PrimFloat.mul (for_ (step_size field) 0.1) fc))
  | None => Raise
  end.

(** [field.max_value and value > field.max_value] *)
Definition exceeds_max (field : FieldConfig) (value : float) : bool :=
  match max_value field with
  | Some m => float_truthy m && PrimFloat.ltb m value
  | None => false
  end.

(** The conversion that ends [_generate_numeric_value]. *)
Definition convert (field : FieldConfig) (value : pyval) : result pyval :=
  if bool_decide (data_type field = "int") then py_int value
  else py_round2 value.

Definition _generate_numeric_value (w : World) (field : FieldConfig)
    (st : GenState) : result pyval * GenState :=
  let '(t, k) := st in
  match pattern field with
  | CONSTANT =>
      (convert field (por (constant_value field) (PInt 0)), st)
  | RANDOM =>
      let min_val := oor (min_value field) 0 in
      let max_val := oor (max_value field) 100 in
      (convert field (PFloat (uniform w k min_val max_val)), (t, S k))
  | SINE_WAVE =>
      let amplitude := for_ (amplitude field) 1 in
      let frequency := for_ (frequency field) 1 in
      let offset := for_ (mean field) 0 in
      match float_of_int (_step_counter t) with
      | Some fc =>
          let x := PrimFloat.div
                     (PrimFloat.mul
                        (PrimFloat.mul (PrimFloat.mul 2 math_pi) frequency) fc)
                     100 in
          match math_sin w x with
          | Ok s =>
              (convert field
                 (PFloat (PrimFloat.add offset (PrimFloat.mul amplitude s))), st)
          | Raise => (Raise, st)
          end
      | None => (Raise, st)
      end
  | LINEAR =>
      match linear_value field (_step_counter t) with
      | Ok value =>
          if exceeds_max field value then
            (convert field (min_or_zero field), (set_step_counter t 0, k))
          else (convert field (PFloat value), st)
      | Raise => (Raise, st)
      end
  | GAUSSIAN =>
      let mean := for_ (mean field) 0 in
      let std_dev := for_ (std_dev field) 1 in
      let value := gauss w k mean std_dev in
      let value := match min_value field with
                   | Some m => py_max value m
                   | None => value
                   end in
      let value := match max_value field with
                   | Some m => py_min value m
                   | None => value
                   end in
      (convert field (PFloat value), (t, S k))
  end.

(** [_generate_field_value]: whatever is raised inside is logged and the
    field gets [None]. *)
Definition _generate_field_value (w : World) (field : FieldConfig)
    (st : GenState) : pyval * GenState :=
  let '(t, k) := st in
  if bool_decide (data_type field = "timestamp") then
    (PStr (utcnow_iso w k), (t, S k))
  else if bool_decide (data_type field = "uuid") then
    (PStr (uuid4 w k), (t, S k))
  else if bool_decide (data_type field = "location") then
    _generate_location w st
  else if bool_decide (data_type field = "bool") then
    match pattern field with
    | CONSTANT => (PBool (truthy (constant_value field)), st)
    | _ => (PBool (choice w k false [true; false]), (t, S k))
    end
  else if bool_decide (data_type field = "string") then
    _generate_string_value w field st
  else if bool_decide (data_type field ∈ ["int"; "float"]) then
    match _generate_numeric_value w field st with
    | (Ok v, st') => (v, st')
    | (Raise, st') => (PNone, st')
    end
  else (PNone, st).

(** The [for] loop of [generate_message]. *)
Fixpoint generate_fields (w : World) (fs : list FieldConfig)
    (message : gmap string pyval) (st : GenState)
  : gmap string pyval * GenState :=
  match fs with
  | [] => (message, st)
  | field :: fs' =>
      let '(v, st') := _generate_field_value w field st in
      generate_fields w fs' (<[name field := v]> message) st'
  end.

Definition generate_message (w : World) (st : GenState)
  : gmap string pyval * GenState :=
  let '(message, (t, k)) := generate_fields w (fields (fst st)) ∅ st in
  let '(message, k) :=
    match message !! "timestamp" with
    | None => (<["timestamp" := PStr (utcnow_iso w k)]> message, S k)
    | Some _ => (message, k)
    end in
  (message, (set_step_counter t (_step_counter t + 1), k)).

(** The step counter each field of the loop reads when its turn comes. *)
Fixpoint observed_counters (w : World) (fs : list FieldConfig) (st : GenState)
  : list Z :=
  match fs with
  | [] => []
  | field :: fs' =>
      _step_counter (fst st)
        :: observed_counters w fs' (snd (_generate_field_value w field st))
  end.

(** The field loop in which every field is handed the step counter [c],
    whatever the fields before it did to the counter of the template: what
    the loop of [generate_message] is compared with. *)
Fixpoint fields_reading (w : World) (c : Z) (fs : list FieldConfig)
    (message : gmap string pyval) (st : GenState)
  : gmap string pyval * GenState :=
  match fs with
  | [] => (message, st)
  | field :: fs' =>
      let '(v, st') :=
        _generate_field_value w field (set_step_counter (fst st) c, snd st) in
      fields_reading w c fs' (<[name field := v]> message) st'
  end.

(** A field wraps at step [c] when it is a linear numeric field whose ramp
    has passed its maximum there. *)
Definition wraps (field : FieldConfig) (c : Z) : bool :=
  bool_decide (data_type field ∈ ["int"; "float"])
  && bool_decide (pattern field = LINEAR)
  && match linear_value field c with
     | Ok value => exceeds_max field value
     | Raise => false
     end.

(** The value a field has in what [_generate_field_value] returns. *)
Definition unwrap (r : result pyval) : pyval :=
  match r with Ok v => v | Raise => PNone end.

(** *** [MessageGenerator] *)

Definition temperature_sensor (faker : option Faker) : MessageTemplate :=
  add_field
    (add_field
       (new_template faker "temperature_sensor" "Temperature and humidity sensor")
       (mkFieldConfig "temperature" "float" SINE_WAVE (Some 15%float) (Some 35%float)
          PNone 0.1 10 0.1 22.5 1))
    (mkFieldConfig "humidity" "float" GAUSSIAN (Some 30%float) (Some 80%float)
       PNone 0.1 1 1 55 10).

Definition motion_sensor (faker : option Faker) : MessageTemplate :=
  add_field
    (add_field
       (new_template faker "motion_sensor" "Motion detection sensor")
       (field_config "motion_detected" "bool" RANDOM))
    (mkFieldConfig "confidence" "float" RANDOM (Some 0%float) (Some 1%float)
       PNone 0.1 1 1 0 1).

(** [MessageGenerator()]: the templates dict after
    [_create_builtin_templates]. *)
Definition _create_builtin_templates (faker : option Faker)
  : gmap string MessageTemplate :=
  <["motion_sensor" := motion_sensor faker]>
    (<["temperature_sensor" := temperature_sensor faker]> ∅).

(** [MessageGenerator.generate_message]: [None] (after an error log) for a
    name that is not a key of [templates]. *)
Definition generator_generate_message (w : World)
    (templates : gmap string MessageTemplate) (template_name : string)
    (k : nat)
  : option (gmap string pyval) * gmap string MessageTemplate * nat :=
  match templates !! template_name with
  | Some template =>
      let '(message, (template', k')) := generate_message w (template, k) in
      (Some message, <[template_name := template']> templates, k')
  | None => (None, templates, k)
  end.

(** *** Views of a template *)

(** The values a field of data type [dt] can get. *)
Definition value_of_type (dt : string) (v : pyval) : Prop :=
  if bool_decide (dt ∈ ["timestamp"; "uuid"; "string"]) then ∃ s, v = PStr s
  else if bool_decide (dt = "location") then ∃ la lo, v = PLoc la lo
  else if bool_decide (dt = "bool") then ∃ b, v = PBool b
  else if bool_decide (dt = "int") then v = PNone ∨ ∃ z, v = PInt z
  else if bool_decide (dt = "float") then
    v = PNone ∨ (∃ z, v = PInt z) ∨ ∃ f, v = PFloat f
  else v = PNone.

(** A field that can reset the step counter: a linear numeric field with a
    [max_value] that is set and not zero. *)
Definition may_wrap (field : FieldConfig) : bool :=
  bool_decide (data_type field ∈ ["int"; "float"])
  && bool_decide (pattern field = LINEAR)
  && match max_value field with
     | Some m => float_truthy m
     | None => false
     end.

(** The state after [n] calls of [generate_message] in a row. *)
Fixpoint after_messages (w : World) (n : nat) (st : GenState) : GenState :=
  match n with
  | O => st
  | S n' => after_messages w n' (snd (generate_message w st))
  end.

End Generator.


(** ** Virtual devices ([azure_integration/device_client.py]) *)

Module Device.

Definition datetime : Type := Z.

(** The environment of a device and of its simulation: the generator's
    world, whether the optional packages could be imported, the clock, and
    what the SDK part of a send (building the [Message], then
    [client.send_message]) does on each call ([None]: it returns; [Some e]:
    it raises, [e] being the text of the exception). *)
Record Env : Type := mkEnv {
  world : Generator.World;
  FAKER_AVAILABLE : option Generator.Faker;
  AZURE_AVAILABLE : bool;
  now : nat → datetime;
  sdk_send : nat → option string
}.

Inductive Event : Type :=
| MESSAGE_SENT (device_id message_id : string) (data : gmap string pyval)
    (timestamp : datetime)
| MESSAGE_FAILED (device_id error : string) (timestamp : datetime)
| SIMULATION_STARTED (device_id : string)
| SIMULATION_STOPPED (device_id : string).

Record DeviceConfig : Type := mkDeviceConfig {
  device_id : string;
  connection_string : string;
  protocol : string;
  auto_reconnect : bool;
  message_interval : Z;
  template_name : string
}.

(** [DeviceConfig(device_id, connection_string)] with the declared
    defaults. *)
Definition device_config (i c : string) : DeviceConfig :=
  mkDeviceConfig i c "MQTT" true 10 "temperature_sensor".

(** The SDK client object, of which only the presence is observed. *)
Inductive IoTHubDeviceClient : Type := sdk_client.

Record VirtualDevice : Type := mkVirtualDevice {
  config : DeviceConfig;
  client : option IoTHubDeviceClient;
  is_connected : bool;
  is_simulating : bool;
  message_count : Z;
  error_count : Z;
  last_message_time : option datetime
}.

(** [VirtualDevice(config)] *)
Definition new_device (c : DeviceConfig) : VirtualDevice :=
  mkVirtualDevice c None false false 0 0 None.

Definition set_simulating (d : VirtualDevice) (b : bool) : VirtualDevice :=
  mkVirtualDevice (config d) (client d) (is_connected d) b
    (message_count d) (error_count d) (last_message_time d).

(** The bookkeeping of a send that went through. *)
Definition sent (d : VirtualDevice) (t : datetime) : VirtualDevice :=
  mkVirtualDevice (config d) (client d) (is_connected d) (is_simulating d)
    (message_count d + 1) (error_count d) (Some t).

(** The bookkeeping of the [except] branch. *)
Definition failed (d : VirtualDevice) : VirtualDevice :=
  mkVirtualDevice (config d) (client d) (is_connected d) (is_simulating d)
    (message_count d) (error_count d + 1) (last_message_time d).

(** What [send_message] returns, the device afterwards, the events it
    emitted, and the number of answers taken from the environment.  The
    generated messages hold only strings, numbers, booleans, [None] and the
    location dict, which [json.dumps] serialises without raising. *)
Definition send_message (env : Env) (d : VirtualDevice)
    (message_data : gmap string pyval) (k : nat)
  : bool * VirtualDevice * list Event * nat :=
  let w := world env in
  if negb (AZURE_AVAILABLE env) then
    let t := now env k in
    (true, sent d t,
     [MESSAGE_SENT (device_id (config d)) (Generator.uuid4 w (S k))
        message_data t],
     S (S k))
  else if negb (bool_decide (is_Some (client d))) || negb (is_connected d) then
    (false, d, [], k)
  else
    let message_id := Generator.uuid4 w k in
    (* correlation_id takes answer [k+1], the timestamp property [k+2] *)
    match sdk_send env (3 + k) with
    | None =>
        let t := now env (4 + k) in
        (true, sent d t,
         [MESSAGE_SENT (device_id (config d)) message_id message_data t],
         5 + k)
    | Some e =>
        (false, failed d,
         [MESSAGE_FAILED (device_id (config d)) e (now env (4 + k))],
         5 + k)
    end.

(** *** Connecting *)

Inductive ConnectionEvent : Type :=
| DEVICE_CONNECTED (device_id : string)
| DEVICE_DISCONNECTED (device_id : string).

(** What the SDK does in one [connect]: creating the client raises, or the
    client's [connect] raises, or both return. *)
Inductive SdkConnect : Type := CreateRaises | ConnectRaises | Connects.

Definition set_connection (d : VirtualDevice)
    (c : option IoTHubDeviceClient) (connected : bool) : VirtualDevice :=
  mkVirtualDevice (config d) c connected (is_simulating d)
    (message_count d) (error_count d) (last_message_time d).

(** [connect]: the value it returns, the device afterwards, the events
    emitted. *)
Definition connect (env : Env) (sdk : SdkConnect) (d : VirtualDevice)
  : bool * VirtualDevice * list ConnectionEvent :=
  if negb (AZURE_AVAILABLE env) then (false, d, [])
  else if is_connected d then (true, d, [])
  else
    match sdk with
    | CreateRaises => (false, set_connection d (client d) false, [])
    | ConnectRaises => (false, set_connection d (Some sdk_client) false, [])
    | Connects =>
        (true, set_connection d (Some sdk_client) true,
         [DEVICE_CONNECTED (device_id (config d))])
    end.

(** [disconnect]; [sdk_returns] tells whether the client's [disconnect]
    returns (it is called only on a connected device with a client). *)
Definition disconnect (sdk_returns : bool) (d : VirtualDevice)
  : VirtualDevice * list ConnectionEvent :=
  let off :=
    mkVirtualDevice (config d) None false false (message_count d)
      (error_count d) (last_message_time d) in
  if bool_decide (is_Some (client d)) && is_connected d then
    if sdk_returns then (off, [DEVICE_DISCONNECTED (device_id (config d))])
    else (d, [])
  else (off, []).

(** Sending the messages [ms] one after the other: the values returned, the
    device afterwards, the events, the answers taken. *)
Fixpoint send_all (env : Env) (d : VirtualDevice)
    (ms : list (gmap string pyval)) (k : nat)
  : list bool * VirtualDevice * list Event * nat :=
  match ms with
  | [] => ([], d, [], k)
  | m :: ms' =>
      let '(ok, d1, evs1, k1) := send_message env d m k in
      let '(oks, d2, evs2, k2) := send_all env d1 ms' k1 in
      (ok :: oks, d2, evs1 ++ evs2, k2)
  end.

Definition count_true (l : list bool) : Z :=
  Z.of_nat (length (filter (λ b, b = true) l)).

End Device.

(** ** Device simulations ([azure_integration/simulation_engine.py]) *)

Module Simulation.

Import Device.

Record SimulationConfig : Type := mkSimulationConfig {
  interval : Z;
  jitter : float;
  burst_mode : bool;
  burst_count : Z;
  burst_interval : Z;
  max_messages : option Z
}.

(** [SimulationConfig()] with the declared defaults. *)
Definition simulation_config : SimulationConfig :=
  mkSimulationConfig 10 0.1 false 5 1 None.

(** The task created by [start]: still looping, or finished. *)
Inductive Task : Type := Looping | Finished.

(** A [DeviceSimulation], with what it did to its surroundings: the calls
    of [device.send_message] with their results ([attempts]), the delays
    it slept in [asyncio.sleep] ([sleeps]), the events on the bus, and the
    number of answers taken from the environment. *)
Record DeviceSimulation : Type := mkDeviceSimulation {
  device : VirtualDevice;
  sconfig : SimulationConfig;
  is_running : bool;
  message_count : Z;
  start_time : option datetime;
  message_generator : gmap string Generator.MessageTemplate;
  _simulation_task : option Task;
  attempts : list (gmap string pyval * bool);
  sleeps : list pyval;
  events : list Event;
  answers : nat
}.

(** [DeviceSimulation(device, config)] *)
Definition new_simulation (env : Env) (d : VirtualDevice)
    (c : SimulationConfig) : DeviceSimulation :=
  {| device := d;
     sconfig := c;
     is_running := false;
     message_count := 0;
     start_time := None;
     message_generator := Generator._create_builtin_templates (FAKER_AVAILABLE env);
     _simulation_task := None;
     attempts := [];
     sleeps := [];
     events := [];
     answers := 0 |}.

(** [start]: the task it creates runs [_simulation_loop]. *)
Definition start (env : Env) (s : DeviceSimulation) : DeviceSimulation :=
  if is_running s then s
  else
    mkDeviceSimulation (set_simulating (device s) true) (sconfig s) true
      (message_count s) (Some (now env (answers s)))
      (message_generator s) (Some Looping) (attempts s) (sleeps s)
      (events s ++ [SIMULATION_STARTED (device_id (config (device s)))])
      (S (answers s)).

(** [stop]: the task is cancelled and awaited. *)
Definition stop (s : DeviceSimulation) : DeviceSimulation :=
  if negb (is_running s) then s
  else
    mkDeviceSimulation (set_simulating (device s) false) (sconfig s) false
      (message_count s) (start_time s) (message_generator s)
      (match _simulation_task s with
       | Some _ => Some Finished
       | None => None
       end)
      (attempts s) (sleeps s)
      (events s ++ [SIMULATION_STOPPED (device_id (config (device s)))])
      (answers s).

(** The body shared by [_send_single_message] and by one round of
    [_send_burst_messages]: generate, and send when there is a message. *)
Definition generate_and_send (env : Env) (s : DeviceSimulation)
  : DeviceSimulation :=
  let '(message, templates, k) :=
    Generator.generator_generate_message (world env) (message_generator s)
      (template_name (config (device s))) (answers s) in
  match message with
  | Some m =>
      if negb (bool_decide (size m = 0)) then
        let '(success, d, evs, k') := send_message env (device s) m k in
        mkDeviceSimulation d (sconfig s) (is_running s)
          (if success then message_count s + 1 else message_count s)
          (start_time s) templates (_simulation_task s)
          (attempts s ++ [(m, success)]) (sleeps s) (events s ++ evs) k'
      else
        mkDeviceSimulation (device s) (sconfig s) (is_running s)
          (message_count s) (start_time s) templates (_simulation_task s)
          (attempts s) (sleeps s) (events s) k
  | None =>
      mkDeviceSimulation (device s) (sconfig s) (is_running s)
        (message_count s) (start_time s) templates (_simulation_task s)
        (attempts s) (sleeps s) (events s) k
  end.

Definition _send_single_message (env : Env) (s : DeviceSimulation)
  : DeviceSimulation :=
  generate_and_send env s.

(** [await asyncio.sleep(delay)], when it returns. *)
Definition sleep (s : DeviceSimulation) (delay : pyval) : DeviceSimulation :=
  mkDeviceSimulation (device s) (sconfig s) (is_running s) (message_count s)
    (start_time s) (message_generator s) (_simulation_task s) (attempts s)
    (sleeps s ++ [delay]) (events s) (answers s).

(** Whether [asyncio.sleep(delay)] raises.  A delay that is not positive
    only yields; a positive one is added to the float time of the event
    loop, which raises [OverflowError] for an int beyond the floats.  The
    delays of the loop are never nan. *)
Definition sleep_raises (delay : pyval) : bool :=
  match delay with
  | PInt z =>
      (0 <? z)%Z && negb (bool_decide (is_Some (float_of_int z)))
  | _ => false
  end.

(** The rounds [i, i+1, ..., burst_count - 1] of the [for] loop of
    [_send_burst_messages], [n] of them being left: the simulation
    afterwards, and whether a sleep between two messages raised, which
    leaves the loop of the burst at once. *)
Fixpoint burst_rounds (env : Env) (n : nat) (i : Z) (s : DeviceSimulation)
  : DeviceSimulation * bool :=
  match n with
  | O => (s, false)
  | S n' =>
      let s1 := generate_and_send env s in
      if (i <? burst_count (sconfig s) - 1)%Z then
        let delay := PInt (burst_interval (sconfig s)) in
        if sleep_raises delay then (s1, true)
        else burst_rounds env n' (i + 1) (sleep s1 delay)
      else burst_rounds env n' (i + 1) s1
  end.

(** [_send_burst_messages]: the simulation afterwards, and whether it
    raised. *)
Definition _send_burst_messages (env : Env) (s : DeviceSimulation)
  : DeviceSimulation * bool :=
  burst_rounds env (Z.to_nat (burst_count (sconfig s))) 0 s.

(** [self.config.max_messages and
     self.message_count >= self.config.max_messages] *)
Definition limit_reached (s : DeviceSimulation) : bool :=
  match max_messages (sconfig s) with
  | Some m => negb (m =? 0)%Z && (m <=? message_count s)%Z
  | None => false
  end.

(** The delay of one iteration: [max(0.1, interval)].  The interval is a
    number of seconds; without jitter it stays the int of the
    configuration.  With jitter the int is multiplied by a float and added
    to one, which raises [OverflowError] ([Raise]) when it is beyond the
    floats. *)
Definition next_delay (env : Env) (s : DeviceSimulation)
  : result (pyval * nat) :=
  let base_interval := interval (sconfig s) in
  if PrimFloat.ltb 0 (jitter (sconfig s)) then
    match float_of_int base_interval with
    | Some base =>
        let jitter_amount := PrimFloat.mul base (jitter (sconfig s)) in
        let interval :=
          PrimFloat.add base
            (Generator.uniform (world env) (answers s)
               (PrimFloat.opp jitter_amount) jitter_amount) in
        Ok (PFloat (Generator.py_max 0.1 interval), S (answers s))
    | None => Raise
    end
  else
    Ok (if (1 <=? base_interval)%Z then PInt base_interval else PFloat 0.1,
        answers s).

(** The [finally] clause of [_simulation_loop]. *)
Definition finish (s : DeviceSimulation) : DeviceSimulation :=
  mkDeviceSimulation (set_simulating (device s) false) (sconfig s) false
    (message_count s) (start_time s) (message_generator s) (Some Finished)
    (attempts s) (sleeps s) (events s) (answers s).

(** The messages of one turn: the simulation after them, and whether the
    burst raised. *)
Definition send_messages (env : Env) (s : DeviceSimulation)
  : DeviceSimulation * bool :=
  if burst_mode (sconfig s) then _send_burst_messages env s
  else (_send_single_message env s, false).

(** One turn of the [while] loop of a task that is still looping: the test
    of the loop, the limit check, the send, the sleep.  A finished (or never
    started) task does nothing more.  [_generate_field_value] catches what
    a field raises and [send_message] what the SDK raises; what can still
    raise in a turn is an int delay beyond the floats, in a sleep or in the
    jitter arithmetic.  The [except Exception] clause of the loop logs that
    [OverflowError], and the [finally] clause ends the loop as it does
    after a [break]. *)
Definition loop_turn (env : Env) (s : DeviceSimulation) : DeviceSimulation :=
  match _simulation_task s with
  | Some Looping =>
      if negb (is_running s) then finish s
      else if limit_reached s then finish s
      else
        let '(s1, raised) := send_messages env s in
        if raised then finish s1
        else
          match next_delay env s1 with
          | Ok (delay, k) =>
              if sleep_raises delay then finish s1
              else
                let s2 := sleep s1 delay in
                mkDeviceSimulation (device s2) (sconfig s2) (is_running s2)
                  (message_count s2) (start_time s2) (message_generator s2)
                  (_simulation_task s2) (attempts s2) (sleeps s2) (events s2)
                  k
          | Raise => finish s1
          end
  | _ => s
  end.

(** [_simulation_loop], observed after [n] turns. *)
Definition _simulation_loop (env : Env) (n : nat) (s : DeviceSimulation)
  : DeviceSimulation :=
  Nat.iter n (loop_turn env) s.

(** *** Notions the properties are stated with *)

(** The device's template is one the simulation's generator knows. *)
Definition registered (s : DeviceSimulation) : Prop :=
  template_name (config (device s)) ∈ dom (message_generator s).

(** A send capability that always succeeds: the SDK is absent (every send
    is simulated), or the device is connected and the SDK call returns. *)
Definition send_always_succeeds (env : Env) (d : VirtualDevice) : Prop :=
  AZURE_AVAILABLE env = false
  ∨ (is_Some (client d) ∧ is_connected d = true
     ∧ ∀ k, sdk_send env k = None).

(** A send capability that always fails: the SDK is present, and the
    device is not connected or the SDK call raises. *)
Definition send_always_fails (env : Env) (d : VirtualDevice) : Prop :=
  AZURE_AVAILABLE env = true
  ∧ (client d = None ∨ is_connected d = false
     ∨ ∀ k, is_Some (sdk_send env k)).

(** The sends among [l] that succeeded, and those that failed. *)
Definition successes (l : list (gmap string pyval * bool)) : nat :=
  length (filter (λ a, snd a = true) l).
Definition failures (l : list (gmap string pyval * bool)) : nat :=
  length (filter (λ a, snd a = false) l).

(** The device has a client and is connected: its sends reach the SDK. *)
Definition ready (d : VirtualDevice) : bool :=
  bool_decide (is_Some (client d)) && is_connected d.

(** The [MESSAGE_FAILED] events among [evs]. *)
Definition is_message_failed (e : Event) : bool :=
  match e with MESSAGE_FAILED _ _ _ => true | _ => false end.
Definition message_failed_events (evs : list Event) : nat :=
  length (filter (λ e, is_message_failed e = true) evs).

(** The sends a turn of the loop makes when the template is known. *)
Definition sends_per_turn (c : SimulationConfig) : nat :=
  if burst_mode c then Z.to_nat (burst_count c) else 1.

(** [s'] comes from [s] by sends only, [new] being the sends made. *)
Record extends (env : Env) (s s' : DeviceSimulation)
    (new : list (gmap string pyval * bool)) : Prop := mkExtends {
  ext_sconfig : sconfig s' = sconfig s;
  ext_running : is_running s' = is_running s;
  ext_task : _simulation_task s' = _simulation_task s;
  ext_config : config (device s') = config (device s);
  ext_client : client (device s') = client (device s);
  ext_connected : is_connected (device s') = is_connected (device s);
  ext_templates : dom (message_generator s') = dom (message_generator s);
  ext_attempts : attempts s' = attempts s ++ new;
  ext_count :
    message_count s' = (message_count s + Z.of_nat (successes new))%Z;
  ext_device_count :
    Device.message_count (device s')
    = (Device.message_count (device s) + Z.of_nat (successes new))%Z;
  ext_succeed :
    send_always_succeeds env (device s) → Forall (λ a, snd a = true) new;
  ext_fail :
    send_always_fails env (device s) → Forall (λ a, snd a = false) new;
  ext_simulating : is_simulating (device s') = is_simulating (device s);
  ext_events :
    ∃ evs, events s' = events s ++ evs
           ∧ (ready (device s) = true ∨ AZURE_AVAILABLE env = false →
              length evs = length new
              ∧ message_failed_events evs = failures new)
           ∧ (AZURE_AVAILABLE env = true → ready (device s) = false →
              evs = []);
  ext_errors :
    ready (device s) = true ∨ AZURE_AVAILABLE env = false →
    error_count (device s')
    = (error_count (device s) + Z.of_nat (failures new))%Z;
  ext_unready :
    AZURE_AVAILABLE env = true → ready (device s) = false →
    device s' = device s ∧ Forall (λ a, snd a = false) new
}.

(** The delays of a configuration are ints the clock arithmetic of the
    event loop takes: they convert to a float.  ([asyncio.sleep] adds the
    delay to the loop's time and raises [OverflowError] on an int beyond
    the floats.) *)
Definition sleepable (c : SimulationConfig) : Prop :=
  is_Some (float_of_int (interval c))
  ∧ is_Some (float_of_int (burst_interval c)).

(** A delay of at least a tenth of a second. *)
Definition at_least_a_tenth (delay : pyval) : Prop :=
  match delay with
  | PInt z => (1 ≤ z)%Z
  | PFloat f => PrimFloat.ltb f 0.1 = false
  | _ => False
  end.

End Simulation.

(** ** Sums over the values of a dict *)

Module Dict.

(** [sum(1 for v in d.values() if p(v))] *)
Definition count_where {A} (p : A → bool) (m : gmap string A) : Z :=
  Z.of_nat (size (filter (λ kv, p (snd kv) = true) m)).

(** [sum(f(v) for v in d.values())] *)
Definition sum_over {A} (f : A → Z) (m : gmap string A) : Z :=
  map_fold (λ _ a acc, (f a + acc)%Z) 0%Z m.

(** [len(d)] *)
Definition len {A} (m : gmap string A) : Z := Z.of_nat (size m).

End Dict.

(** ** The device manager ([DeviceManager] of
    [azure_integration/device_client.py]) *)

Module Manager.

Import Device Dict.

Inductive ManagerEvent : Type :=
| DEVICE_ADDED (device_id : string)
| DEVICE_REMOVED (device_id : string).

(** A [DeviceManager], with the events it handed to the bus. *)
Record DeviceManager : Type := mkDeviceManager {
  devices : gmap string VirtualDevice;
  emitted : list ManagerEvent
}.

(** [DeviceManager()] *)
Definition new_manager : DeviceManager := mkDeviceManager ∅ [].

(** [add_device]: the device it returns and the manager afterwards. *)
Definition add_device (m : DeviceManager) (c : DeviceConfig)
  : VirtualDevice * DeviceManager :=
  let device := new_device c in
  (device,
   mkDeviceManager (<[device_id c := device]> (devices m))
     (emitted m ++ [DEVICE_ADDED (device_id c)])).

(** [remove_device]: the value it returns, the manager afterwards, and the
    device whose [disconnect] it handed to [asyncio.create_task], if any.
    [create_task] raises when no event loop is running, which
    [loop_running] tells; the [disconnect] is only scheduled, it has not
    run when [remove_device] returns. *)
Definition remove_device (loop_running : bool) (m : DeviceManager)
    (id : string) : result (bool * DeviceManager * option VirtualDevice) :=
  match devices m !! id with
  | Some device =>
      let m' :=
        mkDeviceManager (delete id (devices m))
          (emitted m ++ [DEVICE_REMOVED id]) in
      if is_connected device then
        if loop_running then Ok (true, m', Some device) else Raise
      else Ok (true, m', None)
  | None => Ok (false, m, None)
  end.

Definition get_device (m : DeviceManager) (id : string)
  : option VirtualDevice :=
  devices m !! id.

Definition get_all_devices (m : DeviceManager) : gmap string VirtualDevice :=
  devices m.

(** [connect_all]: the dict it returns, the manager afterwards, and the
    events each device emitted.  [sdk] tells what the SDK does for a
    device. *)
Definition connect_all (env : Env) (sdk : VirtualDevice → SdkConnect)
    (m : DeviceManager)
  : gmap string bool * DeviceManager * gmap string (list ConnectionEvent) :=
  let r := (λ d, connect env (sdk d) d) <$> devices m in
  ((λ x, fst (fst x)) <$> r,
   mkDeviceManager ((λ x, snd (fst x)) <$> r) (emitted m),
   snd <$> r).

(** [disconnect_all]; [sdk_returns] tells for which devices the client's
    [disconnect] returns. *)
Definition disconnect_all (sdk_returns : VirtualDevice → bool)
    (m : DeviceManager)
  : DeviceManager * gmap string (list ConnectionEvent) :=
  let r := (λ d, disconnect (sdk_returns d) d) <$> devices m in
  (mkDeviceManager (fst <$> r) (emitted m), snd <$> r).

Record StatusSummary : Type := mkStatusSummary {
  total_devices : Z;
  connected_devices : Z;
  simulating_devices : Z;
  total_messages : Z;
  total_errors : Z;
  azure_available : bool
}.

Definition get_status_summary (env : Env) (m : DeviceManager)
  : StatusSummary :=
  {| total_devices := len (devices m);
     connected_devices := count_where is_connected (devices m);
     simulating_devices := count_where is_simulating (devices m);
     total_messages := sum_over message_count (devices m);
     total_errors := sum_over error_count (devices m);
     azure_available := AZURE_AVAILABLE env |}.

End Manager.

(** ** The simulation engine ([SimulationEngine] of
    [azure_integration/simulation_engine.py]) *)

Module Engine.

Import Device Dict.

(** The two events of the engine, with the [device_count] they carry. *)
Inductive EngineEvent : Type :=
| SIMULATION_STARTED (device_count : Z)
| SIMULATION_STOPPED (device_count : Z).

(** A [SimulationEngine], with the events it handed to the bus. *)
Record SimulationEngine : Type := mkSimulationEngine {
  simulations : gmap string Simulation.DeviceSimulation;
  is_running : bool;
  emitted : list EngineEvent
}.

(** [SimulationEngine()] *)
Definition new_engine : SimulationEngine := mkSimulationEngine ∅ false [].

Definition add_device_simulation (env : Env) (e : SimulationEngine)
    (d : VirtualDevice) (c : Simulation.SimulationConfig)
  : SimulationEngine :=
  mkSimulationEngine
    (<[device_id (config d) := Simulation.new_simulation env d c]>
       (simulations e))
    (is_running e) (emitted e).

(** [remove_device_simulation]: the engine afterwards and the simulation
    whose [stop] it handed to [asyncio.create_task], if any.  [create_task]
    raises when no event loop is running, which [loop_running] tells. *)
Definition remove_device_simulation (loop_running : bool)
    (e : SimulationEngine) (id : string)
  : result (SimulationEngine * option Simulation.DeviceSimulation) :=
  match simulations e !! id with
  | Some simulation =>
      let e' :=
        mkSimulationEngine (delete id (simulations e)) (is_running e)
          (emitted e) in
      if Simulation.is_running simulation then
        if loop_running then Ok (e', Some simulation) else Raise
      else Ok (e', None)
  | None => Ok (e, None)
  end.

Definition start_all (env : Env) (e : SimulationEngine) : SimulationEngine :=
  mkSimulationEngine (Simulation.start env <$> simulations e) true
    (emitted e ++ [SIMULATION_STARTED (len (simulations e))]).

Definition stop_all (e : SimulationEngine) : SimulationEngine :=
  mkSimulationEngine
    ((λ s, if Simulation.is_running s then Simulation.stop s else s)
       <$> simulations e)
    false
    (emitted e ++ [SIMULATION_STOPPED (len (simulations e))]).

Definition start_device (env : Env) (e : SimulationEngine) (id : string)
  : SimulationEngine :=
  match simulations e !! id with
  | Some s =>
      mkSimulationEngine (<[id := Simulation.start env s]> (simulations e))
        (is_running e) (emitted e)
  | None => e
  end.

Definition stop_device (e : SimulationEngine) (id : string)
  : SimulationEngine :=
  match simulations e !! id with
  | Some s =>
      mkSimulationEngine (<[id := Simulation.stop s]> (simulations e))
        (is_running e) (emitted e)
  | None => e
  end.

(** The entries of the dict [get_statistics] returns that do not read the
    clock; [device_statistics], which holds the run times, is left out. *)
Record Statistics : Type := mkStatistics {
  total_devices : Z;
  running_devices : Z;
  total_messages : Z;
  engine_running : bool
}.

Definition get_statistics (e : SimulationEngine) : Statistics :=
  {| total_devices := len (simulations e);
     running_devices := count_where Simulation.is_running (simulations e);
     total_messages := sum_over Simulation.message_count (simulations e);
     engine_running := is_running e |}.

(** *** Sequences of calls *)

(** The calls of the engine made from its event loop, and a turn of the
    loop of one of its simulations. *)
Inductive call : Type :=
| AddDeviceSimulation (d : VirtualDevice) (c : Simulation.SimulationConfig)
| RemoveDeviceSimulation (id : string)
| StartAll
| StopAll
| StartDevice (id : string)
| StopDevice (id : string)
| Turn (id : string).

Definition turn (env : Env) (e : SimulationEngine) (id : string)
  : SimulationEngine :=
  match simulations e !! id with
  | Some s =>
      mkSimulationEngine (<[id := Simulation.loop_turn env s]> (simulations e))
        (is_running e) (emitted e)
  | None => e
  end.

Definition step (env : Env) (e : SimulationEngine) (k : call)
  : SimulationEngine :=
  match k with
  | AddDeviceSimulation d c => add_device_simulation env e d c
  | RemoveDeviceSimulation id =>
      match remove_device_simulation true e id with
      | Ok (e', _) => e'
      | Raise => e
      end
  | StartAll => start_all env e
  | StopAll => stop_all e
  | StartDevice id => start_device env e id
  | StopDevice id => stop_device e id
  | Turn id => turn env e id
  end.

Definition run (env : Env) (ks : list call) (e : SimulationEngine)
  : SimulationEngine :=
  foldl (step env) e ks.

(** The devices a sequence of calls hands to the engine are not marked as
    simulating. *)
Definition adds_idle_devices (ks : list call) : Prop :=
  Forall (λ k, match k with
               | AddDeviceSimulation d _ => is_simulating d = false
               | _ => True
               end) ks.

(** Whether a call can change the simulation registered under [id]. *)
Definition touches (k : call) (id : string) : bool :=
  match k with
  | AddDeviceSimulation d _ => bool_decide (device_id (config d) = id)
  | RemoveDeviceSimulation j | StartDevice j | StopDevice j | Turn j =>
      bool_decide (j = id)
  | StartAll | StopAll => true
  end.

(** The flags of a simulation agree: it runs exactly when its device is
    marked as simulating, and exactly when its loop is alive. *)
Definition flags_agree (s : Simulation.DeviceSimulation) : Prop :=
  is_simulating (Simulation.device s) = Simulation.is_running s
  ∧ (Simulation.is_running s = true
     ↔ Simulation._simulation_task s = Some Simulation.Looping).

End Engine.



(** ** The event bus ([EventBus] of [core/events.py]) *)

Module Events.

Section event_bus.

(** The bus looks neither into the event types nor into the data, and
    compares the handlers with [==]. *)
Context {EventType : Type} `{Countable EventType}.
Context {Data Handler World : Type} `{EqDecision Handler}.

Record Event : Type := mkEvent {
  event_type : EventType;
  source : string;
  data : Data;
  timestamp : Z
}.

(** [self._handlers] *)
Definition EventBus : Type := gmap EventType (list Handler).

(** [EventBus()] *)
Definition new_bus : EventBus := ∅.

Definition subscribe (bus : EventBus) (t : EventType) (handler : Handler)
  : EventBus :=
  let bus1 :=
    match bus !! t with
    | None => <[t := []]> bus
    | Some _ => bus
    end in
  let l := default [] (bus1 !! t) in
  if decide (handler ∈ l) then bus1 else <[t := l ++ [handler]]> bus1.

(** [list.remove(x)]: the first occurrence goes. *)
Fixpoint list_remove (x : Handler) (l : list Handler) : list Handler :=
  match l with
  | [] => []
  | y :: l' => if decide (y = x) then l' else y :: list_remove x l'
  end.

Definition unsubscribe (bus : EventBus) (t : EventType) (handler : Handler)
  : EventBus :=
  match bus !! t with
  | Some l =>
      if decide (handler ∈ l) then <[t := list_remove handler l]> bus
      else bus
  | None => bus
  end.

(** [self._handlers.get(event_type, []).copy()] *)
Definition handlers_of (bus : EventBus) (t : EventType) : list Handler :=
  default [] (bus !! t).

(** What calling a handler with an event does to the bus and to the rest
    of the world, and whether the call raises (an [Exception], which [emit]
    catches and logs). *)
Context (call : Handler → Event → EventBus * World → EventBus * World * bool).

(** [emit]: the bus and the world afterwards, and the handlers called in
    turn, each with whether it raised.  [now] is the time the event is
    stamped with. *)
Definition emit (st : EventBus * World) (t : EventType) (src : string)
    (d : Data) (now : Z)
  : (EventBus * World) * list (Handler * bool) :=
  let event := mkEvent t src d now in
  let handlers := handlers_of (fst st) t in
  foldl (λ acc handler,
           let '(st', raised) := call handler event (fst acc) in
           (st', snd acc ++ [(handler, raised)]))
    (st, []) handlers.

(** The handlers a call of [emit] calls, in turn. *)
Definition called (st : EventBus * World) (t : EventType) (src : string)
    (d : Data) (now : Z) : list Handler :=
  fst <$> snd (emit st t src d now).

(** *** Sequences of subscriptions *)

Inductive subscription : Type :=
| Subscribe (t : EventType) (handler : Handler)
| Unsubscribe (t : EventType) (handler : Handler).

Definition step (bus : EventBus) (k : subscription) : EventBus :=
  match k with
  | Subscribe t h => subscribe bus t h
  | Unsubscribe t h => unsubscribe bus t h
  end.

Definition run (ks : list subscription) (bus : EventBus) : EventBus :=
  foldl step bus ks.

End event_bus.

End Events.

(** ** Inputs of the examples *)

Module Examples.

Import Generator.

(** A world whose clock, uuid and random answers are fixed.  Its [sin] and
    [repr] answers are the ones of the argument 0.0; the examples give them
    no other. *)
Definition example_world : World :=
  {| utcnow_iso := λ _, "2024-01-01T00:00:00+00:00";
     uuid4 := λ _, "00000000-0000-4000-8000-000000000000";
     random_unit := λ _, 0.5%float;
     random_normal := λ _, 0%float;
     random_below := λ _, 0;
     libm_sin := λ _, 0%float;
     float_repr := λ _, "0.0" |}.

(** [FieldConfig("level", "int", DataPattern.LINEAR, max_value=10.0,
    step_size=0.5)] *)
Definition level_field : FieldConfig :=
  mkFieldConfig "level" "int" LINEAR None (Some 10%float) PNone 0.5 1 1 0 1.

(** [FieldConfig("ramp", "float", DataPattern.LINEAR, min_value=20.0,
    max_value=21.0, step_size=0.5)] *)
Definition ramp_field : FieldConfig :=
  mkFieldConfig "ramp" "float" LINEAR (Some 20%float) (Some 21%float) PNone
    0.5 1 1 0 1.

(** [FieldConfig("drift", "float", DataPattern.LINEAR, min_value=-1.0,
    max_value=0.0, step_size=0.5)] *)
Definition drift_field : FieldConfig :=
  mkFieldConfig "drift" "float" LINEAR (Some (-1)%float) (Some 0%float) PNone
    0.5 1 1 0 1.

(** [FieldConfig("setpoint", "float", DataPattern.CONSTANT,
    constant_value=1.234)] *)
Definition setpoint_field : FieldConfig :=
  mkFieldConfig "setpoint" "float" CONSTANT None None (PFloat 1.234) 0.1 1 1 0 1.

(** [FieldConfig("site", "string", DataPattern.CONSTANT,
    constant_value="plant-7")] *)
Definition site_field : FieldConfig :=
  mkFieldConfig "site" "string" CONSTANT None None (PStr "plant-7") 0.1 1 1 0 1.

(** A template of three fields: a string field that prints the counter, a
    linear ramp with [max_value=1.0] and [step_size=0.5], and a second
    string field that prints the counter. *)
Definition three_fields : MessageTemplate :=
  add_field
    (add_field
       (add_field (new_template None "probe" "")
          (field_config "before" "string" LINEAR))
       (mkFieldConfig "ramp" "float" LINEAR None (Some 1%float) PNone
          0.5 1 1 0 1))
    (field_config "after" "string" LINEAR).

Definition at_step (t : MessageTemplate) (c : Z) : GenState :=
  (set_step_counter t c, 0).

(** An environment without the Azure SDK and without faker: every send is
    simulated and succeeds. *)
Definition offline_env : Device.Env :=
  {| Device.world := example_world;
     Device.FAKER_AVAILABLE := None;
     Device.AZURE_AVAILABLE := false;
     Device.now := λ k, Z.of_nat k;
     Device.sdk_send := λ _, None |}.

(** An environment with the Azure SDK, whose calls return. *)
Definition azure_env : Device.Env :=
  {| Device.world := example_world;
     Device.FAKER_AVAILABLE := None;
     Device.AZURE_AVAILABLE := true;
     Device.now := λ k, Z.of_nat k;
     Device.sdk_send := λ _, None |}.

(** [DeviceConfig("dev-1", "cs", template_name="motion_sensor")] *)
Definition motion_device : Device.VirtualDevice :=
  Device.new_device
    (Device.mkDeviceConfig "dev-1" "cs" "MQTT" true 10 "motion_sensor").

(** [DeviceConfig("dev-2", "cs", template_name="gps_tracker")], a template
    name the device dialog offers. *)
Definition gps_device : Device.VirtualDevice :=
  Device.new_device
    (Device.mkDeviceConfig "dev-2" "cs" "MQTT" true 10 "gps_tracker").

(** An environment with the Azure SDK, whose calls raise. *)
Definition failing_env : Device.Env :=
  {| Device.world := example_world;
     Device.FAKER_AVAILABLE := None;
     Device.AZURE_AVAILABLE := true;
     Device.now := λ k, Z.of_nat k;
     Device.sdk_send := λ _, Some "connection lost" |}.

(** [motion_device] after a [connect()] that went through. *)
Definition connected_device : Device.VirtualDevice :=
  Device.mkVirtualDevice (Device.config motion_device)
    (Some Device.sdk_client) true false 0 0 None.

(** [SimulationConfig(interval=1, jitter=0, burst_mode=True, burst_count=3,
    max_messages=5)] *)
Definition bursts_of_three : Simulation.SimulationConfig :=
  Simulation.mkSimulationConfig 1 0 true 3 1 (Some 5%Z).

(** [SimulationConfig(interval=1, jitter=0, max_messages=5)] *)
Definition five_messages : Simulation.SimulationConfig :=
  Simulation.mkSimulationConfig 1 0 false 5 1 (Some 5%Z).

End Examples.

(** * Properties *)

(** ** The metrics collector *)

Section MetricsProperties.
Import Metrics.

Implicit Types (c : MetricsCollector) (dm : gmap string DeviceMetrics).
Implicit Types (k : call) (ks : list call) (i : string).

(** *** Counting entries by a status field *)

Section count.
Context (field : DeviceMetrics → string) (v : string).

Local Abbreviation one m := (if decide (field m = v) then 1%Z else 0%Z).

Lemma count_status_insert_fresh dm i m :
  dm !! i = None →
  count_status field v (<[i := m]> dm) = (count_status field v dm + one m)%Z.
Proof.
  intros Hi. unfold count_status. rewrite map_filter_insert. simpl.
  destruct (decide (field m = v)).
  - rewrite map_size_insert_None; [lia|].
    apply map_lookup_filter_None. by left.
  - rewrite delete_id by done. lia.
Qed.

Lemma count_status_insert dm i m old :
  dm !! i = Some old →
  count_status field v (<[i := m]> dm)
  = (count_status field v dm - one old + one m)%Z.
Proof.
  intros Hi.
  rewrite <- (insert_delete_eq dm i m).
  rewrite count_status_insert_fresh by apply lookup_delete_eq.
  rewrite <- (insert_delete_id dm i old) at 2 by done.
  rewrite (count_status_insert_fresh (delete i dm) i old)
    by apply lookup_delete_eq.
  lia.
Qed.

Lemma count_status_empty : count_status field v ∅ = 0%Z.
Proof. unfold count_status. by rewrite map_filter_empty, map_size_empty. Qed.

End count.

Lemma getitem_lookup dm i :
  snd (getitem dm i) !! i = Some (fst (getitem dm i)).
Proof.
  unfold getitem. destruct (dm !! i) eqn:E; simpl; [done|].
  apply lookup_insert_eq.
Qed.

Lemma getitem_count_connected dm i :
  count_connected (snd (getitem dm i)) = count_connected dm.
Proof.
  unfold getitem. destruct (dm !! i) eqn:E; simpl; [done|].
  unfold count_connected. rewrite count_status_insert_fresh by done.
  rewrite decide_False by done. lia.
Qed.

Lemma getitem_count_running dm i :
  count_running (snd (getitem dm i)) = count_running dm.
Proof.
  unfold getitem. destruct (dm !! i) eqn:E; simpl; [done|].
  unfold count_running. rewrite count_status_insert_fresh by done.
  rewrite decide_False by done. lia.
Qed.

(** Writing an entry back with its two status fields untouched changes
    neither count. *)
Lemma setitem_counts dm i (f : DeviceMetrics → DeviceMetrics) :
  (∀ m, connection_status (f m) = connection_status m) →
  (∀ m, simulation_status (f m) = simulation_status m) →
  count_connected (setitem dm i f) = count_connected dm
  ∧ count_running (setitem dm i f) = count_running dm.
Proof.
  intros Hc Hs. unfold setitem.
  pose proof (getitem_lookup dm i) as Hl.
  pose proof (getitem_count_connected dm i) as Hcc.
  pose proof (getitem_count_running dm i) as Hcr.
  destruct (getitem dm i) as [m dm']. simpl in *.
  unfold count_connected, count_running in *.
  rewrite !(count_status_insert _ _ _ _ _ m) by done.
  rewrite Hc, Hs. lia.
Qed.

(** *** The status counters *)

Lemma update_rates_frame c t now :
  device_metrics (_update_rates c t now) = device_metrics c
  ∧ total_messages (system_metrics (_update_rates c t now))
    = total_messages (system_metrics c)
  ∧ total_errors (system_metrics (_update_rates c t now))
    = total_errors (system_metrics c)
  ∧ active_devices (system_metrics (_update_rates c t now))
    = active_devices (system_metrics c)
  ∧ connected_devices (system_metrics (_update_rates c t now))
    = connected_devices (system_metrics c)
  ∧ message_history (_update_rates c t now) = message_history c
  ∧ error_history (_update_rates c t now) = error_history c
  ∧ history_size (_update_rates c t now) = history_size c.
Proof. unfold _update_rates. by destruct (PrimFloat.leb _ _). Qed.

Lemma init_agree now time : counters_agree (init now time).
Proof.
  split; simpl; unfold count_connected, count_running;
    by rewrite count_status_empty.
Qed.

Lemma reset_metrics_agree c now : counters_agree (reset_metrics c now).
Proof.
  split; simpl; unfold count_connected, count_running;
    by rewrite count_status_empty.
Qed.

Lemma record_message_sent_agree c i d clk :
  counters_agree c → counters_agree (record_message_sent c i d clk).
Proof.
  intros [Hc Ha]. unfold record_message_sent, emit_event, counters_agree.
  simpl.
  match goal with
  | |- context [_update_rates ?c1 ?t ?n] =>
      destruct (update_rates_frame c1 t n) as (-> & _ & _ & -> & -> & _)
  end.
  simpl.
  match goal with
  | |- context [setitem (setitem ?dm ?i ?f) ?i ?g] =>
      destruct (setitem_counts (setitem dm i f) i g) as [-> ->]; [done..|];
      destruct (setitem_counts dm i f) as [-> ->]; done
  end.
Qed.

Lemma record_message_error_agree c i d now :
  counters_agree c → counters_agree (record_message_error c i d now).
Proof.
  intros [Hc Ha]. unfold record_message_error, emit_event, counters_agree.
  simpl.
  match goal with
  | |- context [setitem ?dm ?i ?f] =>
      destruct (setitem_counts dm i f) as [-> ->]; done
  end.
Qed.

Lemma get_device_metrics_agree c i :
  counters_agree c → counters_agree (snd (get_device_metrics c i)).
Proof.
  intros [Hc Ha]. unfold get_device_metrics, counters_agree.
  pose proof (getitem_count_connected (device_metrics c) i).
  pose proof (getitem_count_running (device_metrics c) i).
  destruct (getitem _ _) as [m dm']. simpl in *. split; congruence.
Qed.

(** The change [update_device_status] makes to the two counters, in terms
    of the entry's status before the call. *)
Lemma update_device_status_counters c i sd :
  let old := fst (getitem (device_metrics c) i) in
  let c' := update_device_status c i sd in
  connected_devices (system_metrics c')
  = (connected_devices (system_metrics c)
     - Z.b2z (bool_decide (connection_status old = "connected"))
     + Z.b2z (truthy (status_get sd "connected")))%Z
  ∧ active_devices (system_metrics c')
  = (active_devices (system_metrics c)
     - Z.b2z (bool_decide (simulation_status old = "running"))
     + Z.b2z (truthy (status_get sd "simulating")))%Z.
Proof.
  unfold update_device_status.
  destruct (getitem (device_metrics c) i) as [m dm']. simpl.
  destruct (truthy (status_get sd "connected")),
    (truthy (status_get sd "simulating")); simpl;
    repeat case_bool_decide; simpl; try done; split; lia.
Qed.

Lemma update_device_status_agree c i sd :
  counters_agree c → counters_agree (update_device_status c i sd).
Proof.
  intros [Hc Ha].
  destruct (update_device_status_counters c i sd) as [Hc' Ha'].
  unfold counters_agree. rewrite Hc', Ha', Hc, Ha. clear Hc' Ha'.
  unfold update_device_status.
  pose proof (getitem_lookup (device_metrics c) i) as Hl.
  pose proof (getitem_count_connected (device_metrics c) i) as Hcc.
  pose proof (getitem_count_running (device_metrics c) i) as Hcr.
  destruct (getitem (device_metrics c) i) as [m dm']. simpl in *.
  rewrite <- Hcc, <- Hcr. unfold count_connected, count_running.
  rewrite !(count_status_insert _ _ _ _ _ m) by done. simpl.
  destruct (truthy (status_get sd "connected")),
    (truthy (status_get sd "simulating")); simpl;
    repeat case_bool_decide; repeat case_decide; simpl; try done; split; lia.
Qed.

Lemma step_agree c k : counters_agree c → counters_agree (step c k).
Proof.
  destruct k; simpl;
    eauto using record_message_sent_agree, record_message_error_agree,
      update_device_status_agree, get_device_metrics_agree,
      reset_metrics_agree.
Qed.

Lemma run_agree c ks : counters_agree c → counters_agree (run c ks).
Proof.
  revert c. induction ks as [|k ks IH]; intros c Hc; simpl; [done|].
  apply IH, step_agree, Hc.
Qed.

(** C1.  After every sequence of calls on a new collector - status updates
    in particular, repeated ones included - [connected_devices] is the
    number of entries whose [connection_status] is ["connected"] and
    [active_devices] the number whose [simulation_status] is ["running"];
    and an update that carries the status the device already has (the
    default one, for a device without an entry) leaves both counters as
    they were. *)
Theorem C1_status_counters_count_entries
    (now : datetime) (time : float) (ks : list call) :
  let c := run (init now time) ks in
  connected_devices (system_metrics c) = count_connected (device_metrics c)
  ∧ active_devices (system_metrics c) = count_running (device_metrics c)
  ∧ ∀ i sd,
      let m := fst (getitem (device_metrics c) i) in
      truthy (status_get sd "connected")
      = bool_decide (connection_status m = "connected") →
      truthy (status_get sd "simulating")
      = bool_decide (simulation_status m = "running") →
      connected_devices (system_metrics (update_device_status c i sd))
      = connected_devices (system_metrics c)
      ∧ active_devices (system_metrics (update_device_status c i sd))
        = active_devices (system_metrics c).
Proof.
  intros c.
  destruct (run_agree (init now time) ks (init_agree now time)) as [Hc Ha].
  split; [exact Hc|]. split; [exact Ha|].
  intros i sd m Hconn Hsim.
  destruct (update_device_status_counters c i sd) as [-> ->].
  fold m. rewrite Hconn, Hsim.
  split; destruct (bool_decide _); simpl; lia.
Qed.

(** C1 at work: two devices come up, one update is repeated. *)
Lemma C1_status_counters_witness :
  let up : gmap string pyval :=
    <["connected" := PBool true]> (<["simulating" := PBool true]> ∅) in
  let c := run (init 0%Z 0%float)
             [UpdateDeviceStatus "dev-1" up; UpdateDeviceStatus "dev-2" up;
              UpdateDeviceStatus "dev-1" up] in
  connected_devices (system_metrics c) = 2%Z
  ∧ active_devices (system_metrics c) = 2%Z
  ∧ connected_devices (system_metrics (update_device_status c "dev-1" up))
    = connected_devices (system_metrics c)
  ∧ active_devices (system_metrics (update_device_status c "dev-1" up))
    = active_devices (system_metrics c).
Proof.
  intros up c.
  split; [reflexivity|]. split; [reflexivity|].
  refine (proj2 (proj2 (C1_status_counters_count_entries 0%Z 0%float _))
            "dev-1" up _ _);
    reflexivity.
Defined.

(** *** The totals *)

Lemma step_totals c k :
  is_reset k = false →
  total_messages (system_metrics (step c k))
  = (total_messages (system_metrics c) + Z.b2z (is_sent k))%Z
  ∧ total_errors (system_metrics (step c k))
    = (total_errors (system_metrics c) + Z.b2z (is_error k))%Z.
Proof.
  destruct k as [i d clk|i d now|i sd|i|now]; simpl; intros Hk; try done.
  - unfold record_message_sent, emit_event. simpl.
    match goal with
    | |- context [_update_rates ?c1 ?t ?n] =>
        destruct (update_rates_frame c1 t n) as (_ & -> & -> & _)
    end.
    simpl. lia.
  - lia.
  - unfold update_device_status.
    destruct (getitem _ _). simpl. lia.
  - unfold get_device_metrics. destruct (getitem _ _). simpl. lia.
Qed.

Lemma run_totals c ks :
  Forall (λ k, is_reset k = false) ks →
  total_messages (system_metrics (run c ks))
  = (total_messages (system_metrics c)
     + Z.of_nat (length (filter (λ k, is_sent k = true) ks)))%Z
  ∧ total_errors (system_metrics (run c ks))
    = (total_errors (system_metrics c)
       + Z.of_nat (length (filter (λ k, is_error k = true) ks)))%Z.
Proof.
  revert c. induction ks as [|k ks IH]; intros c Hks; simpl.
  { split; lia. }
  apply Forall_cons in Hks as [Hk Hks].
  destruct (IH (step c k) Hks) as [-> ->].
  destruct (step_totals c k Hk) as [-> ->].
  rewrite !filter_cons.
  destruct (is_sent k), (is_error k); simpl;
    repeat case_decide; simpl; try done; split; lia.
Qed.

(** C2.  On a collector that is new or was just reset, after calls of which
    [N] are [record_message_sent] and [M] are [record_message_error] (in any
    order, on any device ids, none of them a reset), the export reports
    [total_messages = N] and [total_errors = M]. *)
Theorem C2_export_reports_recorded_totals
    (c0 : MetricsCollector) (ks : list call) (clk : ExportClock) (N M : nat) :
  (∃ now time, c0 = init now time) ∨ (∃ c now, c0 = reset_metrics c now) →
  Forall (λ k, is_reset k = false) ks →
  length (filter (λ k, is_sent k = true) ks) = N →
  length (filter (λ k, is_error k = true) ks) = M →
  rep_total_messages (exp_system_metrics (export_metrics (run c0 ks) clk))
  = Z.of_nat N
  ∧ rep_total_errors (exp_system_metrics (export_metrics (run c0 ks) clk))
    = Z.of_nat M.
Proof.
  intros Hc0 Hks <- <-. simpl.
  destruct (run_totals c0 ks Hks) as [-> ->].
  destruct Hc0 as [(now & time & ->)|(c & now & ->)]; simpl; split; lia.
Qed.

Lemma C2_export_totals_witness :
  let clk := mkSentClock 10%Z 11%Z 1%float 12%Z in
  let e := export_metrics
             (run (init 0%Z 0%float)
                [RecordMessageSent "dev-1" ∅ clk;
                 RecordMessageError "dev-2" ∅ 20%Z;
                 RecordMessageSent "dev-2" ∅ clk])
             (mkExportClock 30%Z 31%Z 32%Z) in
  rep_total_messages (exp_system_metrics e) = 2%Z
  ∧ rep_total_errors (exp_system_metrics e) = 1%Z.
Proof.
  intros clk e.
  apply (C2_export_reports_recorded_totals (init 0%Z 0%float) _ _ 2 1).
  - left. by exists 0%Z, 0%float.
  - repeat constructor.
  - reflexivity.
  - reflexivity.
Defined.

(** *** The history buffers *)

Lemma deque_append_last_n {A} (n : nat) (l : list A) (x : A) :
  0 < n → deque_append n (last_n n l) x = last_n n (l ++ [x]).
Proof.
  intros Hn. unfold deque_append, last_n.
  rewrite length_drop, length_app. simpl.
  case_decide as Hlt.
  - replace (length l - n) with 0 by lia.
    replace (length l + 1 - n) with 0 by lia. done.
  - rewrite <- drop_app_le by lia. rewrite drop_drop.
    f_equal. lia.
Qed.

Lemma length_last_n {A} (n : nat) (l : list A) :
  length (last_n n l) ≤ n.
Proof. unfold last_n. rewrite length_drop. lia. Qed.

Lemma step_history_size c k : history_size (step c k) = history_size c.
Proof.
  destruct k as [i d clk|i d now|i sd|i|now]; simpl; try done.
  - unfold record_message_sent, emit_event. simpl.
    match goal with
    | |- context [_update_rates ?c1 ?t ?n] =>
        by destruct (update_rates_frame c1 t n) as (_&_&_&_&_&_&_& ->)
    end.
  - unfold update_device_status. by destruct (getitem _ _).
  - unfold get_device_metrics. by destruct (getitem _ _).
Qed.

Lemma run_snoc c ks k : run c (ks ++ [k]) = step (run c ks) k.
Proof. unfold run. by rewrite foldl_snoc. Qed.

Lemma run_history_size c ks : history_size (run c ks) = history_size c.
Proof.
  induction ks as [|k ks IH] using rev_ind; [done|].
  by rewrite run_snoc, step_history_size.
Qed.

Lemma run_histories now time ks :
  message_history (run (init now time) ks)
  = last_n (24 * 60) (appended_messages ks)
  ∧ error_history (run (init now time) ks)
    = last_n (24 * 60) (appended_errors ks).
Proof.
  induction ks as [|k ks [IHm IHe]] using rev_ind; [done|].
  rewrite run_snoc. unfold appended_messages, appended_errors.
  rewrite !foldl_snoc.
  fold (appended_messages ks). fold (appended_errors ks).
  pose proof (run_history_size (init now time) ks) as Hn.
  change (history_size (init now time)) with (24 * 60) in Hn.
  destruct k as [i d clk|i d t|i sd|i|t]; simpl.
  - unfold record_message_sent, emit_event. simpl.
    match goal with
    | |- context [_update_rates ?c1 ?t ?n] =>
        destruct (update_rates_frame c1 t n) as (_&_&_&_&_& -> & -> &_)
    end.
    simpl. rewrite Hn, IHm.
    split; [apply deque_append_last_n; lia|done].
  - rewrite Hn, IHe. split; [done|apply deque_append_last_n; lia].
  - unfold update_device_status. by destruct (getitem _ _).
  - unfold get_device_metrics. by destruct (getitem _ _).
  - done.
Qed.

(** C5.  After every sequence of calls on a new collector, each history
    buffer holds at most [24 * 60] entries, and holds exactly the last
    [24 * 60] entries appended to it (since the last reset), in the order
    they were appended; an append to a full buffer drops the oldest entry
    and keeps the others in order, the new entry last. *)
Theorem C5_history_buffers_bounded_fifo
    (now : datetime) (time : float) (ks : list call) :
  let c := run (init now time) ks in
  length (message_history c) ≤ 24 * 60
  ∧ length (error_history c) ≤ 24 * 60
  ∧ message_history c = last_n (24 * 60) (appended_messages ks)
  ∧ error_history c = last_n (24 * 60) (appended_errors ks)
  ∧ (∀ i d clk oldest rest,
       message_history c = oldest :: rest →
       length (message_history c) = 24 * 60 →
       message_history (record_message_sent c i d clk)
       = rest ++ [(now_current clk, 1%Z)])
  ∧ (∀ i d t oldest rest,
       error_history c = oldest :: rest →
       length (error_history c) = 24 * 60 →
       error_history (record_message_error c i d t) = rest ++ [(t, 1%Z)]).
Proof.
  intros c. destruct (run_histories now time ks) as [Hm He].
  pose proof (run_history_size (init now time) ks) as Hn.
  change (history_size (init now time)) with (24 * 60) in Hn.
  fold c in Hm, He, Hn.
  split; [rewrite Hm; apply length_last_n|].
  split; [rewrite He; apply length_last_n|].
  split; [exact Hm|]. split; [exact He|].
  split.
  - intros i d clk oldest rest Hh Hlen.
    unfold record_message_sent, emit_event. simpl.
    match goal with
    | |- context [_update_rates ?c1 ?t ?n] =>
        destruct (update_rates_frame c1 t n) as (_&_&_&_&_& -> &_)
    end.
    simpl. unfold deque_append. rewrite Hn, Hlen.
    rewrite decide_False by lia. by rewrite Hh.
  - intros i d t oldest rest Hh Hlen. simpl.
    unfold deque_append. rewrite Hn, Hlen.
    rewrite decide_False by lia. by rewrite Hh.
Qed.

(** C5 at work: 1500 sends fill the message buffer; the next send drops the
    oldest entry and comes last. *)
Lemma C5_history_buffers_witness :
  let c := run (init 0%Z 0%float)
             (replicate 1500
                (RecordMessageSent "dev-1" ∅
                   (mkSentClock 10%Z 11%Z 1%float 12%Z))) in
  message_history
    (record_message_sent c "dev-2" ∅ (mkSentClock 20%Z 21%Z 2%float 22%Z))
  = replicate 1439 (11%Z, 1%Z) ++ [(21%Z, 1%Z)].
Proof.
  intros c.
  refine (proj1 (proj2 (proj2 (proj2 (proj2
            (C5_history_buffers_bounded_fifo 0%Z 0%float _)))))
            "dev-2" ∅ (mkSentClock 20%Z 21%Z 2%float 22%Z)
            (11%Z, 1%Z) (replicate 1439 (11%Z, 1%Z)) _ _);
    vm_compute; reflexivity.
Defined.

(** *** Reading the metrics of an unseen device *)

(** C10.  For a device id that is not a key of the per-device map,
    [get_device_metrics] returns the default entry and inserts it: the
    system counters stay as they were, and [get_system_metrics] afterwards
    reports one device more. *)
Theorem C10_get_device_metrics_inserts_default
    (c : MetricsCollector) (i : string) (now : datetime) :
  device_metrics c !! i = None →
  let m := fst (get_device_metrics c i) in
  let c' := snd (get_device_metrics c i) in
  message_count m = 0%Z
  ∧ error_count m = 0%Z
  ∧ last_message_time m = None
  ∧ connection_status m = "disconnected"
  ∧ simulation_status m = "stopped"
  ∧ device_metrics c' !! i = Some m
  ∧ system_metrics c' = system_metrics c
  ∧ total_devices (get_system_metrics c' now)
    = S (total_devices (get_system_metrics c now)).
Proof.
  intros Hi. unfold get_device_metrics, getitem. rewrite Hi. simpl.
  rewrite lookup_insert_eq, map_size_insert_None by done. done.
Qed.

Lemma C10_get_device_metrics_witness :
  let c := init 0%Z 0%float in
  device_metrics (snd (get_device_metrics c "dev-9")) !! "dev-9"
  = Some (fst (get_device_metrics c "dev-9"))
  ∧ total_devices (get_system_metrics (snd (get_device_metrics c "dev-9")) 5%Z)
    = 1.
Proof.
  intros c.
  pose proof (C10_get_device_metrics_inserts_default c "dev-9" 5%Z
                (lookup_empty _)) as H.
  split; apply H.
Defined.

End MetricsProperties.

(** ** Message templates *)

Section GeneratorProperties.
Import Generator Examples.

Implicit Types (w : World) (field : FieldConfig) (t : MessageTemplate).
Implicit Types (k : nat) (st : GenState).

Local Arguments _generate_field_value : simpl never.
Local Arguments _generate_numeric_value : simpl never.
Local Arguments _generate_string_value : simpl never.
Local Arguments _generate_location : simpl never.

Lemma convert_int field v :
  data_type field = "int" → convert field v = py_int v.
Proof. intros E. unfold convert. by rewrite bool_decide_eq_true_2. Qed.

Lemma convert_other field v :
  data_type field ≠ "int" → convert field v = py_round2 v.
Proof. intros E. unfold convert. by rewrite bool_decide_eq_false_2. Qed.

(** The claim of C3 read literally fails on an int field: at step 1 the
    ramp of [level_field] stands at 0.5, within its maximum, and the value
    generated is the int 0. *)
Lemma C3_counterexample_truncated_ramp :
  linear_value level_field 1 = Ok 0.5%float
  ∧ exceeds_max level_field 0.5 = false
  ∧ _generate_numeric_value example_world level_field
      (at_step three_fields 1)
    = (Ok (PInt 0), at_step three_fields 1)
  ∧ num_eqb (PInt 0) (PFloat 0.5) = false.
Proof. repeat split. Qed.

(** C3, amended.  For a numeric linear field whose [max_value] is set and
    not zero, at a step counter [c]: the running value is
    [(min_value or 0) + (step_size or 0.1) * c]; while it does not exceed
    [max_value] the field's value is the running value converted ([int()]
    for an int field, [round(_, 2)] otherwise) and the counter stays; on the
    call where it exceeds [max_value] the field's value is [min_value or 0]
    converted the same way and the counter is reset to 0. *)
Theorem C3_linear_ramp_converts_and_wraps
    w field t k (mx fc : float) :
  pattern field = LINEAR →
  max_value field = Some mx →
  float_truthy mx = true →
  float_of_int (_step_counter t) = Some fc →
  let running :=
    PrimFloat.add (oor (min_value field) 0)
      (PrimFloat.mul (for_ (step_size field) 0.1) fc) in
  (PrimFloat.ltb mx running = false →
   _generate_numeric_value w field (t, k)
   = (convert field (PFloat running), (t, k)))
  ∧ (PrimFloat.ltb mx running = true →
     _generate_numeric_value w field (t, k)
     = (convert field (min_or_zero field), (set_step_counter t 0, k)))
  ∧ (data_type field = "int" →
     convert field (PFloat running)
     = of_option (PInt <$> int_of_float running))
  ∧ (data_type field ≠ "int" →
     convert field (PFloat running) = Ok (PFloat (round2 running))).
Proof.
  intros Hp Hmx Hnz Hfc running.
  assert (Hlin : linear_value field (_step_counter t) = Ok running).
  { unfold linear_value. by rewrite Hfc. }
  assert (Hex : exceeds_max field running = PrimFloat.ltb mx running).
  { unfold exceeds_max. by rewrite Hmx, Hnz. }
  repeat split.
  - intros Hle. unfold _generate_numeric_value.
    by rewrite Hp, Hlin, Hex, Hle.
  - intros Hgt. unfold _generate_numeric_value.
    by rewrite Hp, Hlin, Hex, Hgt.
  - intros Hi. by rewrite convert_int.
  - intros Hi. by rewrite convert_other.
Qed.

(** C3 at work: [ramp_field] at step 3 stands at 21.5, beyond 21.0; the
    value is 20.0 and the counter is back at 0. *)
Lemma C3_linear_ramp_witness :
  _generate_numeric_value example_world ramp_field (at_step three_fields 3)
  = (Ok (PFloat 20), at_step three_fields 0).
Proof.
  refine (proj1 (proj2
            (C3_linear_ramp_converts_and_wraps example_world ramp_field
               (set_step_counter three_fields 3) 0 21 3 _ _ _ _)) _);
    reflexivity.
Defined.

(** A [max_value] of 0.0 is falsy: the ramp of [drift_field] passes it and
    goes on. *)
Lemma linear_ramp_past_zero_maximum :
  linear_value drift_field 3 = Ok 0.5%float
  ∧ _generate_numeric_value example_world drift_field
      (at_step three_fields 3)
    = (Ok (PFloat 0.5), at_step three_fields 3).
Proof. repeat split. Qed.

(** *** Constant fields *)

Lemma constant_field_value w field t k :
  pattern field = CONSTANT →
  data_type field ∈ ["bool"; "string"; "int"; "float"] →
  _generate_field_value w field (t, k)
  = (if bool_decide (data_type field = "bool") then
       PBool (truthy (constant_value field))
     else if bool_decide (data_type field = "string") then
       PStr (py_str (float_repr w) (por (constant_value field) (PStr "")))
     else if bool_decide (data_type field = "int") then
       unwrap (py_int (por (constant_value field) (PInt 0)))
     else unwrap (py_round2 (por (constant_value field) (PInt 0))),
     (t, k)).
Proof.
  intros Hp Hdt. rewrite !elem_of_cons, elem_of_nil in Hdt.
  unfold _generate_field_value, _generate_string_value,
    _generate_numeric_value, convert.
  rewrite Hp.
  destruct Hdt as [Hdt|[Hdt|[Hdt|[Hdt|[]]]]]; rewrite Hdt;
    repeat (rewrite bool_decide_eq_false_2 by done);
    repeat (rewrite bool_decide_eq_true_2
              by (done || (rewrite !elem_of_cons; tauto)));
    try done.
  - by destruct (py_int _).
  - by destruct (py_round2 _).
Qed.

(** The claim of C7 read literally fails on a float field whose constant
    has more than two decimals: [setpoint_field] is configured with 1.234
    and generates 1.23. *)
Lemma C7_counterexample_rounded_constant :
  _generate_field_value example_world setpoint_field (at_step three_fields 0)
  = (PFloat 1.23, at_step three_fields 0)
  ∧ num_eqb (PFloat 1.23) (PFloat 1.234) = false.
Proof. repeat split. Qed.

(** C7, amended.  For a field with [pattern = constant] of type bool,
    string, int or float, the generated value is the configured constant
    after the conversion of its type - [bool(c)], [str(c or "")],
    [int(c or 0)], [round(c or 0, 2)], [None] when the conversion raises -
    whatever the step counter is, and generating it changes nothing.  It is
    the constant itself for a bool constant on a bool field, a str constant
    on a string field and an int constant on a numeric field; a float
    constant on a float field comes out rounded to two decimals; an unset
    constant gives [False], [""] and [0]. *)
Theorem C7_constant_fields_convert_their_constant w field t k :
  pattern field = CONSTANT →
  let c := constant_value field in
  let value := fst (_generate_field_value w field (t, k)) in
  (data_type field = "bool" → value = PBool (truthy c))
  ∧ (data_type field = "string" →
     value = PStr (py_str (float_repr w) (por c (PStr ""))))
  ∧ (data_type field = "int" → value = unwrap (py_int (por c (PInt 0))))
  ∧ (data_type field = "float" →
     value = unwrap (py_round2 (por c (PInt 0))))
  ∧ (data_type field ∈ ["bool"; "string"; "int"; "float"] →
     snd (_generate_field_value w field (t, k)) = (t, k)
     ∧ ∀ n, fst (_generate_field_value w field (set_step_counter t n, k))
            = value)
  ∧ (∀ b, data_type field = "bool" → c = PBool b → value = PBool b)
  ∧ (∀ s, data_type field = "string" → c = PStr s → value = PStr s)
  ∧ (∀ z, data_type field ∈ ["int"; "float"] → c = PInt z →
          value = PInt z)
  ∧ (∀ f, data_type field = "float" → c = PFloat f →
          float_truthy f = true → value = PFloat (round2 f))
  ∧ (c = PNone →
     (data_type field = "bool" → value = PBool false)
     ∧ (data_type field = "string" → value = PStr "")
     ∧ (data_type field ∈ ["int"; "float"] → value = PInt 0)).
Proof.
  intros Hp c value.
  assert (Hv : ∀ dt, data_type field = dt →
                 dt ∈ ["bool"; "string"; "int"; "float"] →
                 ∀ t', _generate_field_value w field (t', k)
                 = (if bool_decide (dt = "bool") then PBool (truthy c)
                    else if bool_decide (dt = "string") then
                      PStr (py_str (float_repr w) (por c (PStr "")))
                    else if bool_decide (dt = "int") then
                      unwrap (py_int (por c (PInt 0)))
                    else unwrap (py_round2 (por c (PInt 0))),
                    (t', k))).
  { intros dt <- Hin t'. by apply constant_field_value. }
  assert (Hb : data_type field = "bool" → value = PBool (truthy c)).
  { intros E. unfold value. rewrite (Hv _ E); [done|]. set_solver. }
  assert (Hs : data_type field = "string" →
               value = PStr (py_str (float_repr w) (por c (PStr "")))).
  { intros E. unfold value. rewrite (Hv _ E); [done|]. set_solver. }
  assert (Hi : data_type field = "int" →
               value = unwrap (py_int (por c (PInt 0)))).
  { intros E. unfold value. rewrite (Hv _ E); [done|]. set_solver. }
  assert (Hf : data_type field = "float" →
               value = unwrap (py_round2 (por c (PInt 0)))).
  { intros E. unfold value. rewrite (Hv _ E); [done|]. set_solver. }
  repeat split; try assumption.
  - rewrite (Hv _ eq_refl); done.
  - intros n. unfold value. rewrite !(Hv _ eq_refl); done.
  - intros b E Hc. rewrite (Hb E), Hc. done.
  - intros s E Hc. rewrite (Hs E), Hc. unfold por. simpl.
    by destruct (String.eqb s "") eqn:Es; [apply String.eqb_eq in Es as ->|].
  - intros z Hin Hc. rewrite !elem_of_cons, elem_of_nil in Hin.
    destruct Hin as [E|[E|[]]].
    + rewrite (Hi E), Hc. unfold por. simpl.
      by destruct (Z.eqb_spec z 0) as [->|].
    + rewrite (Hf E), Hc. unfold por. simpl.
      by destruct (Z.eqb_spec z 0) as [->|].
  - intros f E Hc Hnz. rewrite (Hf E), Hc. unfold por. simpl.
    by rewrite Hnz.
  - intros E. rewrite (Hb E), H. done.
  - intros E. rewrite (Hs E), H. done.
  - intros Hin. rewrite !elem_of_cons, elem_of_nil in Hin.
    destruct Hin as [E|[E|[]]].
    + rewrite (Hi E), H. done.
    + rewrite (Hf E), H. done.
Qed.

(** C7 at work: [site_field] generates its constant at step 5 as at any
    other. *)
Lemma C7_constant_fields_witness :
  fst (_generate_field_value example_world site_field (at_step three_fields 5))
  = PStr "plant-7".
Proof.
  refine (proj1 (proj2 (proj2 (proj2 (proj2 (proj2 (proj2
            (C7_constant_fields_convert_their_constant example_world
               site_field (set_step_counter three_fields 5) 0 _)))))))
            "plant-7" _ _);
    reflexivity.
Defined.

(** *** The shared step counter *)

Lemma set_step_counter_same t : set_step_counter t (_step_counter t) = t.
Proof. by destruct t. Qed.

Lemma numeric_value_template w field t k :
  fst (snd (_generate_numeric_value w field (t, k)))
  = if bool_decide (pattern field = LINEAR)
       && match linear_value field (_step_counter t) with
          | Ok value => exceeds_max field value
          | Raise => false
          end
    then set_step_counter t 0 else t.
Proof.
  unfold _generate_numeric_value.
  destruct (pattern field); simpl; try done.
  - destruct (float_of_int _); [|done]. by destruct (math_sin _ _).
  - destruct (linear_value _ _) as [value|]; [|done].
    by destruct (exceeds_max _ _).
Qed.

Lemma string_value_template w field t k :
  fst (snd (_generate_string_value w field (t, k))) = t.
Proof.
  unfold _generate_string_value.
  destruct (pattern field); try done.
  destruct (_faker t); [|done].
  repeat case_bool_decide; done.
Qed.

(** What one field does to the template: nothing, or the reset of a wrap. *)
Lemma field_value_template w field t k :
  fst (snd (_generate_field_value w field (t, k)))
  = if wraps field (_step_counter t) then set_step_counter t 0 else t.
Proof.
  unfold _generate_field_value, wraps.
  destruct (bool_decide (data_type field ∈ ["int"; "float"])) eqn:E.
  - apply bool_decide_eq_true in E.
    assert (Hdt : data_type field = "int" ∨ data_type field = "float").
    { rewrite !elem_of_cons, elem_of_nil in E. tauto. }
    pose proof (numeric_value_template w field t k) as Hn.
    destruct Hdt as [Hdt|Hdt]; rewrite Hdt;
      rewrite !bool_decide_eq_false_2 by done;
      destruct (_generate_numeric_value w field (t, k)) as [[v|] st'];
      simpl in *; exact Hn.
  - cbn [andb].
    repeat case_bool_decide; try done.
    + unfold _generate_location. by destruct (_faker t).
    + by destruct (pattern field).
    + apply string_value_template.
Qed.

Lemma observed_counters_steady w fs (m : gmap string pyval) t k :
  Forall (λ f, wraps f (_step_counter t) = false) fs →
  observed_counters w fs (t, k) = replicate (length fs) (_step_counter t)
  ∧ fst (snd (generate_fields w fs m (t, k))) = t.
Proof.
  revert m k. induction fs as [|f fs IH]; intros m k Hfs; simpl; [done|].
  apply Forall_cons in Hfs as [Hf Hfs].
  pose proof (field_value_template w f t k) as Ht. rewrite Hf in Ht.
  destruct (_generate_field_value w f (t, k)) as [v [t' k']].
  simpl in Ht. subst t'. simpl.
  destruct (IH (<[name f := v]> m) k' Hfs) as [-> ->]. done.
Qed.

Lemma observed_counters_at_zero w fs (m : gmap string pyval) t k :
  _step_counter t = 0%Z →
  observed_counters w fs (t, k) = replicate (length fs) 0%Z
  ∧ fst (snd (generate_fields w fs m (t, k))) = t.
Proof.
  intros Hz. revert m k. induction fs as [|f fs IH]; intros m k; simpl.
  { done. }
  pose proof (field_value_template w f t k) as Ht.
  assert (Ht' : fst (snd (_generate_field_value w f (t, k))) = t).
  { rewrite Ht. destruct (wraps _ _); [|done].
    rewrite <- Hz. apply set_step_counter_same. }
  clear Ht. destruct (_generate_field_value w f (t, k)) as [v [t' k']].
  simpl in Ht'. subst t'. simpl.
  destruct (IH (<[name f := v]> m) k') as [-> ->]. by rewrite Hz.
Qed.

Lemma observed_counters_wrap w pre f post (m : gmap string pyval) t k :
  Forall (λ g, wraps g (_step_counter t) = false) pre →
  wraps f (_step_counter t) = true →
  observed_counters w (pre ++ f :: post) (t, k)
  = replicate (S (length pre)) (_step_counter t)
      ++ replicate (length post) 0%Z
  ∧ fst (snd (generate_fields w (pre ++ f :: post) m (t, k)))
    = set_step_counter t 0.
Proof.
  intros Hpre Hf. revert m k.
  induction pre as [|g pre IH]; intros m k; simpl.
  - pose proof (field_value_template w f t k) as Ht. rewrite Hf in Ht.
    destruct (_generate_field_value w f (t, k)) as [v [t' k']].
    simpl in Ht. subst t'. simpl.
    destruct (observed_counters_at_zero w post (<[name f := v]> m)
                (set_step_counter t 0) k' eq_refl) as [-> ->].
    done.
  - apply Forall_cons in Hpre as [Hg Hpre].
    pose proof (field_value_template w g t k) as Ht. rewrite Hg in Ht.
    destruct (_generate_field_value w g (t, k)) as [v [t' k']].
    simpl in Ht. subst t'. simpl.
    destruct (IH Hpre (<[name g := v]> m) k') as [-> ->]. done.
Qed.

Lemma generate_message_template w t k :
  fst (snd (generate_message w (t, k)))
  = let t1 := fst (snd (generate_fields w (fields t) ∅ (t, k))) in
    set_step_counter t1 (_step_counter t1 + 1).
Proof.
  unfold generate_message. simpl.
  destruct (generate_fields w (fields t) ∅ (t, k)) as [m [t1 k1]]. simpl.
  by destruct (m !! "timestamp").
Qed.

(** The claim of C8 read literally fails when a ramp wraps in mid-message:
    in [three_fields] at step 3 the first field reads 3, the ramp reads 3
    and wraps, the last field reads 0, and the next message starts at 1,
    not at 4. *)
Lemma C8_counterexample_wrap_in_mid_message :
  observed_counters example_world (fields three_fields)
    (at_step three_fields 3)
  = [3%Z; 3%Z; 0%Z]
  ∧ fst (generate_message example_world (at_step three_fields 3))
      !! "before" = Some (PStr "before_3")
  ∧ fst (generate_message example_world (at_step three_fields 3))
      !! "after" = Some (PStr "after_0")
  ∧ _step_counter
      (fst (snd (generate_message example_world (at_step three_fields 3))))
    = 1%Z.
Proof. repeat split. Qed.

Lemma generate_fields_app w fs1 fs2 (m : gmap string pyval) st :
  generate_fields w (fs1 ++ fs2) m st
  = generate_fields w fs2 (fst (generate_fields w fs1 m st))
      (snd (generate_fields w fs1 m st)).
Proof.
  revert m st. induction fs1 as [|f fs1 IH]; intros m st; simpl; [done|].
  destruct (_generate_field_value w f st) as [v st']. apply IH.
Qed.

(** While no field wraps, the loop hands every field the counter the call
    started with. *)
Lemma generate_fields_steady_reading w fs (m : gmap string pyval) t k :
  Forall (λ f, wraps f (_step_counter t) = false) fs →
  generate_fields w fs m (t, k)
  = fields_reading w (_step_counter t) fs m (t, k).
Proof.
  revert m k. induction fs as [|f fs IH]; intros m k Hfs; simpl; [done|].
  apply Forall_cons in Hfs as [Hf Hfs].
  rewrite set_step_counter_same.
  pose proof (field_value_template w f t k) as Ht. rewrite Hf in Ht.
  destruct (_generate_field_value w f (t, k)) as [v [t' k']].
  simpl in Ht. subst t'. by apply IH.
Qed.

(** The field that wraps is itself handed the counter of the start. *)
Lemma generate_fields_wrapping_reading w pre f (m : gmap string pyval) t k :
  Forall (λ g, wraps g (_step_counter t) = false) pre →
  generate_fields w (pre ++ [f]) m (t, k)
  = fields_reading w (_step_counter t) (pre ++ [f]) m (t, k).
Proof.
  revert m k. induction pre as [|g pre IH]; intros m k Hpre; simpl.
  - rewrite set_step_counter_same.
    by destruct (_generate_field_value w f (t, k)) as [v st'].
  - apply Forall_cons in Hpre as [Hg Hpre].
    rewrite set_step_counter_same.
    pose proof (field_value_template w g t k) as Ht. rewrite Hg in Ht.
    destruct (_generate_field_value w g (t, k)) as [v [t' k']].
    simpl in Ht. subst t'. by apply IH.
Qed.

(** Once the counter is 0 every field is handed 0. *)
Lemma generate_fields_zero_reading w fs (m : gmap string pyval) t k :
  _step_counter t = 0%Z →
  generate_fields w fs m (t, k) = fields_reading w 0 fs m (t, k).
Proof.
  intros Hz. revert m k. induction fs as [|f fs IH]; intros m k; simpl.
  { done. }
  rewrite <- Hz at 1. rewrite set_step_counter_same.
  pose proof (field_value_template w f t k) as Ht.
  assert (Ht' : fst (snd (_generate_field_value w f (t, k))) = t).
  { rewrite Ht. destruct (wraps _ _); [|done].
    rewrite <- Hz. apply set_step_counter_same. }
  clear Ht. destruct (_generate_field_value w f (t, k)) as [v [t' k']].
  simpl in Ht'. subst t'. apply IH.
Qed.

(** What the loop assigned to a key is what the message returned has
    there. *)
Lemma generate_message_keeps_fields w st n v :
  fst (generate_fields w (fields (fst st)) ∅ st) !! n = Some v →
  fst (generate_message w st) !! n = Some v.
Proof.
  unfold generate_message.
  destruct (generate_fields w (fields (fst st)) ∅ st) as [m [t1 k1]].
  simpl. destruct (m !! "timestamp") as [ts|] eqn:Hts; simpl; [done|].
  intros Hn. rewrite lookup_insert_ne; [done|]. intros <-. congruence.
Qed.

(** C8, amended.  One [generate_message] call increments the template's
    step counter once, after all its fields were evaluated, and changes
    nothing else of the template; the message it returns holds, under
    every key the field loop assigned, the value the loop assigned.  The
    fields read the one counter of the template in turn.  When no field
    wraps at the counter [c] the call starts with, every field reads [c] -
    the loop is the one that hands [c] to every field - and the call leaves
    the counter at [c + 1].  When a linear field wraps, the fields up to and
    including it read [c] and those after it read 0 - the loop is the one
    that hands [c] to the former and 0 to the latter - and the call leaves
    the counter at 1. *)
Theorem C8_step_counter_shared_and_bumped_once w t k :
  let c := _step_counter t in
  let r := generate_fields w (fields t) ∅ (t, k) in
  let t1 := fst (snd r) in
  let t' := fst (snd (generate_message w (t, k))) in
  t' = set_step_counter t1 (_step_counter t1 + 1)
  ∧ (∀ n v, fst r !! n = Some v →
            fst (generate_message w (t, k)) !! n = Some v)
  ∧ (Forall (λ f, wraps f c = false) (fields t) →
     observed_counters w (fields t) (t, k)
     = replicate (length (fields t)) c
     ∧ r = fields_reading w c (fields t) ∅ (t, k)
     ∧ _step_counter t' = (c + 1)%Z)
  ∧ (∀ pre f post,
       fields t = pre ++ f :: post →
       Forall (λ g, wraps g c = false) pre →
       wraps f c = true →
       observed_counters w (fields t) (t, k)
       = replicate (S (length pre)) c ++ replicate (length post) 0%Z
       ∧ r = fields_reading w 0 post
               (fst (fields_reading w c (pre ++ [f]) ∅ (t, k)))
               (snd (fields_reading w c (pre ++ [f]) ∅ (t, k)))
       ∧ _step_counter t' = 1%Z).
Proof.
  intros c r t1 t'.
  assert (Ht' : t' = set_step_counter t1 (_step_counter t1 + 1))
    by apply generate_message_template.
  split; [exact Ht'|]. split.
  { intros n v. apply (generate_message_keeps_fields w (t, k)). }
  split.
  - intros Hfs.
    destruct (observed_counters_steady w (fields t) ∅ t k Hfs) as [Ho Ht1].
    fold r t1 in Ht1. split; [exact Ho|]. split.
    + by apply generate_fields_steady_reading.
    + rewrite Ht', Ht1. done.
  - intros pre f post Hfields Hpre Hf.
    destruct (observed_counters_wrap w pre f post ∅ t k Hpre Hf) as [Ho Ht1].
    rewrite <- Hfields in Ho, Ht1. fold r t1 in Ht1.
    split; [exact Ho|]. split; [|rewrite Ht', Ht1; done].
    unfold r. rewrite Hfields.
    change (pre ++ f :: post) with (pre ++ [f] ++ post).
    rewrite app_assoc, generate_fields_app.
    destruct (observed_counters_wrap w pre f [] ∅ t k Hpre Hf) as [_ Hmid].
    rewrite generate_fields_wrapping_reading in * by done.
    fold c in Hmid |- *.
    destruct (fields_reading w c (pre ++ [f]) ∅ (t, k)) as [m1 [t0 k0]].
    simpl in Hmid |- *. subst t0.
    by apply generate_fields_zero_reading.
Qed.

(** C8 at work, on the wrap: in [three_fields] at step 3 the ramp wraps,
    the field after it reads 0 and gets ["after_0"], and the call leaves
    the counter at 1. *)
Lemma C8_step_counter_witness :
  observed_counters example_world (fields three_fields)
    (at_step three_fields 3)
  = [3%Z; 3%Z; 0%Z]
  ∧ fst (generate_fields example_world (fields three_fields) ∅
           (at_step three_fields 3))
      !! "after" = Some (PStr "after_0")
  ∧ _step_counter
      (fst (snd (generate_message example_world (at_step three_fields 3))))
    = 1%Z.
Proof.
  pose proof (C8_step_counter_shared_and_bumped_once example_world
                (set_step_counter three_fields 3) 0) as (_ & _ & _ & H).
  destruct (H [field_config "before" "string" LINEAR]
              (mkFieldConfig "ramp" "float" LINEAR None (Some 1%float) PNone
                 0.5 1 1 0 1)
              [field_config "after" "string" LINEAR]
              eq_refl) as (Ho & Hr & Hc).
  - repeat constructor.
  - reflexivity.
  - split; [exact Ho|]. split; [|exact Hc].
    unfold at_step.
    change (fields three_fields)
      with (fields (set_step_counter three_fields 3)).
    rewrite Hr. reflexivity.
Defined.

End GeneratorProperties.

(** ** Devices and their simulations *)

Section SimulationProperties.
Import Generator Device Simulation Examples.

Implicit Types (env : Env) (d : VirtualDevice) (s : DeviceSimulation).
Implicit Types (m : gmap string pyval) (k n : nat).

Local Arguments generate_message : simpl never.
Local Arguments send_message : simpl never.
Local Arguments _simulation_loop : simpl never.
Local Arguments loop_turn : simpl never.

(** *** Sending *)

Lemma send_message_frame env d m k :
  let r := send_message env d m k in
  let ok := fst (fst (fst r)) in
  let d' := snd (fst (fst r)) in
  config d' = config d
  ∧ client d' = client d
  ∧ is_connected d' = is_connected d
  ∧ Device.message_count d' = (Device.message_count d + Z.b2z ok)%Z
  ∧ (send_always_succeeds env d → ok = true)
  ∧ (send_always_fails env d → ok = false).
Proof.
  unfold send_message, send_always_succeeds, send_always_fails.
  destruct (AZURE_AVAILABLE env); simpl.
  - case_bool_decide as Hc; simpl.
    + destruct (is_connected d) eqn:Hconn; simpl.
      * destruct (sdk_send env _) as [e|] eqn:Hsdk; simpl.
        -- split_and!; try done; try lia.
           intros [?|(_ & _ & Hall)]; [done|].
           by rewrite Hall in Hsdk.
        -- split_and!; try done; try lia.
           intros [_ [Hno|[?|Hall]]]; [|done|].
           ++ rewrite Hno in Hc. by destruct Hc.
           ++ pose proof (Hall (S (S (S k)))) as Hk. rewrite Hsdk in Hk.
              by destruct Hk.
      * split_and!; try done; try lia;
          intros [?|(_ & ? & _)]; congruence.
    + split_and!; try done; try lia;
        intros [?|(? & _)]; done.
  - split_and!; try done; try lia;
      intros [? _]; done.
Qed.

(** *** Generating *)

Lemma generate_message_not_empty w st :
  size (fst (generate_message w st)) ≠ 0.
Proof.
  unfold generate_message.
  destruct (generate_fields w (fields (fst st)) ∅ st) as [m [t k]].
  destruct (m !! "timestamp") as [v|] eqn:Hts; simpl.
  - intros Hz. apply map_size_empty_inv in Hz. subst m.
    by rewrite lookup_empty in Hts.
  - rewrite map_size_insert_None by done. lia.
Qed.

(** *** Sends extend a simulation *)

(** What a send does besides what [send_message_frame] tells: to the
    simulating flag, to the error counter and to the bus. *)
Lemma send_message_account env d m k :
  let r := send_message env d m k in
  let ok := fst (fst (fst r)) in
  let d' := snd (fst (fst r)) in
  let evs := snd (fst r) in
  is_simulating d' = is_simulating d
  ∧ (ready d = true ∨ AZURE_AVAILABLE env = false →
     error_count d' = (error_count d + Z.b2z (negb ok))%Z
     ∧ length evs = 1
     ∧ message_failed_events evs = if ok then 0 else 1)
  ∧ (AZURE_AVAILABLE env = true → ready d = false →
     ok = false ∧ d' = d ∧ evs = []).
Proof.
  unfold send_message, ready.
  destruct (AZURE_AVAILABLE env); simpl;
    [destruct (bool_decide (is_Some (client d))); simpl;
     [destruct (is_connected d) eqn:Hconn; simpl;
      [destruct (sdk_send env _) as [e|] eqn:Hsdk; simpl|]|]|];
    split_and!; try done; try lia;
    try (intros [?|?]; done);
    intros; split_and!; done || lia.
Qed.

Lemma successes_app (l1 l2 : list (gmap string pyval * bool)) :
  successes (l1 ++ l2) = successes l1 + successes l2.
Proof. unfold successes. by rewrite filter_app, length_app. Qed.

Lemma failures_app (l1 l2 : list (gmap string pyval * bool)) :
  failures (l1 ++ l2) = failures l1 + failures l2.
Proof. unfold failures. by rewrite filter_app, length_app. Qed.

Lemma message_failed_events_app (l1 l2 : list Event) :
  message_failed_events (l1 ++ l2)
  = message_failed_events l1 + message_failed_events l2.
Proof. unfold message_failed_events. by rewrite filter_app, length_app. Qed.

Lemma successes_all_failed (l : list (gmap string pyval * bool)) :
  Forall (λ a, snd a = false) l → successes l = 0.
Proof.
  unfold successes. induction 1 as [|[m b] l Hb _ IH]; [done|].
  simpl in Hb. subst b. by rewrite filter_cons_False.
Qed.

Lemma successes_all_succeeded (l : list (gmap string pyval * bool)) :
  Forall (λ a, snd a = true) l → successes l = length l.
Proof.
  unfold successes. induction 1 as [|[m b] l Hb _ IH]; [done|].
  simpl in Hb. subst b. rewrite filter_cons_True by done.
  simpl. by rewrite IH.
Qed.

Lemma failures_all_failed (l : list (gmap string pyval * bool)) :
  Forall (λ a, snd a = false) l → failures l = length l.
Proof.
  unfold failures. induction 1 as [|[m b] l Hb _ IH]; [done|].
  simpl in Hb. subst b. rewrite filter_cons_True by done.
  simpl. by rewrite IH.
Qed.

Lemma extends_refl env s : extends env s s [].
Proof.
  split; try done.
  - by rewrite app_nil_r.
  - change (successes []) with 0. lia.
  - change (successes []) with 0. lia.
  - exists []. by rewrite app_nil_r.
  - intros _. change (failures []) with 0. lia.
Qed.

Lemma send_always_succeeds_transfer env d d' :
  client d' = client d → is_connected d' = is_connected d →
  send_always_succeeds env d → send_always_succeeds env d'.
Proof. unfold send_always_succeeds. by intros -> ->. Qed.

Lemma send_always_fails_transfer env d d' :
  client d' = client d → is_connected d' = is_connected d →
  send_always_fails env d → send_always_fails env d'.
Proof. unfold send_always_fails. by intros -> ->. Qed.

Lemma ready_transfer d d' :
  client d' = client d → is_connected d' = is_connected d →
  ready d' = ready d.
Proof. unfold ready. by intros -> ->. Qed.

Lemma extends_trans env s1 s2 s3 new1 new2 :
  extends env s1 s2 new1 → extends env s2 s3 new2 →
  extends env s1 s3 (new1 ++ new2).
Proof.
  intros [Hsc1 Hrn1 Htk1 Hcf1 Hcl1 Hcn1 Hdom1 Hatt1 Hcnt1 Hdc1 Hok1 Hko1
            Hsim1 (evs1 & Hev1 & Hevr1 & Hevu1) Herr1 Hun1]
         [Hsc2 Hrn2 Htk2 Hcf2 Hcl2 Hcn2 Hdom2 Hatt2 Hcnt2 Hdc2 Hok2 Hko2
            Hsim2 (evs2 & Hev2 & Hevr2 & Hevu2) Herr2 Hun2].
  pose proof (ready_transfer _ _ Hcl1 Hcn1) as Hready.
  split; try congruence.
  - rewrite app_assoc. congruence.
  - rewrite successes_app. lia.
  - rewrite successes_app. lia.
  - intros Hs. apply Forall_app. split; [auto|].
    eauto using send_always_succeeds_transfer.
  - intros Hs. apply Forall_app. split; [auto|].
    eauto using send_always_fails_transfer.
  - exists (evs1 ++ evs2). split; [|split].
    + rewrite Hev2, Hev1. by rewrite app_assoc.
    + intros Hr.
      destruct (Hevr1 Hr) as [Hl1 Hf1].
      destruct Hevr2 as [Hl2 Hf2]; [by rewrite Hready|].
      rewrite !length_app, message_failed_events_app, failures_app. lia.
    + intros Haz Hr. rewrite (Hevu1 Haz Hr).
      by rewrite Hevu2 by (by rewrite ?Hready).
  - intros Hr. rewrite failures_app.
    rewrite Herr2 by (by rewrite Hready). rewrite Herr1 by done. lia.
  - intros Haz Hr. destruct (Hun1 Haz Hr) as [Hd1 Hall1].
    destruct (Hun2 Haz) as [Hd2 Hall2]; [by rewrite Hready|].
    split; [congruence|]. by apply Forall_app.
Qed.

Lemma extends_registered env s s' new :
  extends env s s' new → registered s → registered s'.
Proof. intros [] Hr. unfold registered in *. congruence. Qed.

Lemma sleep_extends env s delay : extends env s (sleep s delay) [].
Proof.
  split; simpl; try done.
  - by rewrite app_nil_r.
  - change (successes []) with 0. lia.
  - change (successes []) with 0. lia.
  - exists []. by rewrite app_nil_r.
  - intros _. change (failures []) with 0. lia.
Qed.

Lemma generate_and_send_unregistered env s :
  ¬ registered s → generate_and_send env s = s.
Proof.
  unfold registered, generate_and_send, generator_generate_message.
  intros Hr. apply not_elem_of_dom in Hr. rewrite Hr. by destruct s.
Qed.

Lemma generate_and_send_extends env s :
  ∃ new, extends env s (generate_and_send env s) new
         ∧ (registered s → length new = 1)
         ∧ (¬ registered s → new = []).
Proof.
  destruct (decide (registered s)) as [Hr|Hr].
  2: { exists []. rewrite generate_and_send_unregistered by done.
       split; [apply extends_refl|]. split; [done|done]. }
  pose proof Hr as Hr'. unfold registered in Hr'.
  apply elem_of_dom in Hr' as [template Ht].
  unfold generate_and_send, generator_generate_message. rewrite Ht.
  pose proof (generate_message_not_empty (world env) (template, answers s))
    as Hne.
  destruct (generate_message (world env) (template, answers s))
    as [m [template' k]]. simpl in Hne.
  rewrite bool_decide_eq_false_2 by done. simpl.
  pose proof (send_message_frame env (device s) m k) as Hsend.
  pose proof (send_message_account env (device s) m k) as Hacc.
  destruct (send_message env (device s) m k) as [[[ok d'] evs] k'].
  simpl in Hsend, Hacc.
  destruct Hsend as (Hcfg & Hcl & Hconn & Hcnt & Hok & Hko).
  destruct Hacc as (Hsim & Hrdy & Hunr).
  assert (Hs : successes [(m, ok)] = if ok then 1 else 0).
  { unfold successes.
    destruct ok;
      [rewrite filter_cons_True by done|rewrite filter_cons_False by done];
      done. }
  assert (Hf : failures [(m, ok)] = if ok then 0 else 1).
  { unfold failures.
    destruct ok;
      [rewrite filter_cons_False by done|rewrite filter_cons_True by done];
      done. }
  exists [(m, ok)]. split; [|split; [done|done]].
  split; simpl; try done.
  - apply dom_insert_lookup_L. by rewrite Ht.
  - rewrite Hs. destruct ok; lia.
  - rewrite Hcnt, Hs. destruct ok; simpl; lia.
  - intros Hsucc. constructor; [simpl; auto|constructor].
  - intros Hfail. constructor; [simpl; auto|constructor].
  - exists evs. split; [done|]. split.
    + intros Hready. destruct (Hrdy Hready) as (_ & Hl & Hmf).
      rewrite Hf. done.
    + intros Haz Hnr. by destruct (Hunr Haz Hnr) as (_ & _ & ->).
  - intros Hready. destruct (Hrdy Hready) as (-> & _).
    rewrite Hf. destruct ok; simpl; lia.
  - intros Haz Hnr. destruct (Hunr Haz Hnr) as (-> & -> & _).
    split; [done|]. constructor; [done|constructor].
Qed.

Lemma burst_rounds_extends env n i s :
  let r := burst_rounds env n i s in
  ∃ new, extends env s (fst r) new
         ∧ (registered s → length new ≤ n)
         ∧ (registered s → snd r = false → length new = n)
         ∧ (¬ registered s → new = [])
         ∧ (sleep_raises (PInt (burst_interval (sconfig s))) = false →
            snd r = false).
Proof.
  revert i s. induction n as [|n IH]; intros i s; cbn [burst_rounds].
  { exists []. split; [apply extends_refl|]. cbv zeta. simpl. done. }
  cbv zeta.
  destruct (generate_and_send_extends env s) as (new1 & H1 & Hn1 & Hu1).
  set (s1 := generate_and_send env s) in *.
  pose proof (ext_sconfig _ _ _ _ H1) as Hsc1.
  assert (Hrest : ∀ s2, extends env s1 s2 [] →
            ∃ new, extends env s (fst (burst_rounds env n (i + 1) s2)) new
                   ∧ (registered s → length new ≤ S n)
                   ∧ (registered s →
                      snd (burst_rounds env n (i + 1) s2) = false →
                      length new = S n)
                   ∧ (¬ registered s → new = [])
                   ∧ (sleep_raises (PInt (burst_interval (sconfig s))) = false →
                      snd (burst_rounds env n (i + 1) s2) = false)).
  { intros s2 H12.
    pose proof (extends_trans _ _ _ _ _ _ H1 H12) as H02.
    rewrite app_nil_r in H02.
    pose proof (ext_sconfig _ _ _ _ H02) as Hsc2.
    destruct (IH (i + 1)%Z s2) as (new2 & H2 & Hle2 & Hn2 & Hu2 & Hs2).
    exists (new1 ++ new2).
    split; [eauto using extends_trans|]. split; [|split; [|split]].
    - intros Hr. rewrite length_app, Hn1 by done.
      pose proof (Hle2 (extends_registered _ _ _ _ H02 Hr)). lia.
    - intros Hr Hno. rewrite length_app, Hn1 by done.
      rewrite Hn2; [done|eauto using extends_registered|done].
    - intros Hr. rewrite Hu1 by done. rewrite Hu2; [done|].
      intros Hr2. apply Hr. destruct H02. unfold registered in *. congruence.
    - intros Hno. apply Hs2. by rewrite Hsc2. }
  destruct (i <? burst_count (sconfig s) - 1)%Z.
  - destruct (sleep_raises (PInt (burst_interval (sconfig s)))) eqn:Hraise.
    + exists new1. simpl. split; [done|]. split; [|split; [|split]].
      * intros Hr. rewrite Hn1 by done. lia.
      * done.
      * done.
      * done.
    + apply Hrest, sleep_extends.
  - apply Hrest, extends_refl.
Qed.

Lemma sleepable_burst_sleep (c : SimulationConfig) :
  sleepable c → sleep_raises (PInt (burst_interval c)) = false.
Proof.
  intros [_ Hb]. unfold sleep_raises.
  rewrite bool_decide_eq_true_2 by done. apply andb_false_r.
Qed.

Lemma sleepable_next_delay env s :
  sleepable (sconfig s) →
  ∃ delay k, next_delay env s = Ok (delay, k) ∧ sleep_raises delay = false.
Proof.
  intros [[b Hb] _]. unfold next_delay. rewrite Hb.
  destruct (PrimFloat.ltb 0 (jitter (sconfig s))); [by eexists _, _|].
  eexists _, _. split; [done|].
  destruct (1 <=? interval (sconfig s))%Z; [|done].
  unfold sleep_raises. rewrite bool_decide_eq_true_2 by by rewrite Hb.
  apply andb_false_r.
Qed.

(** The messages of a turn. *)
Lemma send_messages_extends env s :
  let r := send_messages env s in
  ∃ new, extends env s (fst r) new
         ∧ (registered s → length new ≤ sends_per_turn (sconfig s))
         ∧ (registered s → snd r = false →
            length new = sends_per_turn (sconfig s))
         ∧ (¬ registered s → new = [])
         ∧ (sleepable (sconfig s) → snd r = false).
Proof.
  unfold send_messages, sends_per_turn.
  destruct (burst_mode (sconfig s)).
  - destruct (burst_rounds_extends env
                (Z.to_nat (burst_count (sconfig s))) 0 s)
      as (new & He & Hle & Hn & Hu & Hs).
    exists new. split_and!; try done.
    intros Hsl. by apply Hs, sleepable_burst_sleep.
  - destruct (generate_and_send_extends env s) as (new & He & Hn & Hu).
    exists new. simpl. split; [done|]. split; [|split; [|split]].
    + intros Hr. by rewrite Hn.
    + intros Hr _. by apply Hn.
    + done.
    + done.
Qed.

(** A turn of a running loop below its limit: the sends of the turn, and
    then either the sleep, after which the loop goes on, or an
    [OverflowError], after which it has ended; the second only with a delay
    beyond the floats. *)
Lemma loop_turn_cases env s :
  _simulation_task s = Some Looping →
  is_running s = true →
  limit_reached s = false →
  ∃ new s1,
    s1 = fst (send_messages env s)
    ∧ extends env s s1 new
    ∧ (registered s → length new ≤ sends_per_turn (sconfig s))
    ∧ (¬ registered s → new = [])
    ∧ ((loop_turn env s = finish s1 ∧ ¬ sleepable (sconfig s))
       ∨ (extends env s (loop_turn env s) new
          ∧ (registered s → length new = sends_per_turn (sconfig s))
          ∧ ∃ delay, sleeps (loop_turn env s) = sleeps s1 ++ [delay]
                     ∧ next_delay env s1
                       = Ok (delay, answers (loop_turn env s)))).
Proof.
  intros Ht Hr Hl. unfold loop_turn. rewrite Ht, Hr, Hl. simpl.
  destruct (send_messages_extends env s) as (new & He & Hle & Hn & Hu & Hs).
  destruct (send_messages env s) as [s1 raised]. simpl in *.
  exists new, s1. split; [done|]. split; [done|]. split; [done|].
  split; [done|].
  pose proof (ext_sconfig _ _ _ _ He) as Hsc.
  destruct raised.
  { left. split; [done|]. intros Hsl. by specialize (Hs Hsl). }
  destruct (next_delay env s1) as [[delay k]|] eqn:Hd.
  2: { left. split; [done|]. intros Hsl. rewrite <- Hsc in Hsl.
       destruct (sleepable_next_delay env s1 Hsl) as (? & ? & ? & _).
       congruence. }
  destruct (sleep_raises delay) eqn:Hraise.
  { left. split; [done|]. intros Hsl. rewrite <- Hsc in Hsl.
    destruct (sleepable_next_delay env s1 Hsl) as (? & ? & ? & ?).
    congruence. }
  right. split; [|split; [auto|]].
  - destruct He as [? ? ? ? ? ? ? ? ? ? ? ? ? ? ? ?].
    split; simpl; done.
  - exists delay. done.
Qed.

(** A turn of a loop that goes on: sends, then a sleep. *)
Lemma loop_turn_continue env s :
  _simulation_task s = Some Looping →
  is_running s = true →
  limit_reached s = false →
  sleepable (sconfig s) →
  ∃ new, extends env s (loop_turn env s) new
         ∧ (registered s → length new = sends_per_turn (sconfig s))
         ∧ (¬ registered s → new = []).
Proof.
  intros Ht Hr Hl Hsl.
  destruct (loop_turn_cases env s Ht Hr Hl)
    as (new & s1 & _ & _ & _ & Hu & [[_ Hno]|(He & Hn & _)]); [done|].
  by exists new.
Qed.

Lemma loop_turn_finish env s :
  _simulation_task s = Some Looping →
  is_running s = false ∨ limit_reached s = true →
  loop_turn env s = finish s.
Proof.
  intros Ht Hstop. unfold loop_turn. rewrite Ht.
  destruct Hstop as [-> | ->]; [done|]. by destruct (is_running s).
Qed.

Lemma loop_turn_finished env s :
  _simulation_task s = Some Finished → loop_turn env s = s.
Proof. intros Ht. unfold loop_turn. by rewrite Ht. Qed.

Lemma simulation_loop_S env n s :
  _simulation_loop env (S n) s = loop_turn env (_simulation_loop env n s).
Proof. done. Qed.

Lemma simulation_loop_finished env n s :
  _simulation_task s = Some Finished → _simulation_loop env n s = s.
Proof.
  intros Ht. induction n as [|n IH]; [done|].
  rewrite simulation_loop_S, IH. by apply loop_turn_finished.
Qed.

Lemma simulation_loop_add env n1 n2 s :
  _simulation_loop env (n1 + n2) s
  = _simulation_loop env n1 (_simulation_loop env n2 s).
Proof.
  induction n1 as [|n1 IH]; [done|].
  change (S n1 + n2) with (S (n1 + n2)).
  by rewrite !simulation_loop_S, IH.
Qed.

Lemma builtin_templates_dom faker :
  dom (_create_builtin_templates faker)
  = ({["motion_sensor"; "temperature_sensor"]} : gset string).
Proof.
  unfold _create_builtin_templates.
  rewrite !dom_insert_L, dom_empty_L. set_solver.
Qed.

Lemma limit_reached_below s (m : Z) :
  max_messages (sconfig s) = Some m → (message_count s < m)%Z →
  limit_reached s = false.
Proof.
  intros Hm Hlt. unfold limit_reached. rewrite Hm.
  apply andb_false_iff. right. lia.
Qed.

Lemma finish_facts s :
  _simulation_task (finish s) = Some Finished
  ∧ is_running (finish s) = false
  ∧ message_count (finish s) = message_count s
  ∧ attempts (finish s) = attempts s
  ∧ Device.message_count (device (finish s))
    = Device.message_count (device s).
Proof. done. Qed.

Lemma five_messages_sleepable : sleepable five_messages.
Proof. split; vm_compute; eexists; reflexivity. Qed.

(** An interval beyond the floats: the first message is sent, the sleep
    raises, and the loop has ended after one send, whatever the limit. *)
Lemma oversized_interval_ends_the_loop :
  let cfg := mkSimulationConfig (2 ^ 1024) 0 false 5 1 (Some 5%Z) in
  let s := loop_turn offline_env
             (start offline_env
                (new_simulation offline_env motion_device cfg)) in
  ¬ sleepable cfg
  ∧ _simulation_task s = Some Finished
  ∧ is_running s = false
  ∧ message_count s = 1%Z
  ∧ sleeps s = [].
Proof.
  split; [|repeat split].
  intros [[b Hb] _]. vm_compute in Hb. discriminate.
Qed.

(** *** The message limit *)




(** *** Failed sends *)

Lemma limit_reached_same s s' :
  sconfig s' = sconfig s → message_count s' = message_count s →
  limit_reached s' = limit_reached s.
Proof. unfold limit_reached. by intros -> ->. Qed.




(** C9.  In every turn of the loop, single or burst, [message_count] grows
    by the number of sends of the turn that succeeded, so a failed send
    leaves it unchanged.  With a send capability that always fails the count
    of a new simulation is 0 after any number of turns, every send made has
    failed, and a cap of one message or more is never reached; with delays
    the event loop takes, the loop is still going. *)
Theorem C9_message_count_counts_successful_sends env :
  (∀ s, ∃ new,
     attempts (loop_turn env s) = attempts s ++ new
     ∧ message_count (loop_turn env s)
       = (message_count s + Z.of_nat (successes new))%Z)
  ∧ (∀ d cfg n,
       send_always_fails env d →
       let s := _simulation_loop env n (start env (new_simulation env d cfg)) in
       message_count s = 0%Z
       ∧ Forall (λ a, snd a = false) (attempts s)
       ∧ (∀ cap, max_messages cfg = Some cap → (1 ≤ cap)%Z →
            (message_count s < cap)%Z
            ∧ limit_reached s = false
            ∧ (sleepable cfg →
               _simulation_task s = Some Looping
               ∧ is_running s = true))).
Proof.
  assert (Hturn : ∀ s, ∃ new,
            attempts (loop_turn env s) = attempts s ++ new
            ∧ message_count (loop_turn env s)
              = (message_count s + Z.of_nat (successes new))%Z
            ∧ sconfig (loop_turn env s) = sconfig s
            ∧ (send_always_fails env (device s) →
               send_always_fails env (device (loop_turn env s))
               ∧ Forall (λ a, snd a = false) new)
            ∧ (_simulation_task s = Some Looping → is_running s = true →
               limit_reached s = false → sleepable (sconfig s) →
               _simulation_task (loop_turn env s) = Some Looping
               ∧ is_running (loop_turn env s) = true)).
  { intros s.
    destruct (_simulation_task s) as [[|]|] eqn:Ht.
    - destruct (is_running s) eqn:Hr; [destruct (limit_reached s) eqn:Hl|].
      + exists []. rewrite loop_turn_finish by auto.
        change (successes []) with 0. rewrite app_nil_r.
        split_and!; simpl; try done; try lia;
          try (intros Hf; split; [done|constructor]).
      + destruct (loop_turn_cases env s Ht Hr Hl)
          as (new & s1 & _ & He1 & _ & _ & [[Hfin Hns]|(He & _ & _)]).
        * exists new. rewrite Hfin.
          destruct He1 as [Hsc Hrn Htk _ Hcl Hconn _ Hatt Hcnt _ _ Hfail
                             _ _ _ _].
          split_and!; simpl; try done.
          intros Hf. split; [|auto].
          apply (send_always_fails_transfer env (device s)); simpl;
            congruence || done.
        * exists new.
          destruct He as [Hsc Hrn Htk _ Hcl Hconn _ Hatt Hcnt _ _ Hfail
                            _ _ _ _].
          split_and!; try done; try congruence.
          -- intros Hf. split; [|auto].
             eauto using send_always_fails_transfer.
          -- intros _ _ _ _. split; congruence.
      + exists []. rewrite loop_turn_finish by auto.
        change (successes []) with 0. rewrite app_nil_r.
        split_and!; simpl; try done; try lia;
          try (intros Hf; split; [done|constructor]).
    - exists []. rewrite loop_turn_finished by done.
      change (successes []) with 0. rewrite app_nil_r.
      split_and!; simpl; try done; try lia;
          try (intros Hf; split; [done|constructor]).
    - exists []. unfold loop_turn. rewrite Ht.
      change (successes []) with 0. rewrite app_nil_r.
      split_and!; simpl; try done; try lia;
          try (intros Hf; split; [done|constructor]). }
  split.
  { intros s. destruct (Hturn s) as (new & Ha & Hc & _). eauto. }
  intros d cfg n Hfails.
  set (s0 := start env (new_simulation env d cfg)).
  assert (Hinv : ∀ n,
            let s := _simulation_loop env n s0 in
            message_count s = 0%Z
            ∧ Forall (λ a, snd a = false) (attempts s)
            ∧ sconfig s = cfg
            ∧ send_always_fails env (device s)
            ∧ (∀ cap, max_messages cfg = Some cap → (1 ≤ cap)%Z →
                 sleepable cfg →
                 _simulation_task s = Some Looping ∧ is_running s = true)).
  { clear n. induction n as [|n IH].
    - split_and!; try done; constructor.
    - rewrite simulation_loop_S. cbv zeta in IH.
      destruct IH as (Hc & Hall & Hcfg & Hf & Hcap).
      set (s := _simulation_loop env n s0) in *.
      destruct (Hturn s) as (new & Ha' & Hc' & Hcfg' & Hf' & Hgo).
      destruct (Hf' Hf) as [Hf'' Hnew].
      rewrite (successes_all_failed new Hnew) in Hc'.
      split_and!; try congruence; try lia.
      + rewrite Ha'. by apply Forall_app.
      + intros cap Hm Hpos Hsl. destruct (Hcap cap Hm Hpos Hsl) as [Ht Hr].
        apply Hgo; [done|done| |by rewrite Hcfg].
        apply (limit_reached_below s cap); [by rewrite Hcfg|lia]. }
  destruct (Hinv n) as (Hc & Hall & Hcfg & _ & Hcap).
  split; [done|]. split; [done|].
  intros cap Hm Hpos.
  split; [lia|]. split; [|by apply (Hcap cap)].
  apply (limit_reached_below _ cap); [by rewrite Hcfg|lia].
Qed.

(** C9 at work: a device that is not connected, ten turns, a cap of 5. *)
Lemma C9_message_count_witness :
  let s := _simulation_loop azure_env 10
             (start azure_env
                (new_simulation azure_env motion_device five_messages)) in
  message_count s = 0%Z
  ∧ Forall (λ a, snd a = false) (attempts s)
  ∧ _simulation_task s = Some Looping
  ∧ is_running s = true.
Proof.
  intros s.
  assert (Hf : send_always_fails azure_env motion_device).
  { split; [reflexivity|]. left. reflexivity. }
  assert (Hsl : sleepable five_messages).
  { split; vm_compute; eexists; reflexivity. }
  pose proof (proj2 (C9_message_count_counts_successful_sends azure_env)
                motion_device five_messages 10 Hf) as (H1 & H2 & H3).
  destruct (H3 5%Z eq_refl) as (_ & _ & H6); [lia|].
  destruct (H6 Hsl) as [H4 H5].
  split_and!; assumption.
Defined.

End SimulationProperties.

(** * Further properties *)

(** ** The metrics collector *)

Section MetricsInvariants.
Import Metrics.

Implicit Types (c : MetricsCollector) (dm : gmap string DeviceMetrics).
Implicit Types (k : call) (ks : list call) (i j : string).

(** *** Sums over the devices *)

Section sums.
Context (f : DeviceMetrics → Z).

Lemma sum_devices_empty : sum_devices f ∅ = 0%Z.
Proof. unfold sum_devices. by rewrite map_fold_empty. Qed.

Lemma sum_devices_insert_fresh dm i m :
  dm !! i = None →
  sum_devices f (<[i := m]> dm) = (f m + sum_devices f dm)%Z.
Proof.
  intros Hi. unfold sum_devices.
  rewrite map_fold_insert_L; [done| |done]. intros. lia.
Qed.

Lemma sum_devices_insert dm i m old :
  dm !! i = Some old →
  sum_devices f (<[i := m]> dm) = (sum_devices f dm - f old + f m)%Z.
Proof.
  intros Hi.
  rewrite <- (insert_delete_eq dm i m).
  rewrite sum_devices_insert_fresh by apply lookup_delete_eq.
  rewrite <- (insert_delete_id dm i old) at 2 by done.
  rewrite (sum_devices_insert_fresh (delete i dm) i old)
    by apply lookup_delete_eq.
  lia.
Qed.

Lemma sum_devices_getitem dm i :
  f default_device_metrics = 0%Z →
  sum_devices f (snd (getitem dm i)) = sum_devices f dm.
Proof.
  intros Hf. unfold getitem. destruct (dm !! i) eqn:E; simpl; [done|].
  rewrite sum_devices_insert_fresh by done. lia.
Qed.

Lemma sum_devices_setitem dm i (g : DeviceMetrics → DeviceMetrics) :
  f default_device_metrics = 0%Z →
  sum_devices f (setitem dm i g)
  = (sum_devices f dm - f (fst (getitem dm i)) + f (g (fst (getitem dm i))))%Z.
Proof.
  intros Hf. unfold setitem.
  pose proof (getitem_lookup dm i) as Hl.
  pose proof (sum_devices_getitem dm i Hf) as Hs.
  destruct (getitem dm i) as [m dm']. simpl in *.
  rewrite (sum_devices_insert dm' i (g m) m) by done. lia.
Qed.

End sums.

Lemma getitem_setitem dm i (g : DeviceMetrics → DeviceMetrics) :
  fst (getitem (setitem dm i g) i) = g (fst (getitem dm i)).
Proof.
  unfold setitem. destruct (getitem dm i) as [m dm']. simpl.
  unfold getitem. by rewrite lookup_insert_eq.
Qed.

Lemma step_totals_agree c k : totals_agree c → totals_agree (step c k).
Proof.
  intros [Hm He]. unfold totals_agree.
  destruct k as [i d clk|i d now|i sd|i|now]; simpl.
  - unfold record_message_sent, emit_event. simpl.
    match goal with
    | |- context [_update_rates ?c1 ?t ?n] =>
        destruct (update_rates_frame c1 t n) as (-> & -> & -> & _)
    end.
    simpl. rewrite !sum_devices_setitem by done.
    rewrite !getitem_setitem. simpl. lia.
  - rewrite !sum_devices_setitem by done. simpl. lia.
  - unfold update_device_status.
    pose proof (getitem_lookup (device_metrics c) i) as Hl.
    pose proof (sum_devices_getitem message_count (device_metrics c) i
                  eq_refl) as Hsm.
    pose proof (sum_devices_getitem error_count (device_metrics c) i
                  eq_refl) as Hse.
    destruct (getitem (device_metrics c) i) as [m dm']. simpl in *.
    rewrite !(sum_devices_insert _ dm' i _ m) by done. simpl. lia.
  - unfold get_device_metrics.
    pose proof (sum_devices_getitem message_count (device_metrics c) i
                  eq_refl) as Hsm.
    pose proof (sum_devices_getitem error_count (device_metrics c) i
                  eq_refl) as Hse.
    destruct (getitem (device_metrics c) i) as [m dm']. simpl in *. lia.
  - by rewrite !sum_devices_empty.
Qed.

(** X1.  After every sequence of calls on a new collector the system totals
    are the sums of the per-device counters: [total_messages] is the sum of
    the devices' [message_count], [total_errors] the sum of their
    [error_count]. *)
Theorem totals_are_sums_over_devices
    (now : datetime) (time : float) (ks : list call) :
  let c := run (init now time) ks in
  total_messages (system_metrics c)
  = sum_devices message_count (device_metrics c)
  ∧ total_errors (system_metrics c)
    = sum_devices error_count (device_metrics c).
Proof.
  intros c. subst c.
  induction ks as [|k ks IH] using rev_ind.
  - split; simpl; by rewrite sum_devices_empty.
  - rewrite run_snoc. by apply step_totals_agree.
Qed.

(** *** The counters stay within the number of devices *)

Lemma count_status_le_size (field : DeviceMetrics → string) (v : string) dm :
  (0 ≤ count_status field v dm ≤ Z.of_nat (size dm))%Z.
Proof.
  unfold count_status. split; [lia|].
  apply inj_le, map_subseteq_size, map_filter_subseteq.
Qed.

(** X2.  After every sequence of calls on a new collector,
    [connected_devices] and [active_devices] as [get_system_metrics]
    reports them are neither negative nor above [total_devices]. *)
Theorem status_counters_within_total_devices
    (now : datetime) (time : float) (ks : list call) (now' : datetime) :
  let r := get_system_metrics (run (init now time) ks) now' in
  (0 ≤ rep_connected_devices r ≤ Z.of_nat (total_devices r))%Z
  ∧ (0 ≤ rep_active_devices r ≤ Z.of_nat (total_devices r))%Z.
Proof.
  intros r. subst r. simpl.
  destruct (run_agree (init now time) ks (init_agree now time)) as [-> ->].
  split; apply count_status_le_size.
Qed.

(** *** The entries *)

Lemma setitem_setitem dm i (g1 g2 : DeviceMetrics → DeviceMetrics) :
  setitem (setitem dm i g1) i g2 = setitem dm i (λ m, g2 (g1 m)).
Proof.
  unfold setitem at 2 3. destruct (getitem dm i) as [m dm']. simpl.
  unfold setitem, getitem. rewrite lookup_insert_eq.
  by rewrite insert_insert_eq.
Qed.

Lemma getitem_well_formed dm i :
  map_Forall (λ _ m, well_formed_entry m) dm →
  well_formed_entry (fst (getitem dm i))
  ∧ map_Forall (λ _ m, well_formed_entry m) (snd (getitem dm i)).
Proof.
  intros Hdm.
  assert (Hd : well_formed_entry default_device_metrics).
  { unfold well_formed_entry. simpl. split_and!; auto; done. }
  unfold getitem. destruct (dm !! i) as [m|] eqn:E; simpl.
  - split; [|done]. by apply (Hdm i).
  - split; [done|]. by apply map_Forall_insert_2.
Qed.

Lemma setitem_well_formed dm i (g : DeviceMetrics → DeviceMetrics) :
  (∀ m, well_formed_entry m → well_formed_entry (g m)) →
  map_Forall (λ _ m, well_formed_entry m) dm →
  map_Forall (λ _ m, well_formed_entry m) (setitem dm i g).
Proof.
  intros Hg Hdm. unfold setitem.
  destruct (getitem_well_formed dm i Hdm) as [Hm Hdm'].
  destruct (getitem dm i) as [m dm']. simpl in *.
  apply map_Forall_insert_2; auto.
Qed.

Lemma step_well_formed c k :
  map_Forall (λ _ m, well_formed_entry m) (device_metrics c) →
  map_Forall (λ _ m, well_formed_entry m) (device_metrics (step c k)).
Proof.
  intros Hc.
  destruct k as [i d clk|i d now|i sd|i|now]; simpl.
  - unfold record_message_sent, emit_event. simpl.
    match goal with
    | |- context [_update_rates ?c1 ?t ?n] =>
        destruct (update_rates_frame c1 t n) as (-> & _)
    end.
    simpl. rewrite setitem_setitem. apply setitem_well_formed; [|done].
    intros m (H1 & H2 & H3 & H4 & H5). unfold well_formed_entry. simpl.
    split_and!; try done; try lia. split; [done|lia].
  - apply setitem_well_formed; [|done].
    intros m (H1 & H2 & H3 & H4 & H5). unfold well_formed_entry. simpl.
    split_and!; try done; lia.
  - unfold update_device_status.
    destruct (getitem_well_formed (device_metrics c) i Hc) as [Hm Hdm'].
    destruct (getitem (device_metrics c) i) as [m dm']. simpl in *.
    apply map_Forall_insert_2; [|done].
    destruct Hm as (H1 & H2 & H3 & H4 & H5). unfold well_formed_entry.
    simpl. split_and!; try done.
    + destruct (truthy _); auto.
    + destruct (truthy _); auto.
  - unfold get_device_metrics.
    destruct (getitem_well_formed (device_metrics c) i Hc) as [Hm Hdm'].
    by destruct (getitem (device_metrics c) i) as [m dm'].
  - apply map_Forall_empty.
Qed.

(** X3.  After every sequence of calls on a new collector every entry of
    the per-device map is well formed: its [connection_status] is
    ["connected"] or ["disconnected"], its [simulation_status] ["running"]
    or ["stopped"], its two counters are not negative, and its
    [last_message_time] is unset exactly when its [message_count] is 0. *)
Theorem device_entries_are_well_formed
    (now : datetime) (time : float) (ks : list call) (i : string)
    (m : DeviceMetrics) :
  device_metrics (run (init now time) ks) !! i = Some m →
  well_formed_entry m.
Proof.
  revert i m. change (map_Forall (λ _ m, well_formed_entry m)
                        (device_metrics (run (init now time) ks))).
  induction ks as [|k ks IH] using rev_ind.
  - apply map_Forall_empty.
  - rewrite run_snoc. by apply step_well_formed.
Qed.

Lemma device_entries_well_formed_witness :
  well_formed_entry
    (mkDeviceMetrics 1 0 (Some 10%Z) "disconnected" "stopped").
Proof.
  apply (device_entries_are_well_formed 0%Z 0%float
           [RecordMessageSent "dev-1" ∅ (mkSentClock 10%Z 11%Z 1%float 12%Z)]
           "dev-1").
  reflexivity.
Defined.

(** *** One call, one device *)

Lemma getitem_lookup_ne dm i j :
  i ≠ j → snd (getitem dm i) !! j = dm !! j.
Proof.
  intros Hij. unfold getitem. destruct (dm !! i); simpl; [done|].
  by rewrite lookup_insert_ne.
Qed.

Lemma setitem_lookup_ne dm i j (g : DeviceMetrics → DeviceMetrics) :
  i ≠ j → setitem dm i g !! j = dm !! j.
Proof.
  intros Hij. unfold setitem.
  pose proof (getitem_lookup_ne dm i j Hij) as Hl.
  destruct (getitem dm i) as [m dm']. simpl in *.
  by rewrite lookup_insert_ne.
Qed.

(** X4.  A call for device [i] leaves the entry of every other device [j]
    as it was - none is changed, added or removed - whether the call records
    a message, records an error, updates the status or reads the metrics. *)
Theorem calls_leave_other_devices_alone c i j :
  i ≠ j →
  (∀ d clk,
     device_metrics (record_message_sent c i d clk) !! j
     = device_metrics c !! j)
  ∧ (∀ d now,
       device_metrics (record_message_error c i d now) !! j
       = device_metrics c !! j)
  ∧ (∀ sd,
       device_metrics (update_device_status c i sd) !! j
       = device_metrics c !! j)
  ∧ device_metrics (snd (get_device_metrics c i)) !! j
    = device_metrics c !! j.
Proof.
  intros Hij. split_and!.
  - intros d clk. unfold record_message_sent, emit_event. simpl.
    match goal with
    | |- context [_update_rates ?c1 ?t ?n] =>
        destruct (update_rates_frame c1 t n) as (-> & _)
    end.
    simpl. by rewrite !setitem_lookup_ne.
  - intros d now. simpl. by rewrite setitem_lookup_ne.
  - intros sd. unfold update_device_status.
    pose proof (getitem_lookup_ne (device_metrics c) i j Hij) as Hl.
    destruct (getitem (device_metrics c) i) as [m dm']. simpl in *.
    by rewrite lookup_insert_ne.
  - unfold get_device_metrics.
    pose proof (getitem_lookup_ne (device_metrics c) i j Hij) as Hl.
    by destruct (getitem (device_metrics c) i) as [m dm'].
Qed.

Lemma calls_leave_other_devices_witness :
  device_metrics
    (update_device_status (init 0%Z 0%float) "dev-1"
       (<["connected" := PBool true]> ∅)) !! "dev-2"
  = None.
Proof.
  refine (proj1 (proj2 (proj2
            (calls_leave_other_devices_alone (init 0%Z 0%float)
               "dev-1" "dev-2" _))) _).
  discriminate.
Defined.

(** *** History and totals *)

Lemma length_last_n_min {A} (n : nat) (l : list A) :
  length (last_n n l) = n `min` length l.
Proof. unfold last_n. rewrite length_drop. lia. Qed.

Lemma appended_lengths now time ks :
  Z.of_nat (length (appended_messages ks))
  = total_messages (system_metrics (run (init now time) ks))
  ∧ Z.of_nat (length (appended_errors ks))
    = total_errors (system_metrics (run (init now time) ks)).
Proof.
  induction ks as [|k ks [IHm IHe]] using rev_ind; [done|].
  rewrite run_snoc. unfold appended_messages, appended_errors.
  rewrite !foldl_snoc.
  fold (appended_messages ks). fold (appended_errors ks).
  destruct (is_reset k) eqn:Hk.
  - destruct k; try done.
  - destruct (step_totals (run (init now time) ks) k Hk) as [-> ->].
    rewrite <- IHm, <- IHe.
    destruct k; try done; simpl; rewrite ?length_app; simpl; split; lia.
Qed.

(** X5.  After every sequence of calls on a new collector the message
    history holds [min(24 * 60, total_messages)] entries and the error
    history [min(24 * 60, total_errors)]: every recorded event is in its
    history until the buffer is full. *)
Theorem history_lengths_follow_totals
    (now : datetime) (time : float) (ks : list call) :
  let c := run (init now time) ks in
  length (message_history c)
  = (24 * 60) `min` Z.to_nat (total_messages (system_metrics c))
  ∧ length (error_history c)
    = (24 * 60) `min` Z.to_nat (total_errors (system_metrics c)).
Proof.
  intros c. subst c.
  destruct (run_histories now time ks) as [-> ->].
  destruct (appended_lengths now time ks) as [<- <-].
  rewrite !length_last_n_min, !Nat2Z.id. done.
Qed.

(** *** Events *)

Lemma step_emitted c k :
  emitted (step c k) = emitted c ++ emitted_by [k].
Proof.
  destruct k as [i d clk|i d now|i sd|i|now]; simpl;
    rewrite ?app_nil_r; try done.
  - unfold record_message_sent, emit_event. simpl. f_equal.
    unfold _update_rates. by destruct (PrimFloat.leb _ _).
  - unfold update_device_status. by destruct (getitem _ _).
  - unfold get_device_metrics. by destruct (getitem _ _).
Qed.

(** X6.  The collector hands the bus exactly one [METRICS_UPDATED] event
    per recorded message or error, in the order of the calls, carrying the
    call's device id, its kind and its time stamp; status updates, reads
    and resets emit nothing. *)
Theorem collector_emits_one_event_per_record c ks :
  emitted (run c ks) = emitted c ++ emitted_by ks.
Proof.
  induction ks as [|k ks IH] using rev_ind.
  - by rewrite app_nil_r.
  - rewrite run_snoc, step_emitted, IH. unfold emitted_by.
    by rewrite omap_app, app_assoc.
Qed.

End MetricsInvariants.

(** ** Message templates *)

Section GeneratorInvariants.
Import Generator Examples.

Implicit Types (w : World) (field : FieldConfig) (t : MessageTemplate).
Implicit Types (k : nat) (st : GenState) (m : gmap string pyval).

Local Arguments _generate_field_value : simpl never.
Local Arguments _generate_numeric_value : simpl never.
Local Arguments _generate_string_value : simpl never.
Local Arguments _generate_location : simpl never.
Local Arguments generate_message : simpl never.

(** *** The keys of a message *)

Lemma generate_fields_dom w fs m st :
  dom (fst (generate_fields w fs m st))
  = dom m ∪ list_to_set (name <$> fs).
Proof.
  revert m st. induction fs as [|f fs IH]; intros m st; simpl.
  { set_solver. }
  destruct (_generate_field_value w f st) as [v st'].
  rewrite IH, dom_insert_L. set_solver.
Qed.

(** X7.  The message [generate_message] returns has exactly the names of
    the template's fields and ["timestamp"] as keys: no field is dropped,
    whatever its type or whatever went wrong generating it, and the time
    stamp is always there. *)
Theorem message_keys_are_field_names_and_timestamp w st :
  dom (fst (generate_message w st))
  = list_to_set (name <$> fields (fst st)) ∪ {["timestamp"]}.
Proof.
  unfold generate_message.
  pose proof (generate_fields_dom w (fields (fst st)) ∅ st) as Hdom.
  destruct (generate_fields w (fields (fst st)) ∅ st) as [m [t k]].
  simpl in Hdom. rewrite dom_empty_L, (left_id_L ∅ (∪)) in Hdom.
  destruct (m !! "timestamp") as [v|] eqn:Hts; simpl.
  - assert ("timestamp" ∈ dom m) by (apply elem_of_dom; eauto).
    rewrite <- Hdom. set_solver.
  - rewrite dom_insert_L, Hdom. set_solver.
Qed.

(** *** The type of a generated value *)

Lemma py_int_shape (v : pyval) :
  py_int v = Raise ∨ ∃ z, py_int v = Ok (PInt z).
Proof.
  destruct v as [|b|z|f|s|la lo]; simpl; eauto.
  - destruct (int_of_float f); simpl; eauto.
  - destruct (int_of_str s); simpl; eauto.
Qed.

Lemma py_round2_shape (v : pyval) :
  py_round2 v = Raise
  ∨ (∃ z, py_round2 v = Ok (PInt z))
  ∨ ∃ f, py_round2 v = Ok (PFloat f).
Proof. destruct v as [|b|z|f|s|la lo]; simpl; eauto. Qed.

Lemma numeric_value_shape w field st :
  fst (_generate_numeric_value w field st) = Raise
  ∨ ∃ v, fst (_generate_numeric_value w field st) = convert field v.
Proof.
  unfold _generate_numeric_value. destruct st as [t k].
  destruct (pattern field); simpl; eauto.
  - destruct (float_of_int _); simpl; eauto.
    destruct (math_sin _ _); simpl; eauto.
  - destruct (linear_value _ _); simpl; eauto.
    destruct (exceeds_max _ _); simpl; eauto.
Qed.

Lemma string_value_shape w field st :
  ∃ s, fst (_generate_string_value w field st) = PStr s.
Proof.
  unfold _generate_string_value. destruct st as [t k].
  destruct (pattern field); simpl; eauto.
  destruct (_faker t); simpl; eauto.
  repeat case_bool_decide; simpl; eauto.
Qed.

(** X8.  Whatever the pattern, the environment and the step counter, the
    value generated for a field has the shape of the field's data type: a
    string for [timestamp], [uuid] and [string], the location dict for
    [location], a boolean for [bool]; an int, or [None] after a failure, for
    [int]; a float, an int (an int constant, or the 0 a ramp without
    [min_value] wraps to) or [None] for [float]; and [None] for every other
    data type. *)
Theorem generated_value_has_the_field_type w field st :
  value_of_type (data_type field) (fst (_generate_field_value w field st)).
Proof.
  unfold value_of_type, _generate_field_value. destruct st as [t k].
  destruct (decide (data_type field = "timestamp")) as [E|E1].
  { rewrite E. simpl. eauto. }
  destruct (decide (data_type field = "uuid")) as [E|E2].
  { rewrite E. simpl. eauto. }
  destruct (decide (data_type field = "location")) as [E|E3].
  { rewrite E. simpl. unfold _generate_location.
    destruct (_faker t); simpl; eauto. }
  destruct (decide (data_type field = "bool")) as [E|E4].
  { rewrite E. simpl. destruct (pattern field); simpl; eauto. }
  destruct (decide (data_type field = "string")) as [E|E5].
  { rewrite E. simpl. apply string_value_shape. }
  rewrite !(bool_decide_eq_false_2 (data_type field = _)) by done.
  rewrite (bool_decide_eq_false_2
             (data_type field ∈ ["timestamp"; "uuid"; "string"]))
    by (rewrite !elem_of_cons, elem_of_nil; tauto).
  destruct (decide (data_type field = "int")) as [E|E6].
  { rewrite E. simpl.
    destruct (numeric_value_shape w field (t, k)) as [Hr|[v Hv]].
    - destruct (_generate_numeric_value w field (t, k)) as [[v|] st'];
        simpl in *; [done|by left].
    - rewrite (convert_int field v E) in Hv.
      destruct (py_int_shape v) as [Hp|[z Hp]]; rewrite Hp in Hv;
        destruct (_generate_numeric_value w field (t, k)) as [[v'|] st'];
        simpl in *; try done; [by left|].
      right. exists z. congruence. }
  destruct (decide (data_type field = "float")) as [E|E7].
  { rewrite E. simpl.
    destruct (numeric_value_shape w field (t, k)) as [Hr|[v Hv]].
    - destruct (_generate_numeric_value w field (t, k)) as [[v|] st'];
        simpl in *; [done|by left].
    - rewrite (convert_other field v) in Hv by (by rewrite E).
      destruct (py_round2_shape v) as [Hp|[[z Hp]|[f Hp]]];
        rewrite Hp in Hv;
        destruct (_generate_numeric_value w field (t, k)) as [[v'|] st'];
        simpl in *; try done; [by left| |].
      + right. left. exists z. congruence.
      + right. right. exists f. congruence. }
  rewrite !(bool_decide_eq_false_2 (data_type field = _)) by done.
  rewrite (bool_decide_eq_false_2 (data_type field ∈ ["int"; "float"]))
    by (rewrite !elem_of_cons, elem_of_nil; tauto).
  done.
Qed.

(** *** Clamping *)

Lemma SFltb_irrefl (x : spec_float) : SFltb x x = false.
Proof.
  destruct x as [s|s| |s m e]; unfold SFltb; simpl; try done.
  - by destruct s.
  - destruct s; rewrite Z.compare_refl, Pos.compare_cont_refl; done.
Qed.

Lemma ltb_irrefl (x : float) : PrimFloat.ltb x x = false.
Proof. rewrite ltb_spec. apply SFltb_irrefl. Qed.

(** X9.  For a Gaussian numeric field with both bounds set, [max_value] not
    below [min_value]: the value that goes into the final conversion is the
    draw itself or one of the bounds, and it is neither below [min_value]
    nor above [max_value]; one answer of the random module is used and the
    step counter is left alone. *)
Theorem gaussian_value_is_clamped w field t k (mn mx : float) :
  pattern field = GAUSSIAN →
  min_value field = Some mn →
  max_value field = Some mx →
  PrimFloat.ltb mx mn = false →
  let draw := gauss w k (for_ (mean field) 0) (for_ (std_dev field) 1) in
  ∃ r, _generate_numeric_value w field (t, k)
       = (convert field (PFloat r), (t, S k))
       ∧ (r = draw ∨ r = mn ∨ r = mx)
       ∧ PrimFloat.ltb r mn = false
       ∧ PrimFloat.ltb mx r = false.
Proof.
  intros Hp Hmn Hmx Hle draw.
  exists (py_min (py_max draw mn) mx). split.
  { unfold _generate_numeric_value. by rewrite Hp, Hmn, Hmx. }
  unfold py_min, py_max.
  destruct (PrimFloat.ltb draw mn) eqn:H1.
  - rewrite Hle. split_and!; auto using ltb_irrefl.
  - destruct (PrimFloat.ltb mx draw) eqn:H2.
    + split_and!; auto using ltb_irrefl.
    + split_and!; auto.
Qed.

(** The humidity field of the built-in temperature sensor, a draw three
    deviations above the mean: the value is the upper bound. *)
Lemma gaussian_clamp_witness :
  let w := mkWorld (utcnow_iso example_world) (uuid4 example_world)
             (random_unit example_world) (λ _, 3%float)
             (random_below example_world) (libm_sin example_world)
             (float_repr example_world) in
  fst (_generate_numeric_value w
         (mkFieldConfig "humidity" "float" GAUSSIAN (Some 30%float)
            (Some 80%float) PNone 0.1 1 1 55 10)
         (at_step three_fields 0))
  = Ok (PFloat 80).
Proof.
  intros w.
  destruct (gaussian_value_is_clamped w
              (mkFieldConfig "humidity" "float" GAUSSIAN (Some 30%float)
                 (Some 80%float) PNone 0.1 1 1 55 10)
              (set_step_counter three_fields 0) 0 30 80
              eq_refl eq_refl eq_refl eq_refl) as (r & Hr & _).
  reflexivity.
Defined.

(** *** The step counter over several calls *)

Lemma may_wrap_wraps field (c : Z) : may_wrap field = false → wraps field c = false.
Proof.
  unfold may_wrap, wraps, exceeds_max. intros H.
  destruct (bool_decide (data_type field ∈ ["int"; "float"])); [|done].
  destruct (bool_decide (pattern field = LINEAR)); [|done]. simpl in *.
  destruct (linear_value field c); [|done].
  destruct (max_value field); [|done]. by rewrite H.
Qed.

Lemma generate_fields_template w fs m t k :
  fst (snd (generate_fields w fs m (t, k))) = t
  ∨ fst (snd (generate_fields w fs m (t, k))) = set_step_counter t 0.
Proof.
  revert m k. induction fs as [|f fs IH]; intros m k; simpl; [by left|].
  pose proof (field_value_template w f t k) as Ht.
  destruct (_generate_field_value w f (t, k)) as [v [t' k']].
  simpl in Ht. subst t'.
  destruct (wraps f (_step_counter t)); [|apply IH].
  right.
  by destruct (observed_counters_at_zero w fs (<[name f := v]> m)
                 (set_step_counter t 0) k' eq_refl) as [_ ->].
Qed.

Lemma generate_message_steady w t k :
  Forall (λ f, may_wrap f = false) (fields t) →
  fst (snd (generate_message w (t, k)))
  = set_step_counter t (_step_counter t + 1).
Proof.
  intros Hfs. rewrite generate_message_template. cbv zeta.
  destruct (observed_counters_steady w (fields t) ∅ t k) as [_ ->]; [|done].
  eapply Forall_impl; [exact Hfs|]. intros f Hf. by apply may_wrap_wraps.
Qed.

Lemma generate_message_counter w t k :
  fst (snd (generate_message w (t, k)))
  = set_step_counter t (_step_counter t + 1)
  ∨ fst (snd (generate_message w (t, k))) = set_step_counter t 1.
Proof.
  rewrite generate_message_template. cbv zeta.
  destruct (generate_fields_template w (fields t) ∅ t k) as [-> | ->];
    [by left|by right].
Qed.

(** X10.  A [generate_message] call changes the template in its step
    counter only, and leaves the counter at one more than it was or at 1
    (after a wrap).  On a template none of whose fields is a linear numeric
    field with a non-zero [max_value] - the two built-in templates are such
    - [n] calls in a row advance the counter by exactly [n]. *)
Theorem step_counter_after_calls w t k :
  (fst (snd (generate_message w (t, k)))
   = set_step_counter t (_step_counter t + 1)
   ∨ fst (snd (generate_message w (t, k))) = set_step_counter t 1)
  ∧ (Forall (λ f, may_wrap f = false) (fields t) →
     ∀ n, fst (after_messages w n (t, k))
          = set_step_counter t (_step_counter t + Z.of_nat n)).
Proof.
  split; [apply generate_message_counter|].
  intros Hfs n. revert t k Hfs.
  {
    induction n as [|n IH]; intros t k Hfs; simpl.
    + rewrite Z.add_0_r. by rewrite set_step_counter_same.
    + pose proof (generate_message_steady w t k Hfs) as Ht.
      destruct (generate_message w (t, k)) as [m [t' k']].
      simpl in *. subst t'. rewrite IH by done. simpl.
      unfold set_step_counter. simpl. f_equal. lia. }
Qed.

Lemma step_counter_after_calls_witness :
  _step_counter
    (fst (after_messages example_world 3 (at_step (motion_sensor None) 4)))
  = 7%Z.
Proof.
  pose proof (proj2 (step_counter_after_calls example_world
                       (set_step_counter (motion_sensor None) 4) 0)) as H.
  unfold at_step. rewrite H; [reflexivity|].
  repeat constructor.
Defined.

(** *** The generator's templates *)

(** X11.  [MessageGenerator.generate_message] returns a message exactly for
    the names that are keys of [templates]; it never adds or removes a
    template and never touches a template other than the named one; for an
    unknown name nothing changes at all, and for a known one the template
    changes in its step counter only. *)
Theorem generator_changes_the_named_template_only
    w (templates : gmap string MessageTemplate) (n : string) k :
  let r := generator_generate_message w templates n k in
  (is_Some (fst (fst r)) ↔ is_Some (templates !! n))
  ∧ dom (snd (fst r)) = dom templates
  ∧ (∀ other, other ≠ n → snd (fst r) !! other = templates !! other)
  ∧ (templates !! n = None → snd (fst r) = templates ∧ snd r = k)
  ∧ (∀ t, templates !! n = Some t →
          ∃ c, snd (fst r) !! n = Some (set_step_counter t c)).
Proof.
  unfold generator_generate_message.
  destruct (templates !! n) as [t|] eqn:Ht.
  - pose proof (generate_message_counter w t k) as Hc.
    destruct (generate_message w (t, k)) as [m [t' k']]. simpl in *.
    split_and!.
    + split; eauto.
    + apply dom_insert_lookup_L. eauto.
    + intros other Ho. by rewrite lookup_insert_ne.
    + done.
    + intros t0 [= <-]. rewrite lookup_insert_eq.
      destruct Hc as [-> | ->]; eauto.
  - simpl. split_and!; try done; split; intros [? ?]; done.
Qed.

End GeneratorInvariants.

(** ** Virtual devices *)

Section DeviceInvariants.
Import Generator Device Examples.

Implicit Types (env : Env) (d : VirtualDevice) (m : gmap string pyval).
Implicit Types (k : nat).

Local Arguments send_message : simpl never.

(** X12.  One [send_message] call never changes the device's
    configuration, client or connection state.  When it returns [True] the
    device's [message_count] is one more, [last_message_time] is set and
    exactly one [MESSAGE_SENT] event carrying the message was emitted; when
    it returns [False] the [message_count] is as before, and either the SDK
    call raised - [error_count] is one more and exactly one
    [MESSAGE_FAILED] event was emitted - or the device was not connected -
    nothing was counted, emitted or taken from the environment.  It returns
    [True] exactly when the SDK is absent or the device is connected and the
    SDK call returns. *)
Theorem send_message_counts_and_emits env d m k :
  let r := send_message env d m k in
  let ok := fst (fst (fst r)) in
  let d' := snd (fst (fst r)) in
  let evs := snd (fst r) in
  let ready := bool_decide (is_Some (client d)) && is_connected d in
  config d' = config d
  ∧ client d' = client d
  ∧ is_connected d' = is_connected d
  ∧ is_simulating d' = is_simulating d
  ∧ (ok = true →
     message_count d' = (message_count d + 1)%Z
     ∧ error_count d' = error_count d
     ∧ ∃ id t, last_message_time d' = Some t
               ∧ evs = [MESSAGE_SENT (device_id (config d)) id m t])
  ∧ (ok = false →
     AZURE_AVAILABLE env = true
     ∧ message_count d' = message_count d
     ∧ last_message_time d' = last_message_time d
     ∧ (ready = true →
        error_count d' = (error_count d + 1)%Z
        ∧ ∃ e t, evs = [MESSAGE_FAILED (device_id (config d)) e t])
     ∧ (ready = false → d' = d ∧ evs = [] ∧ snd r = k))
  ∧ (ok = true ↔
     AZURE_AVAILABLE env = false
     ∨ (ready = true ∧ sdk_send env (3 + k) = None)).
Proof.
  unfold send_message.
  destruct (AZURE_AVAILABLE env); simpl.
  - destruct (bool_decide (is_Some (client d))); simpl.
    + destruct (is_connected d) eqn:Hconn; simpl.
      * destruct (sdk_send env _) as [e|] eqn:Hsdk; simpl.
        -- split_and!; try done.
           ++ intros _. split_and!; try done. split; [done|eauto].
           ++ split; [done|]. intros [?|[_ ?]]; done.
        -- split_and!; try done.
           ++ intros _. split_and!; try done. eauto.
           ++ split; [|done]. intros _. by right.
      * split_and!; try done. split; [done|]. intros [?|[? _]]; done.
    + split_and!; try done. split; [done|]. intros [?|[? _]]; done.
  - split_and!; try done.
    + intros _. split_and!; try done. eauto.
    + split; [|done]. intros _. by left.
Qed.

Lemma send_message_counts_witness :
  error_count
    (snd (fst (fst (send_message failing_env connected_device ∅ 0))))
  = 1%Z.
Proof.
  pose proof (send_message_counts_and_emits failing_env connected_device
                ∅ 0) as (_ & _ & _ & _ & _ & Hfail & _).
  destruct (Hfail eq_refl) as (_ & _ & _ & Hready & _).
  destruct (Hready eq_refl) as [-> _]. reflexivity.
Defined.

(** *** Sending several messages *)

Lemma send_message_tally env d m k :
  let r := send_message env d m k in
  let ok := fst (fst (fst r)) in
  let d' := snd (fst (fst r)) in
  let ready := bool_decide (is_Some (client d)) && is_connected d in
  client d' = client d
  ∧ is_connected d' = is_connected d
  ∧ message_count d' = (message_count d + Z.b2z ok)%Z
  ∧ (error_count d ≤ error_count d' ≤ error_count d + Z.b2z (negb ok))%Z
  ∧ (ready = true ∨ AZURE_AVAILABLE env = false →
     error_count d' = (error_count d + Z.b2z (negb ok))%Z
     ∧ length (snd (fst r)) = 1)
  ∧ (AZURE_AVAILABLE env = true → ready = false →
     ok = false ∧ d' = d ∧ snd (fst r) = [] ∧ snd r = k).
Proof.
  unfold send_message.
  destruct (AZURE_AVAILABLE env); simpl;
    [destruct (bool_decide (is_Some (client d))); simpl;
     [destruct (is_connected d) eqn:Hconn; simpl;
      [destruct (sdk_send env _) as [e|] eqn:Hsdk; simpl|]|]|];
    split_and!; try done; try lia;
    try (intros [?|?]; done);
    intros; split; done || lia.
Qed.

(** X13.  Sending a list of messages one after the other: every call
    returns a value; [message_count] grows by the number of calls that
    returned [True]; [error_count] never decreases and grows by at most the
    number that returned [False].  On a connected device (or without the
    SDK) every call is accounted for - the two counters together grow by
    the number of messages and one event is emitted per message.  On a
    device that is not connected, with the SDK present, every call returns
    [False] and the device is exactly as before: nothing is counted and no
    event is emitted. *)
Theorem send_all_accounts_for_every_message
    env d (ms : list (gmap string pyval)) k :
  let r := send_all env d ms k in
  let oks := fst (fst (fst r)) in
  let d' := snd (fst (fst r)) in
  let evs := snd (fst r) in
  let ready := bool_decide (is_Some (client d)) && is_connected d in
  length oks = length ms
  ∧ message_count d' = (message_count d + count_true oks)%Z
  ∧ (error_count d ≤ error_count d'
     ≤ error_count d + (Z.of_nat (length ms) - count_true oks))%Z
  ∧ (ready = true ∨ AZURE_AVAILABLE env = false →
     (message_count d' + error_count d'
      = message_count d + error_count d + Z.of_nat (length ms))%Z
     ∧ length evs = length ms)
  ∧ (AZURE_AVAILABLE env = true → ready = false →
     Forall (λ ok, ok = false) oks ∧ d' = d ∧ evs = [] ∧ snd r = k).
Proof.
  revert d k. induction ms as [|m ms IH]; intros d k; simpl.
  { unfold count_true. simpl.
    split_and!; try done; lia. }
  pose proof (send_message_tally env d m k) as Hs.
  destruct (send_message env d m k) as [[[ok d1] evs1] k1].
  specialize (IH d1 k1).
  destruct (send_all env d1 ms k1) as [[[oks d2] evs2] k2].
  simpl in *.
  destruct Hs as (Hcl & Hconn & Hmc & Hec & Hready & Hoff).
  destruct IH as (Hlen & Hmc' & Hec' & Hready' & Hoff').
  rewrite Hcl, Hconn in Hready', Hoff'.
  assert (Hct : count_true (ok :: oks) = (Z.b2z ok + count_true oks)%Z).
  { unfold count_true.
    destruct ok;
      [rewrite filter_cons_True by done|rewrite filter_cons_False by done];
      simpl; lia. }
  rewrite Hct.
  assert (Z.b2z (negb ok) = 1 - Z.b2z ok)%Z by (by destruct ok).
  split; [|split; [|split; [|split]]].
  - by rewrite Hlen.
  - lia.
  - lia.
  - intros Hr. destruct (Hready Hr) as [He Hl1].
    destruct (Hready' Hr) as [Hsum Hl2].
    rewrite length_app, Hl1, Hl2. split; lia.
  - intros Haz Hr. destruct (Hoff Haz Hr) as (-> & -> & -> & ->).
    destruct (Hoff' Haz Hr) as (Hall & -> & -> & ->).
    split_and!; try done. by constructor.
Qed.

Lemma send_all_witness :
  let r := send_all failing_env connected_device [∅; ∅; ∅] 0 in
  (message_count (snd (fst (fst r))) + error_count (snd (fst (fst r))))%Z
  = 3%Z
  ∧ length (snd (fst r)) = 3.
Proof.
  intros r.
  pose proof (send_all_accounts_for_every_message failing_env
                connected_device [∅; ∅; ∅] 0) as (_ & _ & _ & H & _).
  apply H. left. reflexivity.
Defined.

(** *** Connecting and disconnecting *)

(** X14.  [connect] never changes the device's configuration, counters or
    simulation flag.  Without the SDK it returns [False] and does nothing;
    with the SDK the value it returns is the device's [is_connected]
    afterwards.  On a connected device it returns [True] and does nothing.
    A connect that goes through on a device that was not connected installs
    a client and emits one [DEVICE_CONNECTED] event, and a following send
    whose SDK call returns succeeds.  A connect whose SDK [connect] raises
    leaves the new client installed on a device that is not connected. *)
Theorem connect_reports_the_connection_state env (sdk : SdkConnect) d :
  let r := connect env sdk d in
  let ok := fst (fst r) in
  let d' := snd (fst r) in
  let evs := snd r in
  (config d' = config d
   ∧ is_simulating d' = is_simulating d
   ∧ message_count d' = message_count d
   ∧ error_count d' = error_count d
   ∧ last_message_time d' = last_message_time d)
  ∧ (AZURE_AVAILABLE env = false → ok = false ∧ d' = d ∧ evs = [])
  ∧ (AZURE_AVAILABLE env = true → ok = is_connected d')
  ∧ (AZURE_AVAILABLE env = true → is_connected d = true →
     ok = true ∧ d' = d ∧ evs = [])
  ∧ (is_connected d = false → ok = true →
     client d' = Some sdk_client
     ∧ evs = [DEVICE_CONNECTED (device_id (config d))]
     ∧ ∀ m k, sdk_send env (3 + k) = None →
              fst (fst (fst (send_message env d' m k))) = true)
  ∧ (AZURE_AVAILABLE env = true → is_connected d = false →
     sdk = ConnectRaises →
     ok = false ∧ client d' = Some sdk_client ∧ is_connected d' = false
     ∧ evs = []).
Proof.
  unfold connect.
  destruct (AZURE_AVAILABLE env) eqn:Haz; simpl.
  - destruct (is_connected d) eqn:Hconn; simpl.
    + split_and!; try done.
    + destruct sdk; simpl; split_and!; try done.
      intros _ _. split_and!; try done.
      intros m k Hsdk. unfold send_message. rewrite Haz. simpl.
      by rewrite Hsdk.
  - split_and!; try done.
Qed.

Lemma connect_witness :
  fst (fst (fst (send_message azure_env
                   (snd (fst (connect azure_env Connects motion_device)))
                   ∅ 0)))
  = true.
Proof.
  pose proof (connect_reports_the_connection_state azure_env Connects
                motion_device) as (_ & _ & _ & _ & H & _).
  destruct (H eq_refl eq_refl) as (_ & _ & Hsend).
  apply Hsend. reflexivity.
Defined.

(** X15.  [disconnect] never changes the device's configuration or
    counters.  Unless the client's [disconnect] raises, the device ends
    without client, not connected and not simulating - with one
    [DEVICE_DISCONNECTED] event if it was connected, none otherwise - and
    disconnecting it again changes nothing; every later send, with the SDK
    present, then returns [False] without counting an error or emitting an
    event.  If the client's [disconnect] raises, the device stays exactly as
    it was, connected. *)
Theorem disconnect_drops_the_connection_unless_sdk_raises
    (sdk_returns : bool) d :
  let d' := fst (disconnect sdk_returns d) in
  let evs := snd (disconnect sdk_returns d) in
  let ready := bool_decide (is_Some (client d)) && is_connected d in
  (config d' = config d
   ∧ message_count d' = message_count d
   ∧ error_count d' = error_count d
   ∧ last_message_time d' = last_message_time d)
  ∧ (sdk_returns = true ∨ ready = false →
     client d' = None ∧ is_connected d' = false ∧ is_simulating d' = false
     ∧ evs = (if ready then [DEVICE_DISCONNECTED (device_id (config d))]
              else [])
     ∧ (∀ again, disconnect again d' = (d', []))
     ∧ ∀ env m k, AZURE_AVAILABLE env = true →
                  send_message env d' m k = (false, d', [], k))
  ∧ (sdk_returns = false → ready = true → d' = d ∧ evs = []).
Proof.
  unfold disconnect.
  destruct (bool_decide (is_Some (client d)) && is_connected d) eqn:Hr;
    simpl.
  - destruct sdk_returns; simpl.
    + split_and!; try done. intros _. split_and!; try done.
      intros env m k Haz. unfold send_message. by rewrite Haz.
    + split_and!; try done. intros [?|?]; done.
  - split_and!; try done. intros _. split_and!; try done.
    intros env m k Haz. unfold send_message. by rewrite Haz.
Qed.

Lemma disconnect_witness :
  send_message azure_env (fst (disconnect true connected_device)) ∅ 0
  = (false, fst (disconnect true connected_device), [], 0).
Proof.
  pose proof (disconnect_drops_the_connection_unless_sdk_raises true
                connected_device) as (_ & H & _).
  destruct (H (or_introl eq_refl)) as (_ & _ & _ & _ & _ & Hsend).
  apply Hsend. reflexivity.
Defined.

End DeviceInvariants.

(** ** Device simulations *)

Section SimulationInvariants.
Import Generator Device Simulation Examples.

Implicit Types (env : Env) (d : VirtualDevice) (s : DeviceSimulation).
Implicit Types (k n : nat).

Local Arguments generate_message : simpl never.
Local Arguments send_message : simpl never.
Local Arguments _simulation_loop : simpl never.
Local Arguments loop_turn : simpl never.

(** *** Starting and stopping *)

(** X16.  [start] on a running simulation and [stop] on a stopped one do
    nothing, so starting or stopping twice is the same as once and the
    second call emits no event; a [stop] that takes effect emits exactly one
    [SIMULATION_STOPPED] event, clears the device's simulating flag and ends
    the task.  Neither changes [message_count] or the sends made so far. *)
Theorem start_and_stop_are_idempotent env s :
  (is_running s = true → start env s = s)
  ∧ (is_running s = false → stop s = s)
  ∧ start env (start env s) = start env s
  ∧ stop (stop s) = stop s
  ∧ is_running (start env s) = true
  ∧ is_running (stop s) = false
  ∧ (is_running s = true →
     events (stop s)
     = events s ++ [SIMULATION_STOPPED (device_id (config (device s)))]
     ∧ is_simulating (device (stop s)) = false
     ∧ _simulation_task (stop s) ≠ Some Looping)
  ∧ (is_running s = false →
     events (start env s)
     = events s ++ [SIMULATION_STARTED (device_id (config (device s)))]
     ∧ is_simulating (device (start env s)) = true
     ∧ _simulation_task (start env s) = Some Looping)
  ∧ message_count (start env s) = message_count s
  ∧ message_count (stop s) = message_count s
  ∧ attempts (start env s) = attempts s
  ∧ attempts (stop s) = attempts s.
Proof.
  unfold start, stop.
  destruct (is_running s) eqn:Hr; simpl; rewrite ?Hr; simpl;
    split_and!; try done.
  by destruct (_simulation_task s).
Qed.

Lemma start_and_stop_witness :
  let s := start offline_env
             (new_simulation offline_env motion_device five_messages) in
  events (stop (stop s))
  = [SIMULATION_STARTED "dev-1"; SIMULATION_STOPPED "dev-1"].
Proof.
  intros s.
  pose proof (start_and_stop_are_idempotent offline_env s)
    as (_ & _ & _ & -> & _ & _ & H & _).
  destruct (H eq_refl) as (-> & _). reflexivity.
Defined.

(** X17.  After a [stop] that took effect the loop does nothing more: no
    turn of it changes the simulation, so no message is generated, sent or
    counted until [start] is called again. *)
Theorem stopped_simulation_stays_quiet env s n :
  is_running s = true →
  _simulation_loop env n (stop s) = stop s.
Proof.
  intros Hr. induction n as [|n IH]; [done|].
  rewrite simulation_loop_S, IH.
  unfold stop. rewrite Hr. simpl. unfold loop_turn. simpl.
  by destruct (_simulation_task s).
Qed.

Lemma stopped_simulation_witness :
  let s := start offline_env
             (new_simulation offline_env motion_device five_messages) in
  attempts (_simulation_loop offline_env 4 (stop s)) = [].
Proof.
  intros s.
  rewrite (stopped_simulation_stays_quiet offline_env s 4 eq_refl).
  reflexivity.
Defined.

(** X18.  [start] does not reset [message_count]: a simulation that has
    reached its message limit and is started again makes no send at all -
    the first test of the loop ends it - and stays as it was. *)
Theorem restart_after_limit_sends_nothing env s n :
  limit_reached s = true →
  is_running s = false →
  1 ≤ n →
  let s' := _simulation_loop env n (start env s) in
  is_running s' = false
  ∧ _simulation_task s' = Some Finished
  ∧ message_count s' = message_count s
  ∧ attempts s' = attempts s.
Proof.
  intros Hl Hr Hn.
  assert (H1 : _simulation_loop env 1 (start env s) = finish (start env s)).
  { change (_simulation_loop env 1 (start env s))
      with (loop_turn env (start env s)).
    apply loop_turn_finish.
    - unfold start. by rewrite Hr.
    - right. rewrite <- Hl. apply limit_reached_same; unfold start;
        by rewrite Hr. }
  replace n with ((n - 1) + 1) by lia.
  rewrite simulation_loop_add, H1.
  rewrite simulation_loop_finished by done.
  unfold start. rewrite Hr. done.
Qed.

Lemma restart_after_limit_witness :
  let s := _simulation_loop offline_env 6
             (start offline_env
                (new_simulation offline_env motion_device five_messages)) in
  length (attempts (_simulation_loop offline_env 3 (start offline_env s)))
  = 5.
Proof.
  intros s.
  pose proof (restart_after_limit_sends_nothing offline_env s 3
                eq_refl eq_refl) as H.
  destruct H as (_ & _ & _ & ->); [lia|]. reflexivity.
Defined.

(** *** Bursts *)

Lemma generate_and_send_sleeps env s :
  sleeps (generate_and_send env s) = sleeps s.
Proof.
  unfold generate_and_send.
  destruct (generator_generate_message _ _ _ _) as [[[m|] ts] k]; [|done].
  destruct (negb _); [|done].
  by destruct (send_message _ _ _ _) as [[[ok d'] evs] k'].
Qed.

Lemma burst_rounds_sleeps env n (i : Z) s :
  sleep_raises (PInt (burst_interval (sconfig s))) = false →
  length (sleeps (fst (burst_rounds env n i s)))
  = length (sleeps s)
    + n `min` Z.to_nat (burst_count (sconfig s) - 1 - i).
Proof.
  revert i s. induction n as [|n IH]; intros i s Hno; cbn [burst_rounds].
  { simpl. lia. }
  cbv zeta.
  destruct (generate_and_send_extends env s) as (new & He & _).
  pose proof (generate_and_send_sleeps env s) as Hsl.
  set (s1 := generate_and_send env s) in *.
  pose proof (ext_sconfig _ _ _ _ He) as Hsc.
  destruct (Z.ltb_spec i (burst_count (sconfig s) - 1)) as [Hlt|Hge].
  - rewrite Hno. rewrite IH by (cbn [sleep sconfig]; by rewrite Hsc).
    cbn [sleep sleeps sconfig]. rewrite length_app, Hsl, Hsc.
    cbn [length]. lia.
  - rewrite IH by (by rewrite Hsc). rewrite Hsl, Hsc. lia.
Qed.

(** X19.  A turn of a running loop in burst mode, the template being known,
    every send succeeding and the delays being ones the event loop takes,
    makes [burst_count] sends and counts each of them, with
    [burst_count - 1] pauses between them and the sleep of the turn after
    them.  The message limit is not looked at inside the burst: the count
    can pass it. *)
Theorem burst_turn_counts_every_message env s :
  _simulation_task s = Some Looping →
  is_running s = true →
  limit_reached s = false →
  burst_mode (sconfig s) = true →
  sleepable (sconfig s) →
  registered s →
  send_always_succeeds env (device s) →
  let s' := loop_turn env s in
  let n := Z.to_nat (burst_count (sconfig s)) in
  message_count s' = (message_count s + Z.of_nat n)%Z
  ∧ length (attempts s') = length (attempts s) + n
  ∧ length (sleeps s') = length (sleeps s) + (n - 1) + 1
  ∧ _simulation_task s' = Some Looping
  ∧ is_running s' = true.
Proof.
  intros Ht Hr Hl Hb Hsl Hreg Hok s' n.
  destruct (loop_turn_cases env s Ht Hr Hl)
    as (new & s1 & Hs1 & _ & _ & _ & [[_ Hno]|(He & Hlen & Hsleep)]);
    [done|].
  specialize (Hlen Hreg). unfold sends_per_turn in Hlen.
  rewrite Hb in Hlen. fold n in Hlen. fold s' in He, Hsleep.
  destruct He as [_ Hrn Htk _ _ _ _ Hatt Hcnt _ Hsucc _ _ _ _ _].
  rewrite (successes_all_succeeded new (Hsucc Hok)), Hlen in Hcnt.
  split; [done|]. split; [by rewrite Hatt, length_app, Hlen|].
  split; [|split; congruence].
  destruct Hsleep as (delay & -> & _). rewrite length_app, Hs1.
  unfold send_messages. rewrite Hb. unfold _send_burst_messages.
  rewrite burst_rounds_sleeps by (by apply sleepable_burst_sleep).
  fold n. simpl. lia.
Qed.

(** Bursts of three with a limit of five: the second burst takes the count
    to six. *)
Lemma burst_turn_witness :
  let s := _simulation_loop offline_env 1
             (start offline_env
                (new_simulation offline_env motion_device bursts_of_three)) in
  message_count (loop_turn offline_env s) = 6%Z.
Proof.
  intros s.
  assert (Hreg : registered s).
  { apply elem_of_dom. eexists. reflexivity. }
  assert (Hok : send_always_succeeds offline_env (device s)).
  { left. reflexivity. }
  assert (Hsl : sleepable (sconfig s)).
  { split; vm_compute; eexists; reflexivity. }
  pose proof (burst_turn_counts_every_message offline_env s
                eq_refl eq_refl eq_refl eq_refl Hsl Hreg Hok) as (-> & _).
  reflexivity.
Defined.

(** *** No limit *)

(** X20.  Without a message limit - [max_messages] unset, or 0, which the
    limit test takes for unset - and with delays the event loop takes, the
    loop of a started simulation never ends by itself: after any number of
    turns it is still going, and with a built-in template it has made
    [sends_per_turn] sends in every turn. *)
Theorem loop_without_limit_never_ends env d cfg n :
  max_messages cfg = None ∨ max_messages cfg = Some 0%Z →
  sleepable cfg →
  let s := _simulation_loop env n (start env (new_simulation env d cfg)) in
  _simulation_task s = Some Looping
  ∧ is_running s = true
  ∧ (template_name (config d) ∈ ["temperature_sensor"; "motion_sensor"] →
     length (attempts s) = n * sends_per_turn cfg).
Proof.
  intros Hmax Hsl.
  set (s0 := start env (new_simulation env d cfg)).
  assert (Hinv :
    let s := _simulation_loop env n s0 in
    _simulation_task s = Some Looping
    ∧ is_running s = true
    ∧ sconfig s = cfg
    ∧ (registered s0 → registered s
                       ∧ length (attempts s) = n * sends_per_turn cfg)).
  { induction n as [|n IH].
    - split_and!; try done.
    - rewrite simulation_loop_S. cbv zeta in IH.
      destruct IH as (Ht & Hr & Hcfg & Hreg).
      set (s := _simulation_loop env n s0) in *.
      destruct (loop_turn_continue env s Ht Hr) as (new & He & Hlen & _).
      { unfold limit_reached. rewrite Hcfg.
        by destruct Hmax as [-> | ->]. }
      { by rewrite Hcfg. }
      pose proof He as [Hsc Hrn Htk _ _ _ _ Hatt _ _ _ _ _ _ _ _].
      split_and!; try congruence.
      intros Hreg0. destruct (Hreg Hreg0) as [Hregs Hn].
      split; [eauto using extends_registered|].
      rewrite Hatt, length_app, Hn, (Hlen Hregs), Hcfg. lia. }
  destruct Hinv as (Ht & Hr & _ & Hreg).
  split; [done|]. split; [done|].
  intros Htemplate. apply Hreg.
  unfold registered. simpl. rewrite builtin_templates_dom.
  rewrite !elem_of_cons, elem_of_nil in Htemplate.
  destruct Htemplate as [->|[->|[]]];
    [apply elem_of_union_r|apply elem_of_union_l]; by apply elem_of_singleton.
Qed.

Lemma loop_without_limit_witness :
  let s := _simulation_loop offline_env 4
             (start offline_env
                (new_simulation offline_env motion_device
                   (mkSimulationConfig 1 0 false 5 1 (Some 0%Z)))) in
  _simulation_task s = Some Looping ∧ length (attempts s) = 4.
Proof.
  intros s.
  assert (Hsl : sleepable (mkSimulationConfig 1 0 false 5 1 (Some 0%Z))).
  { split; vm_compute; eexists; reflexivity. }
  pose proof (loop_without_limit_never_ends offline_env motion_device
                (mkSimulationConfig 1 0 false 5 1 (Some 0%Z)) 4
                (or_intror eq_refl) Hsl) as (Ht & _ & Hn).
  split; [exact Ht|]. apply Hn.
  apply list_elem_of_further, list_elem_of_here.
Defined.

(** *** The sleep of a turn *)

Lemma SFltb_asym (x y : spec_float) : SFltb x y = true → SFltb y x = false.
Proof.
  unfold SFltb.
  destruct x as [sx|sx| |sx mx ex], y as [sy|sy| |sy my ey]; simpl;
    try done; try (by destruct sx); try (by destruct sy);
    try (by destruct sx, sy).
  destruct sx, sy; try done;
    rewrite (Z.compare_antisym ex ey);
    destruct (ex ?= ey)%Z; simpl; try done;
    change (PosDef.Pos.compare_cont Eq) with Pos.compare;
    rewrite (Pos.compare_antisym mx my);
    destruct (mx ?= my)%positive; simpl; congruence.
Qed.

Lemma ltb_asym (x y : float) :
  PrimFloat.ltb x y = true → PrimFloat.ltb y x = false.
Proof. rewrite !ltb_spec. apply SFltb_asym. Qed.

Lemma next_delay_floor env s delay k :
  next_delay env s = Ok (delay, k) → at_least_a_tenth delay.
Proof.
  unfold next_delay.
  destruct (PrimFloat.ltb 0 (jitter (sconfig s))); simpl.
  - destruct (float_of_int (interval (sconfig s))) as [base|]; [|done].
    intros [= <- _]. simpl. unfold py_max.
    match goal with
    | |- context [PrimFloat.ltb 0.1 ?x] =>
        destruct (PrimFloat.ltb 0.1 x) eqn:Hx
    end.
    + by apply ltb_asym.
    + apply ltb_irrefl.
  - intros [= <- _].
    destruct (Z.leb_spec 1 (interval (sconfig s))); simpl; [lia|done].
Qed.

(** X21.  Every turn of a running loop below its limit, the delays of the
    configuration being ones the event loop takes, ends with one sleep, and
    its delay is never under a tenth of a second: without jitter it is the
    configured interval when that is a second or more and 0.1 otherwise,
    with jitter it is a float that is not below 0.1. *)
Theorem every_turn_sleeps_at_least_a_tenth env s :
  _simulation_task s = Some Looping →
  is_running s = true →
  limit_reached s = false →
  sleepable (sconfig s) →
  ∃ delay,
    last (sleeps (loop_turn env s)) = Some delay
    ∧ at_least_a_tenth delay
    ∧ (PrimFloat.ltb 0 (jitter (sconfig s)) = false →
       delay = if (1 <=? interval (sconfig s))%Z
               then PInt (interval (sconfig s)) else PFloat 0.1).
Proof.
  intros Ht Hr Hl Hsl.
  destruct (loop_turn_cases env s Ht Hr Hl)
    as (new & s1 & _ & He1 & _ & _ & [[_ Hno]|(_ & _ & Hsleep)]); [done|].
  destruct Hsleep as (delay & Hsleeps & Hdelay).
  pose proof (ext_sconfig _ _ _ _ He1) as Hsc.
  exists delay. rewrite Hsleeps, last_snoc. split; [done|].
  split; [by eapply next_delay_floor|].
  intros Hj. unfold next_delay in Hdelay. rewrite Hsc, Hj in Hdelay.
  by injection Hdelay as <- _.
Qed.

Lemma every_turn_sleeps_witness :
  last (sleeps
          (loop_turn offline_env
             (start offline_env
                (new_simulation offline_env motion_device five_messages))))
  = Some (PInt 1).
Proof.
  destruct (every_turn_sleeps_at_least_a_tenth offline_env
              (start offline_env
                 (new_simulation offline_env motion_device five_messages))
              eq_refl eq_refl eq_refl) as (delay & Hlast & _ & Hplain).
  { split; vm_compute; eexists; reflexivity. }
  rewrite Hlast, (Hplain eq_refl). reflexivity.
Defined.

End SimulationInvariants.

(** ** Sums over a dict *)

Section DictLemmas.
Import Dict.

Context {A : Type}.
Implicit Types (m : gmap string A) (p q : A → bool) (f g : A → Z).

Lemma count_where_le p m : (0 ≤ count_where p m ≤ len m)%Z.
Proof.
  unfold count_where, len. split; [lia|].
  apply inj_le, map_subseteq_size, map_filter_subseteq.
Qed.

Lemma count_where_mono p q m :
  (∀ i a, m !! i = Some a → p a = true → q a = true) →
  (count_where p m ≤ count_where q m)%Z.
Proof.
  intros H. unfold count_where.
  apply inj_le, map_subseteq_size, map_subseteq_spec.
  intros i a. rewrite !map_lookup_filter_Some. simpl.
  intros [Hi Hp]. eauto.
Qed.

Lemma count_where_ext p q m :
  (∀ i a, m !! i = Some a → p a = q a) →
  count_where p m = count_where q m.
Proof.
  intros H. apply Z.le_antisymm; apply count_where_mono; intros i a Hi;
    by rewrite (H i a Hi).
Qed.

Lemma count_where_none p m :
  (∀ i a, m !! i = Some a → p a = false) → count_where p m = 0%Z.
Proof.
  intros H. unfold count_where.
  replace (filter (λ kv, p (snd kv) = true) m) with (∅ : gmap string A);
    [by rewrite map_size_empty|].
  symmetry. apply map_empty. intros i.
  apply map_lookup_filter_None. right. intros a Hi. simpl.
  by rewrite (H i a Hi).
Qed.

Lemma count_where_insert_fresh p m i a :
  m !! i = None →
  count_where p (<[i := a]> m) = (count_where p m + Z.b2z (p a))%Z.
Proof.
  intros Hi. unfold count_where. rewrite map_filter_insert. simpl.
  destruct (decide (p a = true)) as [->|Hp]; simpl.
  - rewrite map_size_insert_None; [lia|].
    apply map_lookup_filter_None. by left.
  - rewrite delete_id by done.
    apply not_true_is_false in Hp. rewrite Hp. simpl. lia.
Qed.

Lemma count_where_delete p m i a :
  m !! i = Some a →
  count_where p (delete i m) = (count_where p m - Z.b2z (p a))%Z.
Proof.
  intros Hi.
  rewrite <- (insert_delete_id m i a) at 2 by done.
  rewrite count_where_insert_fresh by apply lookup_delete_eq. lia.
Qed.

Lemma count_where_insert p m i a old :
  m !! i = Some old →
  count_where p (<[i := a]> m)
  = (count_where p m - Z.b2z (p old) + Z.b2z (p a))%Z.
Proof.
  intros Hi. rewrite <- (insert_delete_eq m i a).
  rewrite count_where_insert_fresh by apply lookup_delete_eq.
  rewrite (count_where_delete p m i old) by done. lia.
Qed.

Lemma sum_over_empty f : sum_over f (∅ : gmap string A) = 0%Z.
Proof. unfold sum_over. by rewrite map_fold_empty. Qed.

Lemma sum_over_insert_fresh f m i a :
  m !! i = None → sum_over f (<[i := a]> m) = (f a + sum_over f m)%Z.
Proof.
  intros Hi. unfold sum_over.
  rewrite map_fold_insert_L; [done| |done]. intros. lia.
Qed.

Lemma sum_over_delete f m i a :
  m !! i = Some a → sum_over f (delete i m) = (sum_over f m - f a)%Z.
Proof.
  intros Hi.
  rewrite <- (insert_delete_id m i a) at 2 by done.
  rewrite sum_over_insert_fresh by apply lookup_delete_eq. lia.
Qed.

Lemma sum_over_insert f m i a old :
  m !! i = Some old →
  sum_over f (<[i := a]> m) = (sum_over f m - f old + f a)%Z.
Proof.
  intros Hi. rewrite <- (insert_delete_eq m i a).
  rewrite sum_over_insert_fresh by apply lookup_delete_eq.
  rewrite (sum_over_delete f m i old) by done. lia.
Qed.

Lemma sum_over_ext f g m :
  (∀ i a, m !! i = Some a → f a = g a) → sum_over f m = sum_over g m.
Proof.
  induction m as [|i a m Hi IH] using map_ind; intros H.
  - by rewrite !sum_over_empty.
  - rewrite !sum_over_insert_fresh by done.
    rewrite (H i a) by apply lookup_insert_eq.
    rewrite IH; [done|]. intros j b Hj. apply (H j).
    rewrite lookup_insert_ne; [done|]. intros ->. congruence.
Qed.

Lemma len_insert_fresh m i a :
  m !! i = None → len (<[i := a]> m) = (len m + 1)%Z.
Proof. intros Hi. unfold len. rewrite map_size_insert_None by done. lia. Qed.

Lemma len_insert m i a old :
  m !! i = Some old → len (<[i := a]> m) = len m.
Proof. intros Hi. unfold len. by rewrite map_size_insert_Some. Qed.

Lemma len_delete m i a :
  m !! i = Some a → len (delete i m) = (len m - 1)%Z.
Proof.
  intros Hi. unfold len. rewrite map_size_delete_Some by done.
  assert (size m ≠ 0); [|lia].
  intros H0. apply map_size_empty_iff in H0. subst. by rewrite lookup_empty in Hi.
Qed.

End DictLemmas.

Section DictMaps.
Import Dict.

Context {A B : Type}.

Lemma count_where_fmap (p : B → bool) (h : A → B) (m : gmap string A) :
  count_where p (h <$> m) = count_where (λ a, p (h a)) m.
Proof.
  unfold count_where. rewrite map_filter_fmap, map_size_fmap.
  do 2 f_equal.
Qed.

Lemma sum_over_fmap (f : B → Z) (h : A → B) (m : gmap string A) :
  sum_over f (h <$> m) = sum_over (λ a, f (h a)) m.
Proof. unfold sum_over. by rewrite map_fold_fmap. Qed.

Lemma len_fmap (h : A → B) (m : gmap string A) : len (h <$> m) = len m.
Proof. unfold len. by rewrite map_size_fmap. Qed.

End DictMaps.

(** ** The device manager *)

Section ManagerInvariants.
Import Device Dict Manager Examples.

Implicit Types (env : Env) (d : VirtualDevice) (m : DeviceManager).
Implicit Types (id : string) (c : DeviceConfig).

Lemma connect_frame env (sdk : SdkConnect) d :
  let d' := snd (fst (connect env sdk d)) in
  config d' = config d
  ∧ is_simulating d' = is_simulating d
  ∧ message_count d' = message_count d
  ∧ error_count d' = error_count d
  ∧ (is_connected d = true → is_connected d' = true)
  ∧ (AZURE_AVAILABLE env = true →
     fst (fst (connect env sdk d)) = is_connected d')
  ∧ (AZURE_AVAILABLE env = false →
     fst (fst (connect env sdk d)) = false ∧ d' = d
     ∧ snd (connect env sdk d) = []).
Proof.
  unfold connect.
  destruct (AZURE_AVAILABLE env), (is_connected d) eqn:Hc, sdk; simpl;
    by rewrite ?Hc.
Qed.

Lemma disconnect_frame (sdk_returns : bool) d :
  let d' := fst (disconnect sdk_returns d) in
  config d' = config d
  ∧ message_count d' = message_count d
  ∧ error_count d' = error_count d
  ∧ (sdk_returns = true →
     is_connected d' = false ∧ is_simulating d' = false ∧ client d' = None)
  ∧ (is_connected d = false → is_connected d' = false).
Proof.
  unfold disconnect.
  destruct (bool_decide (is_Some (client d)) && is_connected d) eqn:Hr,
    sdk_returns; simpl; split_and!; try done.
Qed.

(** X22.  [add_device] registers a new device under the id of its
    configuration - idle, not connected, with zeroed counters - and emits
    one [DEVICE_ADDED] event.  Under an id that was free the summary gains
    one device and nothing else; under an id in use the device that was
    there is replaced, and what it had counted leaves the summary. *)
Theorem add_device_registers_a_fresh_device env m c :
  let d := fst (add_device m c) in
  let m' := snd (add_device m c) in
  let before := get_status_summary env m in
  let after := get_status_summary env m' in
  get_device m' (device_id c) = Some d
  ∧ d = new_device c
  ∧ (∀ id, id ≠ device_id c → get_device m' id = get_device m id)
  ∧ emitted m' = emitted m ++ [DEVICE_ADDED (device_id c)]
  ∧ (get_device m (device_id c) = None →
     total_devices after = (total_devices before + 1)%Z
     ∧ connected_devices after = connected_devices before
     ∧ simulating_devices after = simulating_devices before
     ∧ total_messages after = total_messages before
     ∧ total_errors after = total_errors before)
  ∧ ∀ old, get_device m (device_id c) = Some old →
      total_devices after = total_devices before
      ∧ connected_devices after
        = (connected_devices before - Z.b2z (is_connected old))%Z
      ∧ simulating_devices after
        = (simulating_devices before - Z.b2z (is_simulating old))%Z
      ∧ total_messages after
        = (total_messages before - message_count old)%Z
      ∧ total_errors after = (total_errors before - error_count old)%Z.
Proof.
  unfold get_device, add_device, get_status_summary. simpl.
  split; [apply lookup_insert_eq|]. split; [done|].
  split; [by intros id Hid; apply lookup_insert_ne|]. split; [done|].
  split.
  - intros Hfree.
    rewrite len_insert_fresh, !count_where_insert_fresh,
      !sum_over_insert_fresh by done.
    simpl. split_and!; lia.
  - intros old Hold.
    rewrite (len_insert _ _ _ old), !(count_where_insert _ _ _ _ old),
      !(sum_over_insert _ _ _ _ old) by done.
    simpl. split_and!; lia.
Qed.

(** X23.  [remove_device] with an id that is not registered returns
    [False] and changes nothing.  With a registered device that is not
    connected it returns [True], drops that device and no other, and emits
    one [DEVICE_REMOVED] event; with a connected one it does the same when
    an event loop is running - the device's [disconnect] being only
    scheduled - and raises, leaving the manager as it was, when none is.
    So a device that has just been added under a free id can always be
    removed again, which restores the devices. *)
Theorem remove_device_drops_the_named_device
    (loop_running : bool) env m id :
  (get_device m id = None →
   remove_device loop_running m id = Ok (false, m, None))
  ∧ (∀ d, get_device m id = Some d →
       is_connected d = true → loop_running = false →
       remove_device loop_running m id = Raise)
  ∧ (∀ d, get_device m id = Some d →
       is_connected d = false ∨ loop_running = true →
       ∃ m',
         remove_device loop_running m id
         = Ok (true, m', if is_connected d then Some d else None)
         ∧ get_device m' id = None
         ∧ (∀ j, j ≠ id → get_device m' j = get_device m j)
         ∧ emitted m' = emitted m ++ [DEVICE_REMOVED id]
         ∧ total_devices (get_status_summary env m')
           = (total_devices (get_status_summary env m) - 1)%Z
         ∧ total_messages (get_status_summary env m')
           = (total_messages (get_status_summary env m) - message_count d)%Z)
  ∧ ∀ c, get_device m (device_id c) = None →
      ∃ m',
        remove_device loop_running (snd (add_device m c)) (device_id c)
        = Ok (true, m', None)
        ∧ devices m' = devices m.
Proof.
  unfold get_device, remove_device. split_and!.
  - by intros ->.
  - by intros d -> -> ->.
  - intros d Hd Hcase. rewrite Hd. eexists. split.
    + destruct (is_connected d) eqn:Hc; [|done].
      by destruct Hcase as [?| ->].
    + simpl. split; [apply lookup_delete_eq|].
      split; [by intros j Hj; apply lookup_delete_ne|]. split; [done|].
      by rewrite (len_delete _ _ d), (sum_over_delete _ _ _ d).
  - intros c Hfree. simpl. rewrite lookup_insert_eq. simpl.
    eexists. split; [done|]. simpl.
    rewrite delete_insert_eq. by apply delete_id.
Qed.

Lemma remove_device_witness :
  ∃ m',
    remove_device false (snd (add_device new_manager (config motion_device)))
      "dev-1"
    = Ok (true, m', None)
    ∧ devices m' = devices new_manager.
Proof.
  pose proof (remove_device_drops_the_named_device false offline_env
                new_manager "dev-1") as (_ & _ & _ & H).
  apply (H (config motion_device)). reflexivity.
Defined.

(** X24.  [connect_all] answers for every registered device and for no
    other, and never drops a connection, a device or a counter.  Without
    the SDK every answer is [False] and the devices stay as they were; with
    the SDK the answer for a device is its [is_connected] afterwards, so
    [connected_devices] of the summary is the number of [True] answers. *)
Theorem connect_all_answers_with_the_connection_state
    env (sdk : VirtualDevice → SdkConnect) m :
  let results := fst (fst (connect_all env sdk m)) in
  let m' := snd (fst (connect_all env sdk m)) in
  let before := get_status_summary env m in
  let after := get_status_summary env m' in
  dom results = dom (devices m)
  ∧ dom (devices m') = dom (devices m)
  ∧ emitted m' = emitted m
  ∧ total_devices after = total_devices before
  ∧ simulating_devices after = simulating_devices before
  ∧ total_messages after = total_messages before
  ∧ total_errors after = total_errors before
  ∧ (connected_devices before ≤ connected_devices after)%Z
  ∧ (AZURE_AVAILABLE env = false →
     devices m' = devices m
     ∧ ∀ id, id ∈ dom (devices m) → results !! id = Some false)
  ∧ (AZURE_AVAILABLE env = true →
     (∀ id, results !! id = is_connected <$> get_device m' id)
     ∧ connected_devices after = count_where (λ b, b) results).
Proof.
  unfold connect_all, get_status_summary, get_device. simpl.
  rewrite <- !map_fmap_compose.
  rewrite !dom_fmap_L, !len_fmap, !count_where_fmap, !sum_over_fmap.
  split; [done|]. split; [done|]. split; [done|]. split; [done|].
  split; [apply count_where_ext; intros i d _; apply connect_frame|].
  split; [apply sum_over_ext; intros i d _; apply connect_frame|].
  split; [apply sum_over_ext; intros i d _; apply connect_frame|].
  split; [apply count_where_mono; intros i d _; apply connect_frame|].
  split.
  - intros Haz. split.
    + rewrite <- (map_fmap_id (devices m)) at 2.
      apply map_fmap_ext. intros i d _. simpl.
      by apply connect_frame.
    + intros id [d Hd]%elem_of_dom. rewrite lookup_fmap, Hd. simpl.
      f_equal. by apply connect_frame.
  - intros Haz. split.
    + intros id. rewrite !lookup_fmap.
      destruct (devices m !! id) as [d|]; simpl; [|done].
      f_equal. by apply connect_frame.
    + apply count_where_ext. intros i d _. simpl. symmetry.
      by apply connect_frame.
Qed.

(** X25.  [disconnect_all] keeps every device registered with its
    counters.  A device whose client's [disconnect] returns ends without
    client, not connected and not simulating; when that is so for all of
    them, the summary shows no connected and no simulating device. *)
Theorem disconnect_all_clears_the_summary
    env (sdk_returns : VirtualDevice → bool) m :
  let m' := fst (disconnect_all sdk_returns m) in
  let before := get_status_summary env m in
  let after := get_status_summary env m' in
  dom (devices m') = dom (devices m)
  ∧ emitted m' = emitted m
  ∧ total_devices after = total_devices before
  ∧ total_messages after = total_messages before
  ∧ total_errors after = total_errors before
  ∧ (connected_devices after ≤ connected_devices before)%Z
  ∧ (∀ id d d', get_device m id = Some d → get_device m' id = Some d' →
       sdk_returns d = true →
       client d' = None ∧ is_connected d' = false
       ∧ is_simulating d' = false)
  ∧ ((∀ id d, get_device m id = Some d → sdk_returns d = true) →
     connected_devices after = 0%Z ∧ simulating_devices after = 0%Z).
Proof.
  unfold disconnect_all, get_status_summary, get_device. simpl.
  rewrite <- !map_fmap_compose.
  rewrite !dom_fmap_L, !len_fmap, !count_where_fmap, !sum_over_fmap.
  split; [done|]. split; [done|]. split; [done|].
  split; [apply sum_over_ext; intros i d _; apply disconnect_frame|].
  split; [apply sum_over_ext; intros i d _; apply disconnect_frame|].
  split.
  { apply count_where_mono. intros i d _. simpl.
    pose proof (disconnect_frame (sdk_returns d) d) as (_ & _ & _ & _ & H).
    destruct (is_connected d); [done|]. by rewrite H. }
  split.
  - intros id d d' Hd. rewrite lookup_fmap, Hd. simpl. intros [= <-] Hsdk.
    pose proof (disconnect_frame (sdk_returns d) d) as (_ & _ & _ & H & _).
    destruct (H Hsdk) as (? & ? & ?). done.
  - intros Hall. split; apply count_where_none; intros i d Hd; simpl;
      pose proof (disconnect_frame (sdk_returns d) d) as (_ & _ & _ & H & _);
      by destruct (H (Hall i d Hd)) as (? & ? & ?).
Qed.

End ManagerInvariants.

(** ** The simulation engine *)

Section EngineInvariants.
Import Engine Device Simulation Dict Examples.

Implicit Types (env : Env) (d : VirtualDevice) (s : DeviceSimulation).
Implicit Types (e : SimulationEngine) (id : string).

Local Arguments Generator.generate_message : simpl never.
Local Arguments send_message : simpl never.
Local Arguments loop_turn : simpl never.
Local Arguments start : simpl never.
Local Arguments stop : simpl never.

Lemma stop_if_running s : (if is_running s then stop s else s) = stop s.
Proof. unfold stop. by destruct (is_running s). Qed.

Lemma stop_facts s :
  is_running (stop s) = false
  ∧ message_count (stop s) = message_count s
  ∧ config (device (stop s)) = config (device s)
  ∧ stop (stop s) = stop s.
Proof. unfold stop. by destruct (is_running s) eqn:Hr; simpl; rewrite ?Hr. Qed.

(** X26.  [stop_all] stops every simulation of the engine: afterwards the
    statistics show no running device, the engine flag is down, and the
    registered devices and their message counts are the ones from before.
    It emits one [SIMULATION_STOPPED] event, which carries the number of
    registered simulations - not of those it stopped - and a second
    [stop_all] changes no simulation. *)
Theorem stop_all_leaves_no_simulation_running e :
  let e' := stop_all e in
  let before := get_statistics e in
  let after := get_statistics e' in
  running_devices after = 0%Z
  ∧ engine_running after = false
  ∧ total_devices after = total_devices before
  ∧ total_messages after = total_messages before
  ∧ (∀ id, simulations e' !! id = stop <$> simulations e !! id)
  ∧ Engine.emitted e'
    = Engine.emitted e ++ [Engine.SIMULATION_STOPPED (total_devices before)]
  ∧ simulations (stop_all e') = simulations e'.
Proof.
  unfold stop_all, get_statistics. simpl.
  rewrite len_fmap, count_where_fmap, sum_over_fmap.
  split.
  { apply count_where_none. intros i s _. rewrite stop_if_running.
    apply stop_facts. }
  split; [done|]. split; [done|]. split.
  { apply sum_over_ext. intros i s _. rewrite stop_if_running.
    apply stop_facts. }
  split.
  { intros id. rewrite lookup_fmap.
    destruct (simulations e !! id) as [s|]; simpl; [|done].
    by rewrite stop_if_running. }
  split; [done|].
  rewrite <- map_fmap_compose. apply map_fmap_ext. intros i s _. simpl.
  rewrite !stop_if_running. apply stop_facts.
Qed.

(** *** The flags of a simulation *)

Lemma new_simulation_flags env d c :
  is_simulating d = false → flags_agree (new_simulation env d c).
Proof. intros Hd. unfold flags_agree. simpl. by rewrite Hd. Qed.

Lemma start_flags env s :
  flags_agree s →
  flags_agree (start env s)
  ∧ config (device (start env s)) = config (device s).
Proof.
  unfold start. destruct (is_running s) eqn:Hr; [done|].
  intros _. unfold flags_agree. simpl. done.
Qed.

Lemma stop_flags s :
  flags_agree s →
  flags_agree (stop s) ∧ config (device (stop s)) = config (device s).
Proof.
  unfold stop. destruct (is_running s) eqn:Hr; simpl; [|done].
  intros _. unfold flags_agree. simpl.
  split; [|done]. split; [done|]. by destruct (_simulation_task s).
Qed.

Lemma loop_turn_flags env s :
  flags_agree s →
  flags_agree (loop_turn env s)
  ∧ config (device (loop_turn env s)) = config (device s).
Proof.
  intros [Hsim Hrun].
  destruct (_simulation_task s) as [[]|] eqn:Ht.
  - destruct (is_running s) eqn:Hr.
    + destruct (limit_reached s) eqn:Hl.
      * rewrite loop_turn_finish by auto. by unfold flags_agree.
      * destruct (loop_turn_cases env s Ht Hr Hl)
          as (new & s1 & _ & He1 & _ & _ & [[-> _]|(He & _)]).
        -- split; [by unfold flags_agree|]. simpl.
           apply (ext_config _ _ _ _ He1).
        -- destruct He as [_ Hrn Htk Hcfg _ _ _ _ _ _ _ _ Hs _ _ _].
           unfold flags_agree. rewrite Hs, Hrn, Htk, Hsim, Hr, Ht. done.
    + rewrite loop_turn_finish by auto. by unfold flags_agree.
  - rewrite loop_turn_finished by done. unfold flags_agree.
    by rewrite Ht.
  - unfold loop_turn. rewrite Ht. unfold flags_agree. by rewrite Ht.
Qed.

(** What holds of every simulation of an engine. *)
Local Abbreviation sound e :=
  (map_Forall (λ id s, device_id (config (device s)) = id ∧ flags_agree s)
     (simulations e)).

Lemma sound_update e id s (h : DeviceSimulation → DeviceSimulation) :
  (∀ s, flags_agree s →
        flags_agree (h s) ∧ config (device (h s)) = config (device s)) →
  sound e → simulations e !! id = Some s →
  map_Forall (λ id s, device_id (config (device s)) = id ∧ flags_agree s)
    (<[id := h s]> (simulations e)).
Proof.
  intros Hh He Hs. apply map_Forall_insert_2; [|done].
  destruct (He id s Hs) as [Hid Hf]. destruct (Hh s Hf) as [? Hc].
  by rewrite Hc.
Qed.

Lemma sound_fmap e (h : DeviceSimulation → DeviceSimulation) :
  (∀ s, flags_agree s →
        flags_agree (h s) ∧ config (device (h s)) = config (device s)) →
  sound e →
  map_Forall (λ id s, device_id (config (device s)) = id ∧ flags_agree s)
    (h <$> simulations e).
Proof.
  intros Hh He. apply map_Forall_fmap. intros id s Hs. simpl.
  destruct (He id s Hs) as [Hid Hf]. destruct (Hh s Hf) as [? Hc].
  by rewrite Hc.
Qed.

Lemma step_sound env e k :
  match k with
  | AddDeviceSimulation d _ => is_simulating d = false
  | _ => True
  end →
  sound e → sound (step env e k).
Proof.
  intros Hk He. destruct k as [d c|id| | |id|id|id]; simpl.
  - apply map_Forall_insert_2; [|done].
    split; [done|]. by apply new_simulation_flags.
  - unfold remove_device_simulation.
    destruct (simulations e !! id) as [s|] eqn:Hs; [|done].
    destruct (is_running s); simpl; by apply map_Forall_delete.
  - apply sound_fmap; [|done]. apply start_flags.
  - apply sound_fmap; [|done]. intros s Hf. rewrite stop_if_running.
    by apply stop_flags.
  - unfold start_device.
    destruct (simulations e !! id) as [s|] eqn:Hs; [|done].
    eapply sound_update; eauto. apply start_flags.
  - unfold stop_device.
    destruct (simulations e !! id) as [s|] eqn:Hs; [|done].
    eapply sound_update; eauto. apply stop_flags.
  - unfold turn.
    destruct (simulations e !! id) as [s|] eqn:Hs; [|done].
    eapply sound_update; eauto. apply loop_turn_flags.
Qed.

Lemma run_snoc_engine env ks k e :
  run env (ks ++ [k]) e = step env (run env ks e) k.
Proof. unfold run. by rewrite foldl_app. Qed.



(** *** One call, one simulation *)

Lemma step_untouched env e k id :
  touches k id = false →
  simulations (step env e k) !! id = simulations e !! id
  ∧ Engine.is_running (step env e k) = Engine.is_running e
  ∧ Engine.emitted (step env e k) = Engine.emitted e.
Proof.
  destruct k as [d c|j| | |j|j|j]; simpl; try done;
    intros Hne%bool_decide_eq_false.
  - by rewrite lookup_insert_ne.
  - unfold remove_device_simulation.
    destruct (simulations e !! j) as [s|]; [|done].
    destruct (is_running s); simpl; by rewrite lookup_delete_ne.
  - unfold start_device. destruct (simulations e !! j) as [s|]; [|done].
    simpl. by rewrite lookup_insert_ne.
  - unfold stop_device. destruct (simulations e !! j) as [s|]; [|done].
    simpl. by rewrite lookup_insert_ne.
  - unfold turn. destruct (simulations e !! j) as [s|]; [|done].
    simpl. by rewrite lookup_insert_ne.
Qed.

(** X28.  [add_device_simulation], [remove_device_simulation],
    [start_device], [stop_device] and the loop of a simulation change the
    simulation registered under the id they are given and nothing else: a
    sequence of such calls for other ids leaves a simulation as it was, and
    leaves the engine's own flag and events alone - [start_device] does not
    mark the engine as running.  With an id under which nothing is
    registered, [start_device], [stop_device] and
    [remove_device_simulation] change nothing at all, and the removal does
    not raise. *)
Theorem engine_calls_change_the_named_simulation_only
    env (ks : list call) e id :
  Forall (λ k, touches k id = false) ks →
  let e' := run env ks e in
  simulations e' !! id = simulations e !! id
  ∧ Engine.is_running e' = Engine.is_running e
  ∧ Engine.emitted e' = Engine.emitted e
  ∧ (simulations e !! id = None →
     start_device env e' id = e'
     ∧ stop_device e' id = e'
     ∧ ∀ loop_running,
         remove_device_simulation loop_running e' id = Ok (e', None)).
Proof.
  intros Hks. cbv zeta.
  assert (H : simulations (run env ks e) !! id = simulations e !! id
              ∧ Engine.is_running (run env ks e) = Engine.is_running e
              ∧ Engine.emitted (run env ks e) = Engine.emitted e).
  { induction ks as [|k ks IH] using rev_ind; [done|].
    apply Forall_app in Hks as [Hks Hk]. apply Forall_inv in Hk.
    rewrite run_snoc_engine.
    destruct (step_untouched env (run env ks e) k id Hk) as (-> & -> & ->).
    by apply IH. }
  destruct H as (Hs & Hr & Hem). split; [done|]. split; [done|].
  split; [done|]. intros Hnone.
  unfold start_device, stop_device, remove_device_simulation.
  by rewrite Hs, Hnone.
Qed.

Lemma engine_calls_witness :
  simulations
    (run offline_env [StartDevice "dev-1"; Turn "dev-1"]
       (add_device_simulation offline_env
          (add_device_simulation offline_env new_engine motion_device
             five_messages)
          gps_device five_messages))
    !! "dev-2"
  = Some (new_simulation offline_env gps_device five_messages).
Proof.
  pose proof (engine_calls_change_the_named_simulation_only offline_env
                [StartDevice "dev-1"; Turn "dev-1"]
                (add_device_simulation offline_env
                   (add_device_simulation offline_env new_engine
                      motion_device five_messages)
                   gps_device five_messages)
                "dev-2") as H.
  destruct H as (-> & _).
  - repeat constructor.
  - reflexivity.
Defined.

End EngineInvariants.

(** ** The event bus *)

Section EventBusInvariants.
Import Events.

Context {EventType : Type} `{Countable EventType}.
Context {Data Handler World : Type} `{EqDecision Handler}.

Local Abbreviation Bus := (@EventBus EventType _ _ Handler).

Implicit Types (bus : Bus) (t : EventType) (h : Handler).
Implicit Types (l : list Handler).

Lemma list_remove_notin h l : h ∉ l → list_remove h l = l.
Proof.
  induction l as [|y l IH]; [done|]. intros Hn. simpl.
  apply not_elem_of_cons in Hn as [Hne Hn].
  rewrite decide_False by done. by rewrite IH.
Qed.

Lemma list_remove_subset h x l : x ∈ list_remove h l → x ∈ l.
Proof.
  induction l as [|y l IH]; [done|]. simpl.
  destruct (decide (y = h)); [by right|].
  intros [->|Hx]%elem_of_cons; [by left|]. right. by apply IH.
Qed.

Lemma list_remove_NoDup h l :
  NoDup l → NoDup (list_remove h l) ∧ h ∉ list_remove h l.
Proof.
  induction 1 as [|y l Hy Hl IH]; simpl.
  - split; [constructor|]. apply not_elem_of_nil.
  - destruct (decide (y = h)) as [->|Hne]; [done|].
    destruct IH as [IH1 IH2]. split.
    + constructor; [|done]. intros Hin. by apply Hy, (list_remove_subset h).
    + apply not_elem_of_cons. done.
Qed.

Lemma list_remove_snoc h l : h ∉ l → list_remove h (l ++ [h]) = l.
Proof.
  induction l as [|y l IH]; simpl.
  - intros _. by rewrite decide_True.
  - intros [Hne Hn]%not_elem_of_cons.
    rewrite decide_False by done. by rewrite IH.
Qed.

Lemma handlers_of_subscribe bus t h t' :
  handlers_of (subscribe bus t h) t'
  = if decide (t' = t)
    then if decide (h ∈ handlers_of bus t) then handlers_of bus t
         else handlers_of bus t ++ [h]
    else handlers_of bus t'.
Proof.
  unfold handlers_of, subscribe, EventBus in *.
  destruct (bus !! t) as [l|] eqn:Ht; simpl.
  - rewrite Ht. simpl. destruct (decide (t' = t)) as [->|Hne].
    + destruct (decide (h ∈ l)); [by rewrite Ht|].
      by rewrite lookup_insert_eq.
    + destruct (decide (h ∈ l)); [done|]. by rewrite lookup_insert_ne.
  - rewrite lookup_insert_eq. simpl.
    destruct (decide (h ∈ [])) as [Hin|_];
      [by apply not_elem_of_nil in Hin|].
    rewrite insert_insert_eq.
    destruct (decide (t' = t)) as [->|Hne].
    + by rewrite lookup_insert_eq.
    + by rewrite lookup_insert_ne.
Qed.

Lemma handlers_of_unsubscribe bus t h t' :
  handlers_of (unsubscribe bus t h) t'
  = if decide (t' = t) then list_remove h (handlers_of bus t)
    else handlers_of bus t'.
Proof.
  unfold handlers_of, unsubscribe, EventBus in *.
  destruct (bus !! t) as [l|] eqn:Ht; simpl.
  - destruct (decide (h ∈ l)) as [Hin|Hn].
    + destruct (decide (t' = t)) as [->|Hne].
      * by rewrite lookup_insert_eq.
      * by rewrite lookup_insert_ne.
    + destruct (decide (t' = t)) as [->|Hne]; [|done].
      rewrite Ht. simpl. by rewrite list_remove_notin.
  - destruct (decide (t' = t)) as [->|Hne]; [|done]. by rewrite Ht.
Qed.

Lemma step_NoDup bus (k : subscription) :
  (∀ t, NoDup (handlers_of bus t)) → ∀ t, NoDup (handlers_of (step bus k) t).
Proof.
  intros Hb t'. destruct k as [t h|t h]; simpl.
  - rewrite handlers_of_subscribe.
    destruct (decide (t' = t)); [|done].
    destruct (decide (h ∈ handlers_of bus t)); [done|].
    apply NoDup_app. split; [done|]. split; [|apply NoDup_singleton].
    intros x Hx ->%list_elem_of_singleton. done.
  - rewrite handlers_of_unsubscribe.
    destruct (decide (t' = t)); [|done]. by apply list_remove_NoDup.
Qed.

Lemma run_NoDup (ks : list subscription) t :
  NoDup (handlers_of (run ks (new_bus : Bus)) t).
Proof.
  revert t. induction ks as [|k ks IH] using rev_ind; intros t.
  - unfold run, new_bus, handlers_of, EventBus. simpl. rewrite lookup_empty.
    constructor.
  - unfold run. rewrite foldl_app. simpl. by apply step_NoDup.
Qed.

Section emitting.
Context (call : Handler → Event (EventType := EventType) (Data := Data)
                → Bus * World → Bus * World * bool).

Lemma called_handlers (st : Bus * World) t src (d : Data) now :
  called call st t src d now = handlers_of (fst st) t.
Proof.
  unfold called, emit.
  generalize (handlers_of (fst st) t) as l.
  assert (Hgen : ∀ l (acc : (Bus * World) * list (Handler * bool)),
    fst <$> snd (foldl (λ acc handler,
                          let '(st', raised) :=
                            call handler (mkEvent t src d now) (fst acc) in
                          (st', snd acc ++ [(handler, raised)]))
                   acc l)
    = (fst <$> snd acc) ++ l).
  { induction l as [|h l IH]; intros acc; simpl.
    - by rewrite app_nil_r.
    - rewrite IH. destruct (call h _ (fst acc)) as [st' raised]. simpl.
      rewrite fmap_app. simpl. by rewrite <- app_assoc. }
  intros l. by rewrite Hgen.
Qed.

(** X29.  [emit] calls exactly the handlers that are subscribed to the
    event type when it starts, in the order of their subscription, whether
    or not one of them raises or changes the subscriptions meanwhile.  On a
    bus that started empty no handler is called twice for one event,
    however often it subscribed; a handler that subscribes is called, one
    that unsubscribes is not, and neither changes which other handlers are
    called or what another event type calls. *)
Theorem emit_calls_each_subscriber_once
    (ks : list subscription) (w : World) t h src (d : Data) now :
  let bus : Bus := run ks new_bus in
  let calls (b : Bus) (t' : EventType) := called call (b, w) t' src d now in
  calls bus t = handlers_of bus t
  ∧ NoDup (calls bus t)
  ∧ h ∈ calls (subscribe bus t h) t
  ∧ h ∉ calls (unsubscribe bus t h) t
  ∧ calls (subscribe (subscribe bus t h) t h) t = calls (subscribe bus t h) t
  ∧ (h ∉ calls bus t →
     calls (subscribe bus t h) t = calls bus t ++ [h]
     ∧ calls (unsubscribe (subscribe bus t h) t h) t = calls bus t)
  ∧ (∀ h', h' ≠ h →
       (h' ∈ calls (subscribe bus t h) t ↔ h' ∈ calls bus t)
       ∧ (h' ∈ calls (unsubscribe bus t h) t ↔ h' ∈ calls bus t))
  ∧ ∀ t', t' ≠ t →
      calls (subscribe bus t h) t' = calls bus t'
      ∧ calls (unsubscribe bus t h) t' = calls bus t'.
Proof.
  intros bus calls. unfold calls. rewrite !called_handlers. simpl.
  pose proof (run_NoDup ks t) as Hnd. fold bus in Hnd.
  rewrite !handlers_of_unsubscribe, !handlers_of_subscribe.
  destruct (decide (t = t)) as [_|?]; [|done].
  split; [done|]. split; [done|]. split.
  { destruct (decide (h ∈ handlers_of bus t)); [done|].
    apply elem_of_app. right. by apply list_elem_of_singleton. }
  split; [by apply list_remove_NoDup|]. split.
  { destruct (decide (h ∈ handlers_of bus t)) as [Hin|Hn].
    - by rewrite decide_True.
    - rewrite decide_True; [done|].
      apply elem_of_app. right. by apply list_elem_of_singleton. }
  split.
  { intros Hn. rewrite decide_False by done.
    split; [done|]. by apply list_remove_snoc. }
  split.
  - intros h' Hne. split.
    + destruct (decide (h ∈ handlers_of bus t)); [done|].
      rewrite elem_of_app, list_elem_of_singleton. naive_solver.
    + split; [apply list_remove_subset|].
      generalize (handlers_of bus t) as l. induction l as [|y l IH]; [done|].
      simpl. destruct (decide (y = h)) as [->|Hy].
      * by intros [?|?]%elem_of_cons.
      * rewrite !elem_of_cons. naive_solver.
  - intros t' Hne. rewrite !called_handlers. simpl.
    rewrite !handlers_of_unsubscribe, !handlers_of_subscribe.
    by destruct (decide (t' = t)).
Qed.

End emitting.

End EventBusInvariants.
